(** * Reminder validity and scheduling engine

    A shallow embedding of the reminder logic of the application:

    - [src/lib/reminder-job.ts]   the in-memory job processor
                                  ([MockReminderService]);
    - [src/lib/validations.ts]    the zod schemas [reminderSchema] and
                                  [eventSchema];
    - [src/actions/reminder-actions.ts]  [createReminder], [updateReminder],
                                  [createOrUpdateReminder], [deleteReminder];
    - [src/actions/event-actions.ts]     [updateEvent] and its adjustment of
                                  the reminders of an event whose date moved;
                                  [createEvent], [deleteEvent],
                                  [getEventById], [getEventsInternal];
    - [src/actions/auth-actions.ts], [src/lib/auth.ts]
                                  [register] and [authorize];
    - [src/middleware.ts]         [middleware];
    - [src/components/reminder-form.tsx]  the presets of the reminder form;
    - [src/lib/utils.ts]          [getTimeDifference], [isPastDate].

    Conventions of the model.

    - An instant (a JavaScript [Date] holding a time value) is the integer
      number of milliseconds since the epoch, a [Z].  [d.getTime()] is the
      identity, [a <= b] on dates compares the time values.  All instants the
      program computes are taken to lie inside the range of [Date], where
      the arithmetic of [Number] on them is exact.  A [Date] that enters from
      a form may be an Invalid Date: such an input is an [option Z].
    - The tables of the relational store are lists of rows; the [Map] of the
      job processor is a [gmap] from job id to job.  A string is a sequence
      of bytes, whose length is that of the JavaScript string for ASCII
      text.
    - [await] is sequencing.  What the program reads from its environment
      (the session, the clock, the identifier the store gives a new row, the
      outcome of a delivery) is an explicit argument.
    - What the program leaves to a library or to the database (bcrypt, the
      address test of zod, the order and the text search of the store, the
      change of the local clock that [addDays] sees) is a parameter of the
      function that uses it.
    - Writes to the console and the revalidation of cached pages are not part
      of the state. *)

From Stdlib Require Import ZArith Lia.
From stdpp Require Import gmap strings list fin_maps.

Local Open Scope Z_scope.

(** ** The job processor: [src/lib/reminder-job.ts] *)

Module Scheduler.

(** [status: 'pending' | 'sent' | 'failed'] *)
Inductive JobStatus := pending | sent | failed.

#[global] Instance JobStatus_eq_dec : EqDecision JobStatus.
Proof. solve_decision. Defined.

(** [interface ReminderJob] *)
Record ReminderJob := mkJob {
  id : string;
  eventId : string;
  userId : string;
  eventTitle : string;
  eventDate : Z;
  reminderTime : Z;
  status : JobStatus
}.

(** [job.status = st] *)
Definition set_status (st : JobStatus) (job : ReminderJob) : ReminderJob :=
  mkJob (id job) (eventId job) (userId job) (eventTitle job)
        (eventDate job) (reminderTime job) st.

(** [job.reminderTime = t] *)
Definition set_reminderTime (t : Z) (job : ReminderJob) : ReminderJob :=
  mkJob (id job) (eventId job) (userId job) (eventTitle job)
        (eventDate job) t (status job).

(** The two closures the scan hands to [setTimeout].  Both capture the
    job object only to read [job.id]. *)
Inductive TimerCallback :=
| RemoveCompleted (jobId : string)
    (* () => { this.jobs.delete(job.id); } *)
| RetryFailed (jobId : string).
    (* () => { if (this.jobs.has(job.id)) { ... } } *)

#[global] Instance TimerCallback_eq_dec : EqDecision TimerCallback.
Proof. solve_decision. Defined.

(** A timeout that has been set and has not fired yet: the instant from
    which the runtime may run it, and what it runs. *)
Record Timer := mkTimer {
  fireAt : Z;
  callback : TimerCallback
}.

(** The state of the singleton [reminderService]: the private [jobs] map
    and the timeouts its scans have set. *)
Record MockReminderService := mkService {
  jobs : gmap string ReminderJob;
  timeouts : list Timer
}.

Definition with_jobs (m : gmap string ReminderJob) (s : MockReminderService)
  : MockReminderService :=
  mkService m (timeouts s).

(** [setTimeout(cb, delay)] called at instant [t]. *)
Definition setTimeout (t : Z) (cb : TimerCallback) (delay : Z)
    (s : MockReminderService) : MockReminderService :=
  mkService (jobs s) (timeouts s ++ [mkTimer (t + delay) cb]).

Definition empty : MockReminderService := mkService ∅ [].

(** [async scheduleReminder(reminderId, eventId, userId, eventTitle,
    eventDate, reminderTime)] *)
Definition scheduleReminder (reminderId eventId userId eventTitle : string)
    (eventDate reminderTime : Z) (s : MockReminderService)
  : MockReminderService :=
  let job := mkJob reminderId eventId userId eventTitle
                   eventDate reminderTime pending in
  with_jobs (<[reminderId := job]> (jobs s)) s.

(** [async cancelReminder(reminderId)] *)
Definition cancelReminder (reminderId : string) (s : MockReminderService)
  : MockReminderService :=
  match jobs s !! reminderId with
  | Some _ => with_jobs (delete reminderId (jobs s)) s
  | None => s
  end.

(** [async updateReminder(reminderId, newReminderTime)]: the job found
    under the key is changed in place. *)
Definition updateReminder (reminderId : string) (newReminderTime : Z)
    (s : MockReminderService) : MockReminderService :=
  match jobs s !! reminderId with
  | Some job =>
      with_jobs
        (<[reminderId := set_status pending
                           (set_reminderTime newReminderTime job)]> (jobs s))
        s
  | None => s
  end.

(** [addMinutes] of date-fns. *)
Definition addMinutes (date : Z) (amount : Z) : Z := date + amount * 60000.

(** What [await this.sendReminder(job)] does as seen by the scan: the
    instant at which the promise settles and whether it resolved
    ([true]) or rejected ([false]).  It is given by the notification
    collaborator. *)
Record SendOutcome := mkOutcome {
  settledAt : Z;
  resolved : bool
}.

(** The predicate of the filter in [processReminders]:
    [job.status === 'pending' && job.reminderTime <= now]. *)
Definition isDue (now : Z) (job : ReminderJob) : bool :=
  bool_decide (status job = pending) && (reminderTime job <=? now).

(** [Array.from(this.jobs.values()).filter(...)], each job together with
    the key under which the map holds it.  The jobs come in the order of
    [map_to_list], where the [Map] gives them in the order of insertion;
    a turn of the loop below changes the entry of its own job only. *)
Definition pendingJobs (now : Z) (s : MockReminderService)
  : list (string * ReminderJob) :=
  List.filter (fun kj => isDue now kj.2) (map_to_list (jobs s)).

(** The body of the [for] loop for one job.  The job object is the one
    the map holds under [key]; an assignment to one of its fields shows in
    the map as long as the entry is there. *)
Definition processJob (sendReminder : ReminderJob -> SendOutcome)
    (key : string) (job : ReminderJob) (s : MockReminderService)
  : MockReminderService :=
  let out := sendReminder job in
  if resolved out then
    (* try: job.status = 'sent'; setTimeout(..., 60 * 60 * 1000) *)
    setTimeout (settledAt out) (RemoveCompleted (id job)) (60 * 60 * 1000)
      (with_jobs (alter (set_status sent) key (jobs s)) s)
  else
    (* catch: job.status = 'failed'; setTimeout(..., 5 * 60 * 1000) *)
    setTimeout (settledAt out) (RetryFailed (id job)) (5 * 60 * 1000)
      (with_jobs (alter (set_status failed) key (jobs s)) s).

(** The status the loop body leaves on a job. *)
Definition verdict (sendReminder : ReminderJob -> SendOutcome)
    (job : ReminderJob) : JobStatus :=
  if resolved (sendReminder job) then sent else failed.

(** The timeout the loop body sets for a job. *)
Definition timerFor (sendReminder : ReminderJob -> SendOutcome)
    (job : ReminderJob) : Timer :=
  if resolved (sendReminder job)
  then mkTimer (settledAt (sendReminder job) + 60 * 60 * 1000)
               (RemoveCompleted (id job))
  else mkTimer (settledAt (sendReminder job) + 5 * 60 * 1000)
               (RetryFailed (id job)).

(** One turn of the [for] loop: the job is handed to [sendReminder]
    (and recorded as such), then the [try] or the [catch] branch runs.
    Nothing escapes the [try ... catch], so the loop goes on. *)
Definition loopStep (sendReminder : ReminderJob -> SendOutcome)
    (acc : list ReminderJob * MockReminderService)
    (kj : string * ReminderJob) : list ReminderJob * MockReminderService :=
  (acc.1 ++ [kj.2], processJob sendReminder kj.1 kj.2 acc.2).

(** [private async processReminders()], run at instant [now].  Returns
    the jobs handed to [sendReminder], in order, and the new state. *)
Definition processReminders (now : Z)
    (sendReminder : ReminderJob -> SendOutcome) (s : MockReminderService)
  : list ReminderJob * MockReminderService :=
  let due := pendingJobs now s in
  if (length due =? 0)%nat then ([], s)
  else foldl (loopStep sendReminder) ([], s) due.

(** The body of a timeout callback, run at instant [now]. *)
Definition runCallback (now : Z) (cb : TimerCallback)
    (s : MockReminderService) : MockReminderService :=
  match cb with
  | RemoveCompleted jobId => with_jobs (delete jobId (jobs s)) s
  | RetryFailed jobId =>
      match jobs s !! jobId with
      | Some retryJob =>
          with_jobs
            (<[jobId := set_reminderTime (addMinutes now 5)
                          (set_status pending retryJob)]> (jobs s))
            s
      | None => s
      end
  end.

Definition isExpired (now : Z) (tm : Timer) : bool := fireAt tm <=? now.

(** The runtime at instant [now]: every timeout whose delay has elapsed
    runs and is forgotten.  They run here in the order in which they
    were set; the table that results is the same in any order
    ([callbacks_any_order]). *)
Definition fireTimers (now : Z) (s : MockReminderService)
  : MockReminderService :=
  let expired := List.filter (isExpired now) (timeouts s) in
  let waiting := List.filter (fun tm => negb (isExpired now tm)) (timeouts s) in
  foldl (fun st tm => runCallback now (callback tm) st)
        (mkService (jobs s) waiting) expired.

End Scheduler.

(** ** The relational store behind [prisma] *)

Module Event.
(** [enum EventStatus] *)
Inductive EventStatus := DRAFT | PUBLISHED | CANCELED.

(** A row of the [Event] table ([createdAt] and [updatedAt] left out). *)
Record t := mk {
  id : string;
  title : string;
  description : option string;
  date : Z;
  location : string;
  status : EventStatus;
  userId : string
}.
End Event.

Module Reminder.
(** A row of the [Reminder] table ([createdAt] and [updatedAt] left
    out). *)
Record t := mk {
  id : string;
  reminderTime : Z;
  eventId : string;
  userId : string
}.

Definition set_reminderTime (time : Z) (r : t) : t :=
  mk (id r) time (eventId r) (userId r).
End Reminder.

Module Prisma.

(** The row of the [Reminder] table with primary key [rid]. *)
Definition reminder_byId (rid : string) (rows : list Reminder.t)
  : option Reminder.t :=
  List.find (fun r => bool_decide (Reminder.id r = rid)) rows.

(** [prisma.reminder.create({ data: { reminderTime, eventId, userId } })].
    [newId] is the identifier the store generates for the row; a row
    with that primary key makes the call throw ([None]). *)
Definition reminder_create (newId : string) (reminderTime : Z)
    (eventId userId : string) (rows : list Reminder.t)
  : option (Reminder.t * list Reminder.t) :=
  match reminder_byId newId rows with
  | Some _ => None
  | None =>
      let row := Reminder.mk newId reminderTime eventId userId in
      Some (row, rows ++ [row])
  end.

(** [prisma.reminder.update({ where: { id }, data: { reminderTime } })]:
    the updated row and the new table; throws ([None]) when no row has
    the id. *)
Definition reminder_update (rid : string) (reminderTime : Z)
    (rows : list Reminder.t) : option (Reminder.t * list Reminder.t) :=
  match reminder_byId rid rows with
  | Some row =>
      Some (Reminder.set_reminderTime reminderTime row,
            List.map (fun r => if bool_decide (Reminder.id r = rid)
                               then Reminder.set_reminderTime reminderTime r
                               else r) rows)
  | None => None
  end.

(** [prisma.reminder.delete({ where: { id } })]; throws ([None]) when no
    row has the id. *)
Definition reminder_delete (rid : string) (rows : list Reminder.t)
  : option (list Reminder.t) :=
  match reminder_byId rid rows with
  | Some _ =>
      Some (List.filter (fun r => negb (bool_decide (Reminder.id r = rid)))
                        rows)
  | None => None
  end.

(** [prisma.event.update({ where: { id }, data })] with the five fields
    of a validated event form. *)
Definition event_update (eid : string) (title : string)
    (description : option string) (date : Z) (location : string)
    (status : Event.EventStatus) (rows : list Event.t)
  : option (Event.t * list Event.t) :=
  let upd e := Event.mk (Event.id e) title description date location status
                        (Event.userId e) in
  match List.find (fun e => bool_decide (Event.id e = eid)) rows with
  | Some row =>
      Some (upd row,
            List.map (fun e => if bool_decide (Event.id e = eid)
                               then upd e else e) rows)
  | None => None
  end.

End Prisma.

(** The session [auth()] resolves to. *)
Module Auth.
Record User := mkUser { id : string; email : string }.
Record Session := mkSession { user : option User }.

(** [session?.user] *)
Definition sessionUser (session : option Session) : option User :=
  match session with
  | Some s => user s
  | None => None
  end.
End Auth.

(** Everything the server actions read and write: the two tables and the
    job processor they share. *)
Record World := mkWorld {
  events : list Event.t;
  reminders : list Reminder.t;
  reminderService : Scheduler.MockReminderService
}.

(** The [{ error: ... }] objects the actions return, by return site. *)
Inductive ActionError :=
| NotAuthenticated     (* 'Session expired, please log in again.' *)
| SchemaError (field : string)
                       (* `${Field}: ${errors.field._errors[0]}` *)
| SchemaErrorOther     (* 'Please check your ... and try again.' *)
| EventNotFound        (* 'Event not found or you do not have permission ...' *)
| InvalidWindow        (* 'Reminder must be between 15 minutes and 7 days
                          before the event.' *)
| DuplicateReminder    (* 'A reminder already exists for this event.' *)
| ReminderNotFound     (* 'Reminder not found or you do not have permission
                          ...' *)
| DuplicateEvent       (* 'Event with this title and date already exists.' *)
| ActionFailed.        (* the catch block: 'Failed to ... Please try again.' *)

Inductive ActionResult (A : Type) :=
| Success (data : A)   (* { success: true, ... } *)
| Failure (error : ActionError).
Arguments Success {A} data.
Arguments Failure {A} error.

(** ** The schemas: [src/lib/validations.ts] *)

Module Validations.

(** What a form or a caller hands to [reminderSchema]: [eventId] is
    [None] for [null], [reminderTime] is [None] for an Invalid Date. *)
Record RawReminder := mkRawReminder {
  raw_eventId : option string;
  raw_reminderTime : option Z
}.

(** [validatedData.data] *)
Record ReminderData := mkReminderData {
  eventId : string;
  reminderTime : Z
}.

(** [validatedData.error.format()], as far as the actions look at it:
    whether [errors.eventId] and [errors.reminderTime] hold a message. *)
Record ReminderErrors := mkReminderErrors {
  err_eventId : bool;
  err_reminderTime : bool
}.

(** [eventId: z.string().min(1, 'Event ID is required')] *)
Definition eventId_ok (v : option string) : option string :=
  match v with
  | Some s => if (1 <=? String.length s)%nat then Some s else None
  | None => None
  end.

(** [reminderSchema.safeParse]: an object of [eventId] and
    [reminderTime: z.coerce.date()], refined by a function that returns
    [true]. *)
Definition reminderSchema_safeParse (raw : RawReminder)
  : ReminderData + ReminderErrors :=
  match eventId_ok (raw_eventId raw), raw_reminderTime raw with
  | Some eid, Some time => inl (mkReminderData eid time)
  | e, t => inr (mkReminderErrors (bool_decide (e = None))
                                  (bool_decide (t = None)))
  end.

End Validations.

(** ** The reminder actions: [src/actions/reminder-actions.ts] *)

Module ReminderActions.
Import Validations.

(** [interface ReminderFormInput { reminderTime: Date; eventId: string }] *)
Record ReminderFormInput := mkInput {
  in_reminderTime : option Z;
  in_eventId : string
}.

Definition toRaw (data : ReminderFormInput) : RawReminder :=
  mkRawReminder (Some (in_eventId data)) (in_reminderTime data).

(** The block every action runs when [validatedData.success] is false. *)
Definition schemaFailure (errors : ReminderErrors) : ActionError :=
  if err_eventId errors then SchemaError "Event ID"
  else if err_reminderTime errors then SchemaError "Reminder Time"
  else SchemaErrorOther.

(** [prisma.event.findFirst({ where: { id, userId } })] *)
Definition findEvent (eid uid : string) (w : World) : option Event.t :=
  List.find (fun e => bool_decide (Event.id e = eid)
                      && bool_decide (Event.userId e = uid)) (events w).

(** [prisma.reminder.findFirst({ where: { eventId, userId } })] *)
Definition findReminderForEvent (eid uid : string) (w : World)
  : option Reminder.t :=
  List.find (fun r => bool_decide (Reminder.eventId r = eid)
                      && bool_decide (Reminder.userId r = uid)) (reminders w).

(** [prisma.reminder.findFirst({ where: { id, userId } })] *)
Definition findReminderById (rid uid : string) (w : World)
  : option Reminder.t :=
  List.find (fun r => bool_decide (Reminder.id r = rid)
                      && bool_decide (Reminder.userId r = uid)) (reminders w).

(** The test of [createReminder] on
    [timeBeforeEvent = event.date.getTime() - reminderTime.getTime()];
    [true] makes the action return the window error. *)
Definition createReminder_outsideWindow (eventDate reminderTime : Z) : bool :=
  let fifteenMinutes := 15 * 60 * 1000 in
  let sevenDays := 7 * 24 * 60 * 60 * 1000 in
  let timeBeforeEvent := eventDate - reminderTime in
  (timeBeforeEvent <? fifteenMinutes) || (timeBeforeEvent >? sevenDays).

(** The same test as written in [updateReminder]. *)
Definition updateReminder_outsideWindow (eventDate reminderTime : Z) : bool :=
  let fifteenMinutes := 15 * 60 * 1000 in
  let sevenDays := 7 * 24 * 60 * 60 * 1000 in
  let timeBeforeEvent := eventDate - reminderTime in
  (timeBeforeEvent <? fifteenMinutes) || (timeBeforeEvent >? sevenDays).

(** The same test as written in [createOrUpdateReminder]. *)
Definition createOrUpdateReminder_outsideWindow
    (eventDate reminderTime : Z) : bool :=
  let fifteenMinutes := 15 * 60 * 1000 in
  let sevenDays := 7 * 24 * 60 * 60 * 1000 in
  let timeBeforeEvent := eventDate - reminderTime in
  (timeBeforeEvent <? fifteenMinutes) || (timeBeforeEvent >? sevenDays).

(** [export async function createReminder(data)].  [session] is what
    [auth()] resolves to, [newId] the id the store gives the new row. *)
Definition createReminder (session : option Auth.Session) (newId : string)
    (data : ReminderFormInput) (w : World)
  : ActionResult Reminder.t * World :=
  match Auth.sessionUser session with
  | None => (Failure NotAuthenticated, w)
  | Some user =>
    let userId := Auth.id user in
    match reminderSchema_safeParse (toRaw data) with
    | inr errors => (Failure (schemaFailure errors), w)
    | inl validatedData =>
      match findEvent (eventId validatedData) userId w with
      | None => (Failure EventNotFound, w)
      | Some event =>
        if createReminder_outsideWindow (Event.date event)
                                        (reminderTime validatedData)
        then (Failure InvalidWindow, w)
        else
          match findReminderForEvent (eventId validatedData) userId w with
          | Some _ => (Failure DuplicateReminder, w)
          | None =>
            match Prisma.reminder_create newId (reminderTime validatedData)
                    (eventId validatedData) userId (reminders w) with
            | None => (Failure ActionFailed, w)
            | Some (reminder, rows) =>
              let service :=
                Scheduler.scheduleReminder (Reminder.id reminder)
                  (Event.id event) userId (Event.title event)
                  (Event.date event) (reminderTime validatedData)
                  (reminderService w) in
              (Success (Reminder.mk (Reminder.id reminder)
                          (Reminder.reminderTime reminder)
                          (Reminder.eventId reminder) userId),
               mkWorld (events w) rows service)
            end
          end
      end
    end
  end.

(** [export async function updateReminder(reminderId, data)] *)
Definition updateReminder (session : option Auth.Session)
    (reminderId : string) (data : ReminderFormInput) (w : World)
  : ActionResult Reminder.t * World :=
  match Auth.sessionUser session with
  | None => (Failure NotAuthenticated, w)
  | Some user =>
    let userId := Auth.id user in
    match reminderSchema_safeParse (toRaw data) with
    | inr errors => (Failure (schemaFailure errors), w)
    | inl validatedData =>
      match findEvent (eventId validatedData) userId w with
      | None => (Failure EventNotFound, w)
      | Some event =>
        if updateReminder_outsideWindow (Event.date event)
                                        (reminderTime validatedData)
        then (Failure InvalidWindow, w)
        else
          match findReminderById reminderId userId w with
          | None => (Failure ReminderNotFound, w)
          | Some existingReminder =>
            match Prisma.reminder_update reminderId
                    (reminderTime validatedData) (reminders w) with
            | None => (Failure ActionFailed, w)
            | Some (reminder, rows) =>
              let service :=
                Scheduler.updateReminder (Reminder.id reminder)
                  (reminderTime validatedData) (reminderService w) in
              (Success (Reminder.mk (Reminder.id reminder)
                          (Reminder.reminderTime reminder)
                          (Reminder.eventId reminder) userId),
               mkWorld (events w) rows service)
            end
          end
      end
    end
  end.

(** [export async function createOrUpdateReminder(formData)], the legacy
    action.  [rawData] is the object built from the form. *)
Definition createOrUpdateReminder (session : option Auth.Session)
    (newId : string) (rawData : RawReminder) (w : World)
  : ActionResult Reminder.t * World :=
  match Auth.sessionUser session with
  | None => (Failure NotAuthenticated, w)
  | Some user =>
    let userId := Auth.id user in
    match reminderSchema_safeParse rawData with
    | inr errors => (Failure (schemaFailure errors), w)
    | inl validatedData =>
      match findEvent (eventId validatedData) userId w with
      | None => (Failure EventNotFound, w)
      | Some event =>
        if createOrUpdateReminder_outsideWindow (Event.date event)
                                                (reminderTime validatedData)
        then (Failure InvalidWindow, w)
        else
          let written :=
            match findReminderForEvent (eventId validatedData) userId w with
            | Some existingReminder =>
                Prisma.reminder_update (Reminder.id existingReminder)
                  (reminderTime validatedData) (reminders w)
            | None =>
                Prisma.reminder_create newId (reminderTime validatedData)
                  (eventId validatedData) userId (reminders w)
            end in
          match written with
          | None => (Failure ActionFailed, w)
          | Some (reminder, rows) =>
              (Success reminder, mkWorld (events w) rows (reminderService w))
          end
      end
    end
  end.

(** [export async function deleteReminder(reminderId)] *)
Definition deleteReminder (session : option Auth.Session)
    (reminderId : string) (w : World) : ActionResult unit * World :=
  match Auth.sessionUser session with
  | None => (Failure NotAuthenticated, w)
  | Some user =>
    let userId := Auth.id user in
    match findReminderById reminderId userId w with
    | None => (Failure ReminderNotFound, w)
    | Some existingReminder =>
      match Prisma.reminder_delete reminderId (reminders w) with
      | None => (Failure ActionFailed, w)
      | Some rows =>
        let service :=
          Scheduler.cancelReminder reminderId (reminderService w) in
        (Success tt, mkWorld (events w) rows service)
      end
    end
  end.

End ReminderActions.

(** ** [eventSchema] and [updateEvent]: [src/actions/event-actions.ts] *)

Module EventActions.

(** [rawData] as built from the form: a field is [None] when
    [formData.get] gives [null], the date when it is an Invalid Date. *)
Record RawEvent := mkRawEvent {
  raw_title : option string;
  raw_description : option string;
  raw_date : option Z;
  raw_location : option string;
  raw_status : option string
}.

(** [validatedData.data] *)
Record EventData := mkEventData {
  title : string;
  description : option string;
  date : Z;
  location : string;
  status : Event.EventStatus
}.

(** [title: z.string().min(1, ...).max(100, ...)] *)
Definition title_ok (v : option string) : option string :=
  match v with
  | Some s =>
      if (1 <=? String.length s)%nat && (String.length s <=? 100)%nat
      then Some s else None
  | None => None
  end.

(** [description: z.string().max(500, ...).optional().nullable()] *)
Definition description_ok (v : option string) : bool :=
  match v with
  | Some s => (String.length s <=? 500)%nat
  | None => true
  end.

(** [date: z.coerce.date().refine((date) => date > new Date(), ...)] *)
Definition date_ok (now : Z) (v : option Z) : option Z :=
  match v with
  | Some d => if d >? now then Some d else None
  | None => None
  end.

(** [[A-Za-z]] *)
Definition isLetter (c : Ascii.ascii) : bool :=
  let n := Ascii.N_of_ascii c in
  ((65 <=? n) && (n <=? 90) || (97 <=? n) && (n <=? 122))%N.

(** The characters [-] and [:]. *)
Definition hyphen : Ascii.ascii := Ascii.ascii_of_N 45.
Definition colon : Ascii.ascii := Ascii.ascii_of_N 58.

(** [/^[A-Za-z]{2}-[A-Za-z]{2,3}:/.test(location)] *)
Definition locationPattern (s : string) : bool :=
  match s with
  | String a (String b (String dash (String c (String d rest)))) =>
      isLetter a && isLetter b && bool_decide (dash = hyphen)
      && isLetter c && isLetter d
      && match rest with
         | String e rest' =>
             bool_decide (e = colon)
             || isLetter e
                && match rest' with
                   | String f _ => bool_decide (f = colon)
                   | EmptyString => false
                   end
         | EmptyString => false
         end
  | _ => false
  end.

(** [location: z.string().min(1, ...).refine(...)] *)
Definition location_ok (v : option string) : option string :=
  match v with
  | Some s =>
      if (1 <=? String.length s)%nat && locationPattern s
      then Some s else None
  | None => None
  end.

(** [status: z.nativeEnum(EventStatus, ...)] *)
Definition status_ok (v : option string) : option Event.EventStatus :=
  match v with
  | Some s =>
      if bool_decide (s = "DRAFT"%string) then Some Event.DRAFT
      else if bool_decide (s = "PUBLISHED"%string) then Some Event.PUBLISHED
      else if bool_decide (s = "CANCELED"%string) then Some Event.CANCELED
      else None
  | None => None
  end.

(** [eventSchema.safeParse(rawData)] followed by the block that picks
    the first field with a message. *)
Definition eventSchema_safeParse (now : Z) (raw : RawEvent)
  : EventData + ActionError :=
  match title_ok (raw_title raw) with
  | None => inr (SchemaError "Title")
  | Some t =>
    if negb (description_ok (raw_description raw))
    then inr (SchemaError "Description")
    else
      match date_ok now (raw_date raw) with
      | None => inr (SchemaError "Date")
      | Some d =>
        match location_ok (raw_location raw) with
        | None => inr (SchemaError "Location")
        | Some l =>
          match status_ok (raw_status raw) with
          | None => inr (SchemaError "Status")
          | Some st => inl (mkEventData t (raw_description raw) d l st)
          end
        end
      end
  end.

(** The test of the loop of [updateEvent] on
    [timeBeforeEvent = newDate.getTime() - newReminderTime.getTime()];
    [true] keeps the reminder. *)
Definition updateEvent_insideWindow (newDate newReminderTime : Z) : bool :=
  let fifteenMinutes := 15 * 60 * 1000 in
  let sevenDays := 7 * 24 * 60 * 60 * 1000 in
  let timeBeforeEvent := newDate - newReminderTime in
  (timeBeforeEvent >=? fifteenMinutes) && (timeBeforeEvent <=? sevenDays).

(** [new Date(validatedData.data.date.getTime() - timeDiff)] with
    [timeDiff = existingEvent.date.getTime()
                - reminder.reminderTime.getTime()] *)
Definition newReminderTime (priorDate newDate : Z) (reminder : Reminder.t)
  : Z :=
  let timeDiff := priorDate - Reminder.reminderTime reminder in
  newDate - timeDiff.

(** What the loop body decides for a reminder, on the row of its id. *)
Definition adjusted (priorDate newDate : Z) (reminder : Reminder.t)
    (row : option Reminder.t) : option Reminder.t :=
  let time := newReminderTime priorDate newDate reminder in
  if updateEvent_insideWindow newDate time
  then Reminder.set_reminderTime time <$> row
  else None.

(** The body of the loop over [existingEvent.reminders]; [None] when
    the store throws. *)
Definition adjustReminder (priorDate newDate : Z) (reminder : Reminder.t)
    (rows : list Reminder.t) : option (list Reminder.t) :=
  let time := newReminderTime priorDate newDate reminder in
  if updateEvent_insideWindow newDate time then
    match Prisma.reminder_update (Reminder.id reminder) time rows with
    | Some (_, rows') => Some rows'
    | None => None
    end
  else Prisma.reminder_delete (Reminder.id reminder) rows.

(** [for (const reminder of existingEvent.reminders) { ... }]: the table
    when the loop ends, and whether it ended without a throw. *)
Fixpoint adjustReminders (priorDate newDate : Z)
    (existing : list Reminder.t) (rows : list Reminder.t)
  : list Reminder.t * bool :=
  match existing with
  | [] => (rows, true)
  | reminder :: rest =>
      match adjustReminder priorDate newDate reminder rows with
      | Some rows' => adjustReminders priorDate newDate rest rows'
      | None => (rows, false)
      end
  end.

(** The [if] that guards the loop. *)
Definition propagate (priorDate newDate : Z) (existing : list Reminder.t)
    (rows : list Reminder.t) : list Reminder.t * bool :=
  if negb (priorDate =? newDate) && (0 <? length existing)%nat
  then adjustReminders priorDate newDate existing rows
  else (rows, true).

(** [include: { reminders: true }] *)
Definition remindersOf (event : Event.t) (w : World) : list Reminder.t :=
  List.filter (fun r => bool_decide (Reminder.eventId r = Event.id event))
              (reminders w).

(** [prisma.event.findFirst({ where: { id: eventId, userId }, ... })] *)
Definition findOwnedEvent (eventId userId : string) (w : World)
  : option Event.t :=
  List.find (fun e => bool_decide (Event.id e = eventId)
                      && bool_decide (Event.userId e = userId)) (events w).

(** [prisma.event.findFirst({ where: { title, date, userId,
    id: { not: eventId } } })] *)
Definition findDuplicateEvent (eventId userId : string) (data : EventData)
    (w : World) : option Event.t :=
  List.find (fun e => bool_decide (Event.title e = title data)
                      && (Event.date e =? date data)
                      && bool_decide (Event.userId e = userId)
                      && negb (bool_decide (Event.id e = eventId)))
            (events w).

(** [export async function updateEvent(eventId, formData)], run at
    instant [now]. *)
Definition updateEvent (session : option Auth.Session) (now : Z)
    (eventId : string) (rawData : RawEvent) (w : World)
  : ActionResult Event.t * World :=
  match Auth.sessionUser session with
  | None => (Failure NotAuthenticated, w)
  | Some user =>
    let userId := Auth.id user in
    match eventSchema_safeParse now rawData with
    | inr error => (Failure error, w)
    | inl validatedData =>
      match findOwnedEvent eventId userId w with
      | None => (Failure EventNotFound, w)
      | Some existingEvent =>
        let existingReminders := remindersOf existingEvent w in
        match findDuplicateEvent eventId userId validatedData w with
        | Some _ => (Failure DuplicateEvent, w)
        | None =>
          match Prisma.event_update eventId (title validatedData)
                  (description validatedData) (date validatedData)
                  (location validatedData) (status validatedData)
                  (events w) with
          | None => (Failure ActionFailed, w)
          | Some (event, eventRows) =>
            let '(rows, completed) :=
              propagate (Event.date existingEvent) (date validatedData)
                        existingReminders (reminders w) in
            (if completed then Success event else Failure ActionFailed,
             mkWorld eventRows rows (reminderService w))
          end
        end
      end
    end
  end.

End EventActions.

(** ** The job processor over time *)

Module Timeline.
Import Scheduler.

(** The job id a timeout callback acts on. *)
Definition target (cb : TimerCallback) : string :=
  match cb with
  | RemoveCompleted jobId => jobId
  | RetryFailed jobId => jobId
  end.

(** No timeout that is still waiting acts on [key]. *)
Definition quiet (key : string) (s : MockReminderService) : Prop :=
  Forall (fun tm => target (callback tm) <> key) (timeouts s).

(** Every job sits under its own id, as [scheduleReminder] puts it. *)
Definition keyed (s : MockReminderService) : Prop :=
  forall key job, jobs s !! key = Some job -> id job = key.

(** What the callback of [RetryFailed] makes of a job at instant [now]. *)
Definition retried (now : Z) (job : ReminderJob) : ReminderJob :=
  set_reminderTime (addMinutes now 5) (set_status pending job).

(** What a callback run at [now] does to the entry under [key]. *)
Definition keyEffect (now : Z) (key : string) (o : option ReminderJob)
    (tm : Timer) : option ReminderJob :=
  if decide (target (callback tm) = key) then
    match callback tm with
    | RemoveCompleted _ => None
    | RetryFailed _ => retried now <$> o
    end
  else o.

(** What happens to the job processor: a scan tick, the runtime running
    the expired timeouts, or a call from an action. *)
Inductive Step :=
| Scan (now : Z) (sendReminder : ReminderJob -> SendOutcome)
| Timers (now : Z)
| Cancel (reminderId : string)
| Update (reminderId : string) (newReminderTime : Z)
| Schedule (reminderId eventId userId eventTitle : string)
           (eventDate reminderTime : Z).

Definition step (e : Step) (s : MockReminderService) : MockReminderService :=
  match e with
  | Scan now sendReminder => (processReminders now sendReminder s).2
  | Timers now => fireTimers now s
  | Cancel reminderId => cancelReminder reminderId s
  | Update reminderId newReminderTime =>
      updateReminder reminderId newReminderTime s
  | Schedule reminderId eventId userId eventTitle eventDate reminderTime =>
      scheduleReminder reminderId eventId userId eventTitle
                       eventDate reminderTime s
  end.

Definition run (es : list Step) (s : MockReminderService)
  : MockReminderService :=
  foldl (fun st e => step e st) s es.

(** [e] is not a call of [scheduleReminder] for [key]. *)
Definition notScheduling (key : string) (e : Step) : Prop :=
  match e with
  | Schedule reminderId _ _ _ _ _ => reminderId <> key
  | _ => True
  end.

(** One round of a delivery that keeps failing: a scan tick with its
    deliveries, then the instant at which the runtime next runs the
    expired timeouts. *)
Record Round := mkRound {
  tick : Z;
  delivery : ReminderJob -> SendOutcome;
  wake : Z
}.

Definition afterScan (r : Round) (s : MockReminderService)
  : MockReminderService :=
  (processReminders (tick r) (delivery r) s).2.

Definition runRound (r : Round) (s : MockReminderService)
  : MockReminderService :=
  fireTimers (wake r) (afterScan r s).

Fixpoint runRounds (rs : list Round) (s : MockReminderService)
  : MockReminderService :=
  match rs with
  | [] => s
  | r :: rest => runRounds rest (runRound r s)
  end.

(** The environment of a job that is never delivered: at each round the
    scan runs when the job under [key] is due, its delivery is rejected,
    and the timeouts run once the five minutes have passed. *)
Fixpoint keepsFailing (key : string) (rs : list Round)
    (s : MockReminderService) : Prop :=
  match rs with
  | [] => True
  | r :: rest =>
      (exists job,
          jobs s !! key = Some job
          /\ reminderTime job <= tick r
          /\ resolved (delivery r job) = false
          /\ settledAt (delivery r job) + 5 * 60 * 1000 <= wake r)
      /\ keepsFailing key rest (runRound r s)
  end.

(** What is seen of the job under [key] along such rounds: at each
    round it is handed to [sendReminder], is [failed] after the scan and
    stays so until five minutes after the rejection, and is [pending]
    again once the timeouts have run, due five minutes after that. *)
Fixpoint retryObserved (key : string) (rs : list Round)
    (s : MockReminderService) : Prop :=
  match rs with
  | [] => True
  | r :: rest =>
      (exists job,
          jobs s !! key = Some job
          /\ job ∈ (processReminders (tick r) (delivery r) s).1
          /\ jobs (afterScan r s) !! key = Some (set_status failed job)
          /\ mkTimer (settledAt (delivery r job) + 300000) (RetryFailed key)
             ∈ timeouts (afterScan r s)
          /\ (forall t, t < settledAt (delivery r job) + 300000 ->
                jobs (fireTimers t (afterScan r s)) !! key
                = Some (set_status failed job))
          /\ jobs (runRound r s) !! key
             = Some (set_reminderTime (wake r + 300000)
                       (set_status pending job)))
      /\ retryObserved key rest (runRound r s)
  end.

End Timeline.

(** ** Reminders and their jobs *)

(** "A Job's reminderTime is kept in sync with its Reminder's
    reminderTime": a job that exists for a row of the [Reminder] table
    holds the time of that row. *)
Definition inSync (w : World) : Prop :=
  forall r job,
    r ∈ reminders w ->
    Scheduler.jobs (reminderService w) !! Reminder.id r = Some job ->
    Scheduler.reminderTime job = Reminder.reminderTime r.

(** ** Concrete data for the examples *)

Module Scenario.

Definition T : Z := 1800000000000.
Definition hour : Z := 3600000.
Definition day : Z := 86400000.

Definition session : option Auth.Session :=
  Some (Auth.mkSession (Some (Auth.mkUser "user-123" "test@example.com"))).

Definition event : Event.t :=
  Event.mk "event-123" "Test Event" None T "US-NY: New York"
           Event.PUBLISHED "user-123".

Definition reminder : Reminder.t :=
  Reminder.mk "reminder-123" (T - 2 * hour) "event-123" "user-123".

Definition job : Scheduler.ReminderJob :=
  Scheduler.mkJob "reminder-123" "event-123" "user-123" "Test Event"
                  T (T - 2 * hour) Scheduler.pending.

(** The job processor holding the job of [reminder], no timeout set. *)
Definition service : Scheduler.MockReminderService :=
  Scheduler.mkService {[ "reminder-123" := job ]} [].

(** A delivery that is rejected 100 ms after instant [t]. *)
Definition rejectAt (t : Z) (_ : Scheduler.ReminderJob)
  : Scheduler.SendOutcome :=
  Scheduler.mkOutcome (t + 100) false.

(** A delivery that resolves 100 ms after instant [t]. *)
Definition resolveAt (t : Z) (_ : Scheduler.ReminderJob)
  : Scheduler.SendOutcome :=
  Scheduler.mkOutcome (t + 100) true.

(** The tables and the job processor after [reminder] was created for
    [event]. *)
Definition world : World := mkWorld [event] [reminder] service.

(** The same with a reminder eight days before the event, as a seed
    script may leave one. *)
Definition earlyReminder : Reminder.t :=
  Reminder.mk "reminder-123" (T - 8 * day) "event-123" "user-123".
Definition earlyJob : Scheduler.ReminderJob :=
  Scheduler.mkJob "reminder-123" "event-123" "user-123" "Test Event"
                  T (T - 8 * day) Scheduler.pending.
Definition seededWorld : World :=
  mkWorld [event] [earlyReminder]
          (Scheduler.mkService {[ "reminder-123" := earlyJob ]} []).

(** The instant at which the forms below are submitted. *)
Definition clock : Z := T - 10 * day.

(** The edit form of [event] with the date moved one day later. *)
Definition movedForm : EventActions.RawEvent :=
  EventActions.mkRawEvent (Some "Test Event") None (Some (T + day))
                          (Some "US-NY: New York") (Some "PUBLISHED").
Definition movedData : EventActions.EventData :=
  EventActions.mkEventData "Test Event" None (T + day) "US-NY: New York"
                           Event.PUBLISHED.

(** A second event of the same user, and the tables holding both events
    and [reminder]. *)
Definition otherEvent : Event.t :=
  Event.mk "event-456" "Other Event" None (T + 3 * day) "US-NY: New York"
           Event.PUBLISHED "user-123".
Definition twoEvents : World :=
  mkWorld [event; otherEvent] [reminder] service.

(** The tables before any reminder was created. *)
Definition fresh : World := mkWorld [event] [] Scheduler.empty.

(** Two rounds in which the delivery of [job] is rejected. *)
Definition twoRejections : list Timeline.Round :=
  let t1 := T - 2 * hour in
  let t2 := t1 + 100 + 300000 + 300000 in
  [ Timeline.mkRound t1 (rejectAt t1) (t1 + 100 + 300000);
    Timeline.mkRound t2 (rejectAt t2) (t2 + 100 + 300000) ].

End Scenario.

(** ** The life of the job processor: [start], [stop], [getStatus] *)

Module Runner.
Import Scheduler.

(** The [MockReminderService] object as a whole: the job table with its
    timeouts, the handle of the interval ([None] for [null], else the
    instant at which [setInterval] was called) and the [isRunning]
    flag. *)
Record t := mk {
  service : MockReminderService;
  intervalId : option Z;
  isRunning : bool
}.

(** [new MockReminderService()] *)
Definition initial : t := mk Scheduler.empty None false.

(** [start()], called at instant [now]: sets the flag and the interval of
    five minutes, then runs a first scan. *)
Definition start (now : Z) (sendReminder : ReminderJob -> SendOutcome)
    (r : t) : t :=
  if isRunning r then r
  else mk (processReminders now sendReminder (service r)).2 (Some now) true.

(** [stop()] *)
Definition stop (r : t) : t :=
  mk (service r)
     (match intervalId r with Some _ => None | None => intervalId r end)
     false.

(** The callback of the interval, [() => { this.processReminders(); }],
    when the runtime runs it at instant [now]; an interval that was
    cleared runs no more. *)
Definition tick (now : Z) (sendReminder : ReminderJob -> SendOutcome)
    (r : t) : list ReminderJob * t :=
  match intervalId r with
  | Some _ =>
      let scan := processReminders now sendReminder (service r) in
      (scan.1, mk scan.2 (intervalId r) (isRunning r))
  | None => ([], r)
  end.

(** The object [getStatus()] returns. *)
Record Status := mkStatus {
  status_isRunning : bool;
  totalJobs : nat;
  pendingJobs : nat;
  sentJobs : nat;
  failedJobs : nat;
  nextReminder : option Z
}.

(** [jobs.filter(j => j.status === st)] *)
Definition withStatus (st : JobStatus) (js : list ReminderJob)
  : list ReminderJob :=
  List.filter (fun j => bool_decide (status j = st)) js.

(** [.sort((a, b) => a.reminderTime.getTime() - b.reminderTime.getTime())]:
    the sort of an array is stable. *)
Fixpoint insertByTime (job : ReminderJob) (sorted : list ReminderJob)
  : list ReminderJob :=
  match sorted with
  | [] => [job]
  | x :: rest =>
      if reminderTime job <=? reminderTime x then job :: x :: rest
      else x :: insertByTime job rest
  end.

Definition sortByTime (js : list ReminderJob) : list ReminderJob :=
  foldr insertByTime [] js.

(** [getStatus()] *)
Definition getStatus (r : t) : Status :=
  let js := map snd (map_to_list (jobs (service r))) in
  mkStatus (isRunning r)
           (length js)
           (length (withStatus pending js))
           (length (withStatus sent js))
           (length (withStatus failed js))
           (reminderTime <$> head (sortByTime (withStatus pending js))).

End Runner.

(** ** One reminder per event and owner *)

(** The event and the owner of a reminder. *)
Definition pairOf (r : Reminder.t) : string * string :=
  (Reminder.eventId r, Reminder.userId r).

(** No two rows of the [Reminder] table have the same [eventId] and the
    same [userId]. *)
Definition onePerEventAndOwner (w : World) : Prop :=
  NoDup (map pairOf (reminders w)).


(** ** Reminders inside the window of their event *)

(** Every row of the [Reminder] table lies between fifteen minutes and
    seven days before the date of the event it belongs to. *)
Definition withinWindow (w : World) : Prop :=
  forall r e,
    r ∈ reminders w -> e ∈ events w -> Event.id e = Reminder.eventId r ->
    15 * 60 * 1000 <= Event.date e - Reminder.reminderTime r
    <= 7 * 24 * 60 * 60 * 1000.

(** [r'] is the row [r] with, at most, another [reminderTime]. *)
Definition sameRow (r' r : Reminder.t) : Prop :=
  Reminder.id r' = Reminder.id r
  /\ Reminder.eventId r' = Reminder.eventId r
  /\ Reminder.userId r' = Reminder.userId r.

(** ** The other event actions: [src/actions/event-actions.ts] *)

Module Events.
Import EventActions.

#[global] Instance EventStatus_eq_dec : EqDecision Event.EventStatus.
Proof. solve_decision. Defined.

(** [prisma.event.create({ data: { ...validatedData.data, userId } })].
    [newId] is the identifier the store generates for the row; a row
    with that primary key makes the call throw ([None]). *)
Definition event_create (newId : string) (data : EventData)
    (userId : string) (rows : list Event.t)
  : option (Event.t * list Event.t) :=
  match List.find (fun e => bool_decide (Event.id e = newId)) rows with
  | Some _ => None
  | None =>
      let row := Event.mk newId (title data) (description data) (date data)
                          (location data) (status data) userId in
      Some (row, rows ++ [row])
  end.

(** [prisma.event.findFirst({ where: { title, date, userId } })] *)
Definition findExistingEvent (userId : string) (data : EventData)
    (w : World) : option Event.t :=
  List.find (fun e => bool_decide (Event.title e = title data)
                      && (Event.date e =? date data)
                      && bool_decide (Event.userId e = userId))
            (events w).

(** The names the module binds at its top level: its imports and its
    own declarations. *)
Definition moduleScope : list string :=
  [ "revalidatePath"; "revalidateTag"; "unstable_cache"; "auth"; "prisma";
    "eventSchema"; "paginationSchema"; "eventFilterSchema"; "EventStatus";
    "createEvent"; "updateEvent"; "deleteEvent"; "getCachedEvents";
    "getEvents"; "getEventsInternal"; "getEventById" ].

(** The names bound in the body of [createEvent] where it logs the
    creation. *)
Definition createEvent_scope : list string :=
  [ "formData"; "session"; "userId"; "rawData"; "validatedData";
    "existingEvent"; "event" ].

(** Whether an identifier read in [createEvent] resolves; reading one
    that does not throws a ReferenceError. *)
Definition resolves (name : string) : bool :=
  bool_decide (name ∈ createEvent_scope ++ moduleScope).

(** [export async function createEvent(formData)], run at instant [now].
    After [prisma.event.create] the function builds the object it logs,
    [{ eventId: result.id, ... }]; a throw there is caught by the
    [catch] block of the function. *)
Definition createEvent (session : option Auth.Session) (now : Z)
    (newId : string) (rawData : RawEvent) (w : World)
  : ActionResult Event.t * World :=
  match Auth.sessionUser session with
  | None => (Failure NotAuthenticated, w)
  | Some user =>
    let userId := Auth.id user in
    match eventSchema_safeParse now rawData with
    | inr error => (Failure error, w)
    | inl validatedData =>
      match findExistingEvent userId validatedData w with
      | Some _ => (Failure DuplicateEvent, w)
      | None =>
        match event_create newId validatedData userId (events w) with
        | None => (Failure ActionFailed, w)
        | Some (event, rows) =>
          let w' := mkWorld rows (reminders w) (reminderService w) in
          if resolves "result" then (Success event, w')
          else (Failure ActionFailed, w')
        end
      end
    end
  end.

(** Modelled from the spec: "Event ... deleted cascades reminder
    deletion", "Reminder ... Deleted when: explicit user delete, event
    delete (cascade)".  The relation is declared in the schema of the
    store; [deleteEvent] relies on it in its comment "reminders will be
    cascade deleted due to the relation". *)
Definition cascade (eid : string) (rows : list Reminder.t)
  : list Reminder.t :=
  List.filter (fun r => negb (bool_decide (Reminder.eventId r = eid))) rows.

(** [prisma.event.delete({ where: { id } })]: the two tables afterwards;
    throws ([None]) when no row has the id. *)
Definition event_delete (eid : string) (w : World)
  : option (list Event.t * list Reminder.t) :=
  match List.find (fun e => bool_decide (Event.id e = eid)) (events w) with
  | Some _ =>
      Some (List.filter (fun e => negb (bool_decide (Event.id e = eid)))
                        (events w),
            cascade eid (reminders w))
  | None => None
  end.

(** [export async function deleteEvent(eventId)] *)
Definition deleteEvent (session : option Auth.Session) (eventId : string)
    (w : World) : ActionResult unit * World :=
  match Auth.sessionUser session with
  | None => (Failure NotAuthenticated, w)
  | Some user =>
    let userId := Auth.id user in
    match findOwnedEvent eventId userId w with
    | None => (Failure EventNotFound, w)
    | Some existingEvent =>
      match event_delete eventId w with
      | None => (Failure ActionFailed, w)
      | Some (eventRows, rows) =>
          (Success tt, mkWorld eventRows rows (reminderService w))
      end
    end
  end.

(** [const userId = session?.user?.id], as the conditions [if (userId)],
    [if (!userId)] and [userId ? ... : ...] see it: an empty string
    counts as no user. *)
Definition callerId (session : option Auth.Session) : option string :=
  match Auth.sessionUser session with
  | Some user =>
      if bool_decide (Auth.id user = ""%string) then None
      else Some (Auth.id user)
  | None => None
  end.

(** [interface EventWithReminder]: the event and
    [reminder: event.reminders?.[0] || null]. *)
Record EventWithReminder := mkWithReminder {
  event : Event.t;
  reminder : option Reminder.t
}.

(** [include: { reminders: { where: ... } }]: the reminders of the event
    that pass [keep], in the order of the table. *)
Definition included (keep : Reminder.t -> bool) (e : Event.t) (w : World)
  : list Reminder.t :=
  List.filter (fun r => bool_decide (Reminder.eventId r = Event.id e)
                        && keep r) (reminders w).

(** [export async function getEventById(eventId)]; [None] is
    [{ error: 'Event not found' }]. *)
Definition getEventById (session : option Auth.Session) (eventId : string)
    (w : World) : option EventWithReminder :=
  let userId := callerId session in
  let selects e :=
    bool_decide (Event.id e = eventId)
    && match userId with
       | None => bool_decide (Event.status e = Event.PUBLISHED)
       | Some _ => true
       end in
  match List.find selects (events w) with
  | None => None
  | Some e =>
      let reminders :=
        match userId with
        | Some uid =>
            included (fun r => bool_decide (Reminder.userId r = uid)) e w
        | None => []     (* reminders: false *)
        end in
      Some (mkWithReminder e (head reminders))
  end.

(** [interface EventTableFilters]; a field is [None] when it is
    [undefined]. *)
Record EventTableFilters := mkFilters {
  f_status : option Event.EventStatus;
  f_startDate : option Z;
  f_endDate : option Z;
  f_hasReminder : option bool;
  f_search : option string
}.

(** [interface PaginationParams] *)
Record PaginationParams := mkParams {
  page : Z;
  pageSize : Z;
  sortBy : option string;
  sortOrder : option bool        (* 'asc' is [true], 'desc' is [false] *)
}.

(** [interface EventsResponse] *)
Record EventsResponse := mkResponse {
  r_events : list EventWithReminder;
  totalCount : Z;
  totalPages : Z
}.

(** What the queries leave to the database: whether a column value
    contains the search text, and the rows in the order of a column
    ([None] when the store knows no such column and throws). *)
Record Database := mkDatabase {
  contains : string -> string -> bool;
  orderBy : string -> bool -> list Event.t -> option (list Event.t)
}.

(** The parameter [userId: string | undefined] as the conditions
    [if (userId)] and [userId ? ... : ...] see it: [undefined] and the
    empty string count as no user. *)
Definition truthy (userId : option string) : option string :=
  match userId with
  | Some uid => if bool_decide (uid = ""%string) then None else Some uid
  | None => None
  end.

(** The [where] object [getEventsInternal] builds, as a predicate on
    rows; [userId] is the caller the conditions see. *)
Definition matches (db : Database) (userId : option string)
    (filters : EventTableFilters) (e : Event.t) : bool :=
  match userId with
  | Some uid => bool_decide (Event.userId e = uid)
  | None => true
  end
  && match f_status filters with
     | Some st => bool_decide (Event.status e = st)
     | None =>
         match userId with
         | Some _ => true
         | None => bool_decide (Event.status e = Event.PUBLISHED)
         end
     end
  && match f_startDate filters with
     | Some gte => gte <=? Event.date e
     | None => true
     end
  && match f_endDate filters with
     | Some lte => Event.date e <=? lte
     | None => true
     end
  && match f_search filters with
     | Some text =>
         if bool_decide (text = ""%string) then true
         else contains db (Event.title e) text
              || contains db (Event.location e) text
     | None => true
     end.

(** [Math.ceil(count / pageSize)] for a count that is not negative and a
    positive [pageSize]. *)
Definition ceilDiv (count pageSize : Z) : Z :=
  (count + pageSize - 1) / pageSize.

(** [{ events: [], totalCount: 0, totalPages: 0 }], the answer of the
    [catch] block. *)
Definition noEvents : EventsResponse := mkResponse [] 0 0.

(** [async function getEventsInternal(userId, params, filters)].  The
    schema of the parameters throws unless [page] and [pageSize] are
    positive. *)
Definition getEventsInternal (db : Database) (userId : option string)
    (params : PaginationParams) (filters : EventTableFilters) (w : World)
  : EventsResponse :=
  if negb ((0 <? page params) && (0 <? pageSize params)) then noEvents
  else
    let caller := truthy userId in
    let sortBy := default "date"%string (sortBy params) in
    let sortOrder := default true (sortOrder params) in
    let selected := List.filter (matches db caller filters) (events w) in
    let totalCount := Z.of_nat (length selected) in
    let totalPages := ceilDiv totalCount (pageSize params) in
    match orderBy db sortBy sortOrder selected with
    | None => noEvents
    | Some sorted =>
      let events :=
        take (Z.to_nat (pageSize params))
             (drop (Z.to_nat ((page params - 1) * pageSize params)) sorted) in
      let keep r :=
        match caller with
        | Some uid => bool_decide (Reminder.userId r = uid)
        | None => true          (* where: undefined *)
        end in
      let eventsWithReminder :=
        List.map (fun e => mkWithReminder e (head (included keep e w)))
                 events in
      let filteredEvents :=
        match f_hasReminder filters with
        | Some true =>
            List.filter (fun e => bool_decide (is_Some (reminder e)))
                        eventsWithReminder
        | Some false =>
            List.filter (fun e => negb (bool_decide (is_Some (reminder e))))
                        eventsWithReminder
        | None => eventsWithReminder
        end in
      let changed :=
        negb (length filteredEvents =? length eventsWithReminder)%nat in
      mkResponse filteredEvents
        (if changed then Z.of_nat (length filteredEvents) else totalCount)
        (if changed
         then ceilDiv (Z.of_nat (length filteredEvents)) (pageSize params)
         else totalPages)
    end.

End Events.

(** ** The guard in front of the routes: [src/middleware.ts] *)

Module Middleware.

(** What [middleware] reads of a request: the method, the path, and the
    token [getToken] resolves to ([None] for [null]). *)
Record Request := mkRequest {
  method : string;
  pathname : string;
  token : option string
}.

(** The three responses the function builds. *)
Inductive Outcome :=
| Preflight          (* new NextResponse(null, { status: 200, ... }) *)
| Next               (* NextResponse.next() *)
| RedirectToLogin.   (* NextResponse.redirect(new URL('/login', req.url)) *)

#[global] Instance Outcome_eq_dec : EqDecision Outcome.
Proof. solve_decision. Defined.

(** A response with the headers the function sets on it. *)
Record Response := mkResponse {
  outcome : Outcome;
  headers : list (string * string)
}.

Definition corsHeaders : list (string * string) :=
  [ ("Access-Control-Allow-Origin", "*");
    ("Access-Control-Allow-Methods", "GET, POST, PUT, DELETE, OPTIONS");
    ("Access-Control-Allow-Headers",
     "Content-Type, Authorization, X-Requested-With") ]%string.

Definition publicRoutes : list string := ["/login"; "/register"; "/"]%string.

Definition publicApiRoutes : list string := ["/api/auth"%string].

(** [publicRoutes.includes(pathname) ||
     publicApiRoutes.some(route => pathname.startsWith(route))] *)
Definition isPublicRoute (pathname : string) : bool :=
  bool_decide (pathname ∈ publicRoutes)
  || existsb (fun route => String.prefix route pathname) publicApiRoutes.

(** [export async function middleware(req)] *)
Definition middleware (req : Request) : Response :=
  if bool_decide (method req = "OPTIONS"%string) then
    mkResponse Preflight
               (corsHeaders ++ [("Access-Control-Max-Age", "86400")%string])
  else
    let response :=
      if isPublicRoute (pathname req) then Next
      else
        match token req with
        | None => RedirectToLogin
        | Some _ => Next
        end in
    mkResponse response corsHeaders.

End Middleware.

(** ** The reminder form: [src/components/reminder-form.tsx] *)

Module ReminderForm.

Inductive Unit := minutes | hours | days | custom.

Record Preset := mkPreset {
  label : string;
  value : string;
  unit : Unit;
  amount : Z
}.

Definition REMINDER_PRESETS : list Preset :=
  [ mkPreset "15 minutes before" "15m" minutes 15;
    mkPreset "30 minutes before" "30m" minutes 30;
    mkPreset "1 hour before" "1h" hours 1;
    mkPreset "2 hours before" "2h" hours 2;
    mkPreset "1 day before" "1d" days 1;
    mkPreset "2 days before" "2d" days 2;
    mkPreset "1 week before" "7d" days 7;
    mkPreset "Custom" "custom" custom 0 ]%string.

(** [addHours] of date-fns. *)
Definition addHours (date amount : Z) : Z := date + amount * 3600000.

(** [addDays] of date-fns, which moves the date of the local calendar and
    keeps the time of day of the local clock.  [offsetChange] is the
    offset of the local zone from UTC at [date] minus the one at the
    result, in milliseconds: zero unless the clocks change in between. *)
Definition addDays (offsetChange : Z) (date amount : Z) : Z :=
  date + amount * 86400000 + offsetChange.

(** [calculateReminderTime(preset)] for the [eventDate] of the form;
    [None] is [null]. *)
Definition calculateReminderTime (offsetChange : Z) (eventDate : Z)
    (preset : string) : option Z :=
  match List.find (fun p => bool_decide (value p = preset))
                  REMINDER_PRESETS with
  | None => None
  | Some presetConfig =>
      match unit presetConfig with
      | custom => None
      | minutes => Some (Scheduler.addMinutes eventDate (- amount presetConfig))
      | hours => Some (addHours eventDate (- amount presetConfig))
      | days => Some (addDays offsetChange eventDate (- amount presetConfig))
      end
  end.

(** The [reminderTime] of [defaultValues] when the form is opened
    without a reminder: [addHours(eventDate, -1)]. *)
Definition defaultReminderTime (eventDate : Z) : Z := addHours eventDate (-1).

End ReminderForm.

(** ** Texts for spans of time *)

Module Spans.

(** The text [formatRelativeTime] returns: [`${n}m before`],
    [`${n}h before`] or [`${n}d before`]. *)
Inductive RelativeTime := MinutesBefore (n : Z) | HoursBefore (n : Z)
                        | DaysBefore (n : Z).

(** [function formatRelativeTime(milliseconds)] of
    [src/actions/reminder-actions.ts]. *)
Definition formatRelativeTime (milliseconds : Z) : RelativeTime :=
  let minutes := milliseconds / (60 * 1000) in
  if minutes <? 60 then MinutesBefore minutes
  else
    let hours := minutes / 60 in
    if hours <? 24 then HoursBefore hours
    else
      let days := hours / 24 in
      DaysBefore days.

(** The text [getTimeDifference] returns, without the plural endings:
    ['Past'], [`${d} day ${h} hour`], [`${h} hour ${m} minute`] or
    [`${m} minute`]. *)
Inductive TimeDifference :=
| Past
| DaysHours (diffDays diffHours : Z)
| HoursMinutes (diffHours diffMinutes : Z)
| Minutes (diffMinutes : Z).

(** [export function getTimeDifference(date)] of [src/lib/utils.ts],
    called at instant [now].  [%] is the remainder that takes the sign
    of the dividend. *)
Definition getTimeDifference (now : Z) (date : Z) : TimeDifference :=
  let diffMs := date - now in
  let diffDays := diffMs / (1000 * 60 * 60 * 24) in
  let diffHours := Z.rem diffMs (1000 * 60 * 60 * 24) / (1000 * 60 * 60) in
  let diffMinutes := Z.rem diffMs (1000 * 60 * 60) / (1000 * 60) in
  if diffMs <? 0 then Past
  else if diffDays >? 0 then DaysHours diffDays diffHours
  else if diffHours >? 0 then HoursMinutes diffHours diffMinutes
  else Minutes diffMinutes.

(** [export function isPastDate(date)], called at instant [now]. *)
Definition isPastDate (now : Z) (date : Z) : bool := date <? now.

End Spans.

(** ** Accounts: [src/actions/auth-actions.ts] and [src/lib/auth.ts] *)

Module Accounts.

(** A row of the [User] table. *)
Record User := mkUser {
  id : string;
  name : string;
  email : string;
  password : string          (* the hash *)
}.

(** What the code leaves to its libraries: the test of
    [z.string().email()], and [hash] and [compare] of bcrypt. *)
Record Libraries := mkLibraries {
  isEmail : string -> bool;
  hash : string -> string;
  compare : string -> string -> bool
}.

(** The fields of the registration form; [None] where [formData.get]
    gives [null]. *)
Record RawRegistration := mkRawRegistration {
  raw_name : option string;
  raw_email : option string;
  raw_password : option string;
  raw_confirmPassword : option string
}.

Record Registration := mkRegistration {
  reg_name : string;
  reg_email : string;
  reg_password : string
}.

(** Whether [registerSchema.safeParse] succeeds, and with what data. *)
Definition registerSchema_safeParse (lib : Libraries) (raw : RawRegistration)
  : option Registration :=
  match raw_name raw, raw_email raw, raw_password raw,
        raw_confirmPassword raw with
  | Some n, Some e, Some p, Some c =>
      if (1 <=? String.length n)%nat && isEmail lib e
         && (8 <=? String.length p)%nat && (8 <=? String.length c)%nat
         && bool_decide (p = c)
      then Some (mkRegistration n e p) else None
  | _, _, _, _ => None
  end.

(** The credentials handed to [loginSchema]. *)
Record Credentials := mkCredentials {
  cred_email : option string;
  cred_password : option string
}.

(** Whether [loginSchema.safeParse] succeeds, and with what data. *)
Definition loginSchema_safeParse (lib : Libraries) (raw : Credentials)
  : option (string * string) :=
  match cred_email raw, cred_password raw with
  | Some e, Some p =>
      if isEmail lib e && (8 <=? String.length p)%nat then Some (e, p)
      else None
  | _, _ => None
  end.

(** [prisma.user.findUnique({ where: { email } })] *)
Definition findUnique (email : string) (users : list User) : option User :=
  List.find (fun u => bool_decide (Accounts.email u = email)) users.

(** The errors [register] returns, by kind: one of the messages of the
    form, the message for a taken address, and the one of the [catch]
    block. *)
Inductive RegisterError := InvalidRegistration | EmailTaken | Unexpected.

(** [export async function register(formData)]; [newId] is the id the
    store gives the new row, which must be new. *)
Definition register (lib : Libraries) (newId : string)
    (raw : RawRegistration) (users : list User)
  : option RegisterError * list User :=
  match registerSchema_safeParse lib raw with
  | None => (Some InvalidRegistration, users)
  | Some data =>
      match findUnique (reg_email data) users with
      | Some _ => (Some EmailTaken, users)
      | None =>
          let hashedPassword := hash lib (reg_password data) in
          if bool_decide (newId ∈ map id users) then (Some Unexpected, users)
          else
            (None,
             users ++ [mkUser newId (reg_name data) (reg_email data)
                              hashedPassword])
      end
  end.

(** What [authorize] returns for a user: [{ id, name, email }]. *)
Record Identity := mkIdentity {
  identity_id : string;
  identity_name : string;
  identity_email : string
}.

(** [async authorize(credentials)] of the credentials provider; [None]
    is [null]. *)
Definition authorize (lib : Libraries) (credentials : Credentials)
    (users : list User) : option Identity :=
  match loginSchema_safeParse lib credentials with
  | None => None
  | Some (email, password) =>
      match findUnique email users with
      | None => None
      | Some user =>
          if compare lib password (Accounts.password user)
          then Some (mkIdentity (id user) (name user) (Accounts.email user))
          else None
      end
  end.

End Accounts.

(** [r'] and [r] agree on the id, the event, the owner and the
    [reminderTime]: on every column but [createdAt] and [updatedAt],
    which the rows of the model do not hold and of which the store sets
    the second anew at each write. *)
Definition sameValues (r' r : Reminder.t) : Prop :=
  sameRow r' r /\ Reminder.reminderTime r' = Reminder.reminderTime r.

(** ** More concrete data *)

Module Cases.

(** A reminder of another user for the event of [Scenario], and the
    tables holding it next to [Scenario.reminder]. *)
Definition otherReminder : Reminder.t :=
  Reminder.mk "reminder-999" (Scenario.T - 3 * Scenario.hour)
              "event-123" "user-999".

Definition shared : World :=
  mkWorld [Scenario.event] [Scenario.reminder; otherReminder]
          Scenario.service.

(** The form that asks for a reminder two hours before [Scenario.event]. *)
Definition twoHoursBefore : ReminderActions.ReminderFormInput :=
  ReminderActions.mkInput (Some (Scenario.T - 2 * Scenario.hour)) "event-123".


(** A draft of another user, and a form for a new event. *)
Definition draft : Event.t :=
  Event.mk "event-789" "Secret plans" None (Scenario.T + Scenario.day)
           "US-CA: Somewhere" Event.DRAFT "user-999".

Definition newForm : EventActions.RawEvent :=
  EventActions.mkRawEvent (Some "Launch") (Some "Launch party")
                          (Some (Scenario.T + 2 * Scenario.day))
                          (Some "US-NY: New York") (Some "PUBLISHED").

Definition newData : EventActions.EventData :=
  EventActions.mkEventData "Launch" (Some "Launch party")
                           (Scenario.T + 2 * Scenario.day)
                           "US-NY: New York" Event.PUBLISHED.


(** The tables with [draft] next to the event of [Scenario]. *)
Definition withDraft : World :=
  mkWorld [Scenario.event; draft] [Scenario.reminder; otherReminder]
          Scenario.service.


(** A database that returns the rows in the order of the table and
    compares the search text with the whole value. *)
Definition database : Events.Database :=
  Events.mkDatabase (fun value text => bool_decide (value = text))
                    (fun _ _ rows => Some rows).

(** The first page of ten, in the default order, and a listing without
    filters and one of the drafts. *)
Definition firstPage : Events.PaginationParams :=
  Events.mkParams 1 10 None None.
Definition noFilters : Events.EventTableFilters :=
  Events.mkFilters None None None None None.
Definition drafts : Events.EventTableFilters :=
  Events.mkFilters (Some Event.DRAFT) None None None None.


(** Libraries for the examples: an address is anything with an [@], the
    hash of a password is the password behind a mark, and [compare]
    hashes and compares. *)
Definition libraries : Accounts.Libraries :=
  Accounts.mkLibraries
    (fun s => bool_decide (is_Some (String.index 0 "@" s)))
    (fun pw => ("$2b$" ++ pw)%string)
    (fun pw hashed => bool_decide (("$2b$" ++ pw)%string = hashed)).

Definition registration : Accounts.RawRegistration :=
  Accounts.mkRawRegistration (Some "Ada") (Some "ada@example.com")
                             (Some "correct horse") (Some "correct horse").


(** A [User] table with one account. *)
Definition users : list Accounts.User :=
  [Accounts.mkUser "user-0" "Bob" "bob@example.com" "$2b$hunter2hunter2"].

End Cases.

(** ** What the specification says, in its own words *)

Module Spec.

(** "let delta = eventDate − reminderTime (milliseconds).  Valid iff
    900_000 ≤ delta ≤ 604_800_000". *)
Definition isValidReminderOffset (eventDate reminderTime : Z) : Prop :=
  900000 <= eventDate - reminderTime <= 604800000.

(** The time-window check on a reminder time that may be an Invalid
    Date, which no window contains. *)
Definition windowAccepts (eventDate : Z) (reminderTime : option Z) : bool :=
  match reminderTime with
  | Some t => (900000 <=? eventDate - t) && (eventDate - t <=? 604800000)
  | None => false
  end.

(** The failure of [create] as the specification lists them, in its
    order: "NotAuthenticated if caller identity missing; EventNotFound if
    no event with that id owned by caller exists; InvalidWindow if
    Validator rejects (event.date, reminderTime); DuplicateReminder if a
    reminder already exists for (eventId, ownerId)"; [None] when none
    holds. *)
Definition createFailure (session : option Auth.Session)
    (eventId : string) (reminderTime : option Z) (w : World)
  : option ActionError :=
  match Auth.sessionUser session with
  | None => Some NotAuthenticated
  | Some user =>
      match List.find (fun e => bool_decide (Event.id e = eventId)
                                && bool_decide (Event.userId e = Auth.id user))
                      (events w) with
      | None => Some EventNotFound
      | Some event =>
          if negb (windowAccepts (Event.date event) reminderTime)
          then Some InvalidWindow
          else if existsb
                    (fun r => bool_decide (Reminder.eventId r = eventId)
                              && bool_decide (Reminder.userId r = Auth.id user))
                    (reminders w)
          then Some DuplicateReminder
          else None
      end
  end.

End Spec.

(** Closed goals over the concrete data: evaluate, then compare. *)
Ltac closed := vm_compute; repeat split; try reflexivity; try discriminate.

(* ================================================================== *)
(** * Properties *)

(** ** The time window *)

Lemma window_arith (d : Z) :
  (d <? 15 * 60 * 1000) || (d >? 7 * 24 * 60 * 60 * 1000) = false
  <-> 900000 <= d <= 604800000.
Proof.
  rewrite orb_false_iff, Z.ltb_ge, Z.gtb_ltb, Z.ltb_ge. lia.
Qed.

Lemma createReminder_window (eventDate reminderTime : Z) :
  ReminderActions.createReminder_outsideWindow eventDate reminderTime = false
  <-> Spec.isValidReminderOffset eventDate reminderTime.
Proof. apply window_arith. Qed.

Lemma updateReminder_window (eventDate reminderTime : Z) :
  ReminderActions.updateReminder_outsideWindow eventDate reminderTime = false
  <-> Spec.isValidReminderOffset eventDate reminderTime.
Proof. apply window_arith. Qed.

Lemma createOrUpdateReminder_window (eventDate reminderTime : Z) :
  ReminderActions.createOrUpdateReminder_outsideWindow eventDate reminderTime
    = false
  <-> Spec.isValidReminderOffset eventDate reminderTime.
Proof. apply window_arith. Qed.

Lemma updateEvent_window (newDate newReminderTime : Z) :
  EventActions.updateEvent_insideWindow newDate newReminderTime = true
  <-> Spec.isValidReminderOffset newDate newReminderTime.
Proof.
  unfold EventActions.updateEvent_insideWindow, Spec.isValidReminderOffset.
  rewrite andb_true_iff, Z.geb_le, Z.leb_le. lia.
Qed.

Lemma updateEvent_window_false (newDate newReminderTime : Z) :
  EventActions.updateEvent_insideWindow newDate newReminderTime = false
  <-> ~ Spec.isValidReminderOffset newDate newReminderTime.
Proof.
  rewrite <- updateEvent_window. destruct EventActions.updateEvent_insideWindow;
    split; congruence.
Qed.

(** C1.  The window test of [createReminder], of [updateReminder] and of the
    propagation loop of [updateEvent] each accept a pair of instants exactly
    when [900000 <= eventDate - reminderTime <= 604800000]; a lead time of
    exactly 900000 ms or 604800000 ms is accepted, one of 899999 ms or
    604800001 ms is rejected. *)
Theorem C1_window_check (eventDate reminderTime : Z) :
  (ReminderActions.createReminder_outsideWindow eventDate reminderTime = false
     <-> 900000 <= eventDate - reminderTime <= 604800000)
  /\ (ReminderActions.updateReminder_outsideWindow eventDate reminderTime
      = false
     <-> 900000 <= eventDate - reminderTime <= 604800000)
  /\ (EventActions.updateEvent_insideWindow eventDate reminderTime = true
     <-> 900000 <= eventDate - reminderTime <= 604800000)
  /\ (forall delta,
        delta = 900000 \/ delta = 604800000 ->
        ReminderActions.createReminder_outsideWindow
          eventDate (eventDate - delta) = false
        /\ ReminderActions.updateReminder_outsideWindow
             eventDate (eventDate - delta) = false
        /\ EventActions.updateEvent_insideWindow
             eventDate (eventDate - delta) = true)
  /\ (forall delta,
        delta = 899999 \/ delta = 604800001 ->
        ReminderActions.createReminder_outsideWindow
          eventDate (eventDate - delta) = true
        /\ ReminderActions.updateReminder_outsideWindow
             eventDate (eventDate - delta) = true
        /\ EventActions.updateEvent_insideWindow
             eventDate (eventDate - delta) = false).
Proof.
  split; [apply createReminder_window|].
  split; [apply updateReminder_window|].
  split; [apply updateEvent_window|].
  split; intros delta Hd.
  - rewrite createReminder_window, updateReminder_window, updateEvent_window.
    unfold Spec.isValidReminderOffset. lia.
  - rewrite <- !not_false_iff_true, updateEvent_window_false.
    rewrite createReminder_window, updateReminder_window.
    unfold Spec.isValidReminderOffset. lia.
Qed.

(** ** The scan of the job processor *)

Lemma pendingJobs_spec now s k job :
  (k, job) ∈ Scheduler.pendingJobs now s
  <-> Scheduler.jobs s !! k = Some job
      /\ Scheduler.status job = Scheduler.pending
      /\ Scheduler.reminderTime job <= now.
Proof.
  unfold Scheduler.pendingJobs. rewrite list_elem_of_In, filter_In.
  rewrite <- list_elem_of_In, elem_of_map_to_list. simpl.
  unfold Scheduler.isDue. rewrite andb_true_iff, bool_decide_eq_true, Z.leb_le.
  tauto.
Qed.

Lemma pendingJobs_NoDup now s : NoDup (map fst (Scheduler.pendingJobs now s)).
Proof.
  unfold Scheduler.pendingJobs.
  pose proof (NoDup_fst_map_to_list (Scheduler.jobs s)) as Hnd.
  induction (map_to_list (Scheduler.jobs s)) as [|kj l IH]; simpl;
    [constructor|].
  simpl in Hnd. apply NoDup_cons in Hnd as [Hfresh Hnd].
  destruct (Scheduler.isDue now kj.2); simpl; [|by apply IH].
  apply NoDup_cons. split; [|by apply IH].
  intros Hin. apply Hfresh.
  apply list_elem_of_fmap in Hin as [kj' [-> Hin]].
  apply list_elem_of_fmap. exists kj'. split; [done|].
  apply list_elem_of_In. apply list_elem_of_In in Hin.
  apply filter_In in Hin. tauto.
Qed.

Section Scan.
Import Scheduler.

Variable sendReminder : ReminderJob -> SendOutcome.

Lemma processJob_jobs key job s :
  jobs (processJob sendReminder key job s)
  = alter (set_status (verdict sendReminder job)) key (jobs s).
Proof.
  unfold processJob, verdict. by destruct (resolved (sendReminder job)).
Qed.

Lemma processJob_timeouts key job s :
  timeouts (processJob sendReminder key job s)
  = timeouts s ++ [timerFor sendReminder job].
Proof.
  unfold processJob, timerFor. by destruct (resolved (sendReminder job)).
Qed.

Lemma loop_log due : forall acc,
  (foldl (loopStep sendReminder) acc due).1 = acc.1 ++ map snd due.
Proof.
  induction due as [|kj due IH]; intros acc; simpl.
  - by rewrite app_nil_r.
  - rewrite IH. simpl. by rewrite <- app_assoc.
Qed.

Lemma loop_timeouts due : forall acc,
  timeouts (foldl (loopStep sendReminder) acc due).2
  = timeouts acc.2 ++ map (fun kj => timerFor sendReminder kj.2) due.
Proof.
  induction due as [|kj due IH]; intros acc; simpl.
  - by rewrite app_nil_r.
  - rewrite IH. simpl. rewrite processJob_timeouts. by rewrite <- app_assoc.
Qed.

(** A key the loop does not visit keeps its entry. *)
Lemma loop_jobs_other due k : forall acc,
  k ∉ map fst due ->
  jobs (foldl (loopStep sendReminder) acc due).2 !! k = jobs acc.2 !! k.
Proof.
  induction due as [|kj due IH]; intros acc Hk; simpl; [done|].
  simpl in Hk. apply not_elem_of_cons in Hk as [Hne Hk].
  rewrite IH by done. simpl. rewrite processJob_jobs.
  by rewrite lookup_alter_ne.
Qed.

(** A key the loop visits once gets the verdict of its delivery. *)
Lemma loop_jobs_visited due k job : forall acc,
  NoDup (map fst due) ->
  (k, job) ∈ due ->
  jobs (foldl (loopStep sendReminder) acc due).2 !! k
  = set_status (verdict sendReminder job) <$> jobs acc.2 !! k.
Proof.
  induction due as [|kj due IH]; intros acc Hnd Hin; simpl.
  - by apply elem_of_nil in Hin.
  - simpl in Hnd. apply NoDup_cons in Hnd as [Hfresh Hnd].
    apply elem_of_cons in Hin as [<-|Hin].
    + rewrite loop_jobs_other by done. simpl.
      rewrite processJob_jobs. by rewrite lookup_alter_eq.
    + rewrite IH by done. simpl. rewrite processJob_jobs.
      rewrite lookup_alter_ne; [done|].
      intros Heq. apply Hfresh. rewrite Heq. apply list_elem_of_fmap.
      by exists (k, job).
Qed.

Lemma processReminders_log now s :
  (processReminders now sendReminder s).1 = map snd (pendingJobs now s).
Proof.
  unfold processReminders.
  destruct (pendingJobs now s) as [|kj due] eqn:E; [done|].
  change (length (kj :: due) =? 0)%nat with false. cbv iota.
  by rewrite loop_log.
Qed.

Lemma processReminders_state now s :
  (processReminders now sendReminder s).2
  = (foldl (loopStep sendReminder) ([], s) (pendingJobs now s)).2.
Proof.
  unfold processReminders.
  by destruct (pendingJobs now s) as [|kj due] eqn:E.
Qed.

Lemma processReminders_timeouts now s :
  timeouts (processReminders now sendReminder s).2
  = timeouts s
    ++ map (fun kj => timerFor sendReminder kj.2) (pendingJobs now s).
Proof. rewrite processReminders_state. by rewrite loop_timeouts. Qed.

Lemma processReminders_due now s k job :
  jobs s !! k = Some job -> status job = pending -> reminderTime job <= now ->
  jobs (processReminders now sendReminder s).2 !! k
  = Some (set_status (verdict sendReminder job) job).
Proof.
  intros Hk Hst Ht. rewrite processReminders_state.
  rewrite (loop_jobs_visited _ k job).
  - simpl. by rewrite Hk.
  - apply pendingJobs_NoDup.
  - by apply pendingJobs_spec.
Qed.

Lemma processReminders_not_due now s k :
  (forall job, jobs s !! k = Some job ->
               ~ (status job = pending /\ reminderTime job <= now)) ->
  jobs (processReminders now sendReminder s).2 !! k = jobs s !! k.
Proof.
  intros Hk. rewrite processReminders_state.
  rewrite loop_jobs_other; [done|].
  intros Hin. apply list_elem_of_fmap in Hin as [[k' job] [-> Hin]].
  apply pendingJobs_spec in Hin as (Hl & Hst & Ht). simpl in *.
  by apply (Hk job).
Qed.

End Scan.

(** C5.  At a scan run at instant [now], the jobs handed to [sendReminder]
    are exactly the jobs of the table that are pending with
    [reminderTime <= now], one attempt per entry, whatever the outcome of
    any delivery.  Each of them is attempted for good: after the scan its
    entry holds the status its own delivery gave it, [sent] when it
    resolved and [failed] when it was rejected, whatever happened to the
    other jobs of the scan, so that a rejected delivery keeps no other due
    job from being attempted.  A job that is not due is not attempted: its
    entry is after the scan what it was before. *)
Theorem C5_scan_attempts_due_jobs (now : Z)
    (sendReminder : Scheduler.ReminderJob -> Scheduler.SendOutcome)
    (s : Scheduler.MockReminderService) :
  let attempted := (Scheduler.processReminders now sendReminder s).1 in
  let after := (Scheduler.processReminders now sendReminder s).2 in
  (forall job,
      job ∈ attempted
      <-> exists key, Scheduler.jobs s !! key = Some job
                      /\ Scheduler.status job = Scheduler.pending
                      /\ Scheduler.reminderTime job <= now)
  /\ (exists due : list (string * Scheduler.ReminderJob),
        attempted = map snd due
        /\ NoDup (map fst due)
        /\ forall key job,
             (key, job) ∈ due
             <-> Scheduler.jobs s !! key = Some job
                 /\ Scheduler.status job = Scheduler.pending
                 /\ Scheduler.reminderTime job <= now)
  /\ (forall sendReminder',
        (Scheduler.processReminders now sendReminder' s).1 = attempted)
  /\ (forall key job,
        Scheduler.jobs s !! key = Some job ->
        Scheduler.status job = Scheduler.pending ->
        Scheduler.reminderTime job <= now ->
        Scheduler.jobs after !! key
        = Some (Scheduler.set_status
                  (if Scheduler.resolved (sendReminder job)
                   then Scheduler.sent else Scheduler.failed) job))
  /\ (forall key job,
        Scheduler.jobs s !! key = Some job ->
        ~ (Scheduler.status job = Scheduler.pending
           /\ Scheduler.reminderTime job <= now) ->
        Scheduler.jobs after !! key = Some job)
  /\ (forall key,
        Scheduler.jobs s !! key = None -> Scheduler.jobs after !! key = None).
Proof.
  cbv zeta. rewrite processReminders_log.
  split; [|split; [|split; [|split; [|split]]]].
  - intros job. rewrite list_elem_of_fmap. split.
    + intros [[k j] [-> Hin]]. exists k. by apply pendingJobs_spec in Hin.
    + intros [k Hk]. exists (k, job). split; [done|].
      by apply pendingJobs_spec.
  - exists (Scheduler.pendingJobs now s). split; [done|].
    split; [apply pendingJobs_NoDup|]. intros k job. apply pendingJobs_spec.
  - intros send'. by rewrite processReminders_log.
  - intros key job Hjob Hst Hdue.
    by rewrite (processReminders_due sendReminder now s key job).
  - intros key job Hjob Hnot. rewrite processReminders_not_due; [done|].
    intros job' Hjob'. rewrite Hjob in Hjob'. by injection Hjob' as <-.
  - intros key Hnone. rewrite processReminders_not_due; [done|].
    intros job Hjob. by rewrite Hnone in Hjob.
Qed.

(** ** Timeouts *)

Section Timers.
Import Scheduler Timeline.

Lemma runCallback_timeouts now cb s :
  timeouts (runCallback now cb s) = timeouts s.
Proof.
  destruct cb as [j|j]; simpl; [done|]. by destruct (jobs s !! j).
Qed.

Lemma runCallback_lookup now tm s key :
  jobs (runCallback now (callback tm) s) !! key
  = keyEffect now key (jobs s !! key) tm.
Proof.
  unfold keyEffect. destruct (callback tm) as [j|j]; simpl.
  - case_decide as Hj.
    + subst. apply lookup_delete_eq.
    + by apply lookup_delete_ne.
  - destruct (jobs s !! j) as [retryJob|] eqn:Hl; simpl.
    + case_decide as Hj.
      * subst. rewrite Hl. simpl. by rewrite lookup_insert_eq.
      * by rewrite lookup_insert_ne.
    + case_decide as Hj; [|done]. subst. by rewrite Hl.
Qed.

Lemma callbacks_timeouts now tms : forall s,
  timeouts (foldl (fun st tm => runCallback now (callback tm) st) s tms)
  = timeouts s.
Proof.
  induction tms as [|tm tms IH]; intros s; simpl; [done|].
  rewrite IH. apply runCallback_timeouts.
Qed.

Lemma callbacks_lookup now key tms : forall s,
  jobs (foldl (fun st tm => runCallback now (callback tm) st) s tms) !! key
  = foldl (keyEffect now key) (jobs s !! key) tms.
Proof.
  induction tms as [|tm tms IH]; intros s; simpl; [done|].
  rewrite IH. by rewrite runCallback_lookup.
Qed.

Lemma fireTimers_lookup now s key :
  jobs (fireTimers now s) !! key
  = foldl (keyEffect now key) (jobs s !! key)
          (List.filter (isExpired now) (timeouts s)).
Proof. unfold fireTimers. by rewrite callbacks_lookup. Qed.

Lemma fireTimers_timeouts now s :
  timeouts (fireTimers now s)
  = List.filter (fun tm => negb (isExpired now tm)) (timeouts s).
Proof. unfold fireTimers. by rewrite callbacks_timeouts. Qed.

(** An entry that is absent stays absent whatever callbacks run. *)
Lemma keyEffect_absent now key tms :
  foldl (keyEffect now key) None tms = None.
Proof.
  induction tms as [|tm tms IH]; simpl; [done|].
  unfold keyEffect at 2. case_decide; [|done].
  by destruct (callback tm).
Qed.

(** Callbacks for other keys leave the entry alone. *)
Lemma keyEffect_others now key tms : forall o,
  Forall (fun tm => target (callback tm) <> key) tms ->
  foldl (keyEffect now key) o tms = o.
Proof.
  induction tms as [|tm tms IH]; intros o Hall; simpl; [done|].
  apply Forall_cons in Hall as [Hne Hall].
  rewrite IH by done. unfold keyEffect. by case_decide.
Qed.

(** Once the removal of [key] has run, the entry is gone for good. *)
Lemma keyEffect_removed now key tms : forall o,
  (exists tm, tm ∈ tms /\ callback tm = RemoveCompleted key) ->
  foldl (keyEffect now key) o tms = None.
Proof.
  induction tms as [|tm tms IH]; intros o [tm' [Hin Hcb]].
  - by apply elem_of_nil in Hin.
  - simpl. apply elem_of_cons in Hin as [->|Hin].
    + unfold keyEffect at 2. rewrite Hcb. simpl.
      rewrite decide_True by done. apply keyEffect_absent.
    + apply IH. by exists tm'.
Qed.

Lemma retried_idem now job : retried now (retried now job) = retried now job.
Proof. by destruct job. Qed.

(** When the only callbacks for [key] are retries and one of them runs,
    the entry, if there is one, is retried. *)
Lemma keyEffect_retry now key tms : forall o,
  Forall (fun tm => target (callback tm) = key ->
                    callback tm = RetryFailed key) tms ->
  foldl (keyEffect now key) (retried now <$> o) tms = retried now <$> o.
Proof.
  induction tms as [|tm tms IH]; intros o Hall; simpl; [done|].
  apply Forall_cons in Hall as [Hcb Hall].
  unfold keyEffect at 2. case_decide as Ht; [|by apply IH].
  rewrite (Hcb Ht). rewrite <- (IH o) at 2 by done. f_equal.
  destruct o as [job|]; simpl; [|done]. by rewrite retried_idem.
Qed.

Lemma keyEffect_retry_first now key tms : forall o,
  Forall (fun tm => target (callback tm) = key ->
                    callback tm = RetryFailed key) tms ->
  (exists tm, tm ∈ tms /\ target (callback tm) = key) ->
  foldl (keyEffect now key) o tms = retried now <$> o.
Proof.
  induction tms as [|tm tms IH]; intros o Hall [tm' [Hin Ht]].
  - by apply elem_of_nil in Hin.
  - simpl. apply Forall_cons in Hall as [Hcb Hall].
    unfold keyEffect at 2. case_decide as Htm.
    + rewrite (Hcb Htm). by apply keyEffect_retry.
    + apply elem_of_cons in Hin as [->|Hin]; [done|].
      apply IH; [done|]. by exists tm'.
Qed.

Lemma keyEffect_id now key tms : forall o job',
  foldl (keyEffect now key) o tms = Some job' ->
  exists job, o = Some job /\ id job' = id job.
Proof.
  induction tms as [|tm tms IH]; intros o job' H; simpl in H.
  - by exists job'.
  - apply IH in H as [job1 [H1 Hid]]. unfold keyEffect in H1.
    case_decide; [|by exists job1].
    destruct (callback tm); [done|].
    destruct o as [job|]; simpl in H1; [|done].
    exists job. split; [done|]. injection H1 as <-. by rewrite Hid.
Qed.

Lemma keyed_fireTimers now s : keyed s -> keyed (fireTimers now s).
Proof.
  intros Hk key job' H. rewrite fireTimers_lookup in H.
  apply keyEffect_id in H as [job [H Hid]]. rewrite Hid. by apply Hk.
Qed.

Lemma keyed_processReminders now sendReminder s :
  keyed s -> keyed (processReminders now sendReminder s).2.
Proof.
  intros Hk key job' H.
  destruct (jobs s !! key) as [job|] eqn:Hl.
  - destruct (decide (status job = pending /\ reminderTime job <= now))
      as [[Hst Ht]|Hnot].
    + rewrite (processReminders_due _ _ _ _ _ Hl Hst Ht) in H.
      injection H as <-. simpl. by apply Hk.
    + rewrite processReminders_not_due in H.
      * rewrite Hl in H. injection H as <-. by apply Hk.
      * intros j Hj. rewrite Hl in Hj. by injection Hj as <-.
  - rewrite processReminders_not_due in H; [by rewrite Hl in H|].
    intros j Hj. by rewrite Hl in Hj.
Qed.

Lemma keyEffect_comm now key o a b :
  keyEffect now key (keyEffect now key o a) b
  = keyEffect now key (keyEffect now key o b) a.
Proof.
  unfold keyEffect. repeat case_decide; try done.
  destruct (callback a), (callback b); try done.
Qed.

Lemma keyEffect_any_order now key tms tms' :
  tms ≡ₚ tms' ->
  forall o, foldl (keyEffect now key) o tms = foldl (keyEffect now key) o tms'.
Proof.
  induction 1 as [|tm tms tms' _ IH|a b tms|tms1 tms2 tms3 _ IH1 _ IH2];
    intros o; simpl.
  - done.
  - apply IH.
  - by rewrite keyEffect_comm.
  - by rewrite IH1, IH2.
Qed.

(** The callbacks of a batch of timeouts commute: the table they leave
    does not depend on the order in which the runtime runs them. *)
Lemma callbacks_any_order now tms tms' s :
  tms ≡ₚ tms' ->
  jobs (foldl (fun st tm => runCallback now (callback tm) st) s tms)
  = jobs (foldl (fun st tm => runCallback now (callback tm) st) s tms').
Proof.
  intros Hperm. apply map_eq. intros key. rewrite !callbacks_lookup.
  by apply keyEffect_any_order.
Qed.

(** Nothing but [scheduleReminder] brings an entry into the table. *)
Lemma step_absent key e s :
  notScheduling key e -> jobs s !! key = None ->
  jobs (step e s) !! key = None.
Proof.
  intros He Hk. destruct e; simpl in *.
  - rewrite processReminders_not_due; [done|].
    intros j Hj. by rewrite Hk in Hj.
  - rewrite fireTimers_lookup, Hk. apply keyEffect_absent.
  - unfold cancelReminder. destruct (jobs s !! reminderId); [|done].
    simpl. destruct (decide (reminderId = key)) as [->|Hne].
    + apply lookup_delete_eq.
    + by rewrite lookup_delete_ne.
  - unfold updateReminder.
    destruct (jobs s !! reminderId) as [job|] eqn:Hl; [|done].
    simpl. rewrite lookup_insert_ne; [done|]. intros ->. by rewrite Hk in Hl.
  - unfold scheduleReminder. simpl. by rewrite lookup_insert_ne.
Qed.

Lemma run_absent key es : forall s,
  Forall (notScheduling key) es -> jobs s !! key = None ->
  jobs (run es s) !! key = None.
Proof.
  induction es as [|e es IH]; intros s Hall Hk; simpl; [done|].
  apply Forall_cons in Hall as [He Hall].
  apply IH; [done|]. by apply step_absent.
Qed.

(** Every table the job processor can reach holds its jobs under their
    own ids. *)
Lemma keyed_step e s : keyed s -> keyed (step e s).
Proof.
  intros Hk. destruct e; simpl.
  - by apply keyed_processReminders.
  - by apply keyed_fireTimers.
  - unfold cancelReminder. destruct (jobs s !! reminderId); [|done].
    intros key job H. simpl in H. apply lookup_delete_Some in H as [_ H].
    by apply Hk.
  - unfold updateReminder.
    destruct (jobs s !! reminderId) as [job0|] eqn:Hl; [|done].
    intros key job H. simpl in H.
    apply lookup_insert_Some in H as [[<- <-]|[_ H]]; [|by apply Hk].
    simpl. by apply Hk.
  - intros key job H. unfold scheduleReminder in H. simpl in H.
    apply lookup_insert_Some in H as [[<- <-]|[_ H]]; [done|by apply Hk].
Qed.

Lemma keyed_run es : forall s, keyed s -> keyed (run es s).
Proof.
  induction es as [|e es IH]; intros s Hk; simpl; [done|].
  apply IH. by apply keyed_step.
Qed.

Lemma keyed_empty : keyed Scheduler.empty.
Proof.
  intros key job H. unfold Scheduler.empty in H. simpl in H.
  by rewrite lookup_empty in H.
Qed.

Lemma cancelReminder_lookup key s :
  jobs (cancelReminder key s) !! key = None.
Proof.
  unfold cancelReminder. destruct (jobs s !! key) eqn:Hl; [|done].
  apply lookup_delete_eq.
Qed.

End Timers.

Section Rounds.
Import Scheduler Timeline.

Lemma target_timerFor sendReminder job :
  target (callback (timerFor sendReminder job)) = id job.
Proof. unfold timerFor. by destruct (resolved (sendReminder job)). Qed.

(** After a scan of a table that is keyed and quiet for [key], the only
    timeout for [key] is the one the scan set for the job under [key]. *)
Lemma scan_timers_for_key now sendReminder s key job tm :
  keyed s -> quiet key s -> jobs s !! key = Some job ->
  tm ∈ timeouts (processReminders now sendReminder s).2 ->
  target (callback tm) = key ->
  tm = timerFor sendReminder job.
Proof.
  intros Hkeyed Hquiet Hl Hin Ht.
  rewrite processReminders_timeouts in Hin.
  apply elem_of_app in Hin as [Hin|Hin].
  - unfold quiet in Hquiet. rewrite Forall_forall in Hquiet.
    by destruct (Hquiet tm Hin).
  - apply list_elem_of_fmap in Hin as [[k j] [-> Hin]]. simpl in *.
    apply pendingJobs_spec in Hin as (Hj & _ & _).
    rewrite target_timerFor in Ht. rewrite (Hkeyed _ _ Hj) in Ht. subst k.
    rewrite Hl in Hj. by injection Hj as ->.
Qed.

Lemma scan_timer_set now sendReminder s key job :
  jobs s !! key = Some job -> status job = pending ->
  reminderTime job <= now ->
  timerFor sendReminder job
  ∈ timeouts (processReminders now sendReminder s).2.
Proof.
  intros Hl Hst Ht. rewrite processReminders_timeouts.
  apply elem_of_app. right. apply list_elem_of_fmap.
  exists (key, job). split; [done|]. by apply pendingJobs_spec.
Qed.

Lemma elem_of_expired now tm (tms : list Timer) :
  tm ∈ List.filter (isExpired now) tms <-> tm ∈ tms /\ fireAt tm <= now.
Proof.
  rewrite !list_elem_of_In, filter_In. unfold isExpired.
  by rewrite Z.leb_le.
Qed.

Lemma elem_of_waiting now tm (tms : list Timer) :
  tm ∈ List.filter (fun tm => negb (isExpired now tm)) tms
  <-> tm ∈ tms /\ now < fireAt tm.
Proof.
  rewrite !list_elem_of_In, filter_In. unfold isExpired.
  rewrite negb_true_iff, Z.leb_gt. done.
Qed.

(** One round of a rejected delivery, from a table that is keyed and
    quiet for [key]. *)
Lemma failing_round key r s job :
  keyed s -> quiet key s ->
  jobs s !! key = Some job -> status job = pending ->
  reminderTime job <= tick r ->
  resolved (delivery r job) = false ->
  settledAt (delivery r job) + 5 * 60 * 1000 <= wake r ->
  job ∈ (processReminders (tick r) (delivery r) s).1
  /\ jobs (afterScan r s) !! key = Some (set_status failed job)
  /\ mkTimer (settledAt (delivery r job) + 300000) (RetryFailed key)
     ∈ timeouts (afterScan r s)
  /\ (forall t, t < settledAt (delivery r job) + 300000 ->
        jobs (fireTimers t (afterScan r s)) !! key
        = Some (set_status failed job))
  /\ jobs (runRound r s) !! key
     = Some (set_reminderTime (wake r + 300000) (set_status pending job))
  /\ keyed (runRound r s) /\ quiet key (runRound r s).
Proof.
  intros Hkeyed Hquiet Hl Hst Hdue Hrej Hwake.
  assert (Htimer : timerFor (delivery r) job
                   = mkTimer (settledAt (delivery r job) + 300000)
                             (RetryFailed key)).
  { unfold timerFor. rewrite Hrej. rewrite (Hkeyed _ _ Hl). f_equal. }
  assert (Hscan : jobs (afterScan r s) !! key = Some (set_status failed job)).
  { unfold afterScan. rewrite (processReminders_due _ _ _ _ _ Hl Hst Hdue).
    unfold Scheduler.verdict. by rewrite Hrej. }
  assert (Hset : mkTimer (settledAt (delivery r job) + 300000)
                         (RetryFailed key) ∈ timeouts (afterScan r s)).
  { rewrite <- Htimer. by apply (scan_timer_set _ _ _ key). }
  assert (Honly : forall tm, tm ∈ timeouts (afterScan r s) ->
                    target (callback tm) = key ->
                    tm = mkTimer (settledAt (delivery r job) + 300000)
                                 (RetryFailed key)).
  { intros tm Hin Ht. rewrite <- Htimer.
    by apply (scan_timers_for_key (tick r) (delivery r) s key). }
  split; [|split; [done|split; [done|split; [|split; [|split]]]]].
  - rewrite processReminders_log. apply list_elem_of_fmap.
    exists (key, job). split; [done|]. by apply pendingJobs_spec.
  - intros t Ht. rewrite fireTimers_lookup, keyEffect_others; [done|].
    apply Forall_forall. intros tm Hin Htarget.
    apply elem_of_expired in Hin as [Hin Hexp].
    rewrite (Honly tm Hin Htarget) in Hexp. simpl in Hexp. lia.
  - unfold runRound. rewrite fireTimers_lookup, Hscan.
    rewrite keyEffect_retry_first.
    + simpl. unfold retried, addMinutes. do 2 f_equal.
    + apply Forall_forall. intros tm Hin Htarget.
      apply elem_of_expired in Hin as [Hin _].
      by rewrite (Honly tm Hin Htarget).
    + exists (mkTimer (settledAt (delivery r job) + 300000)
                      (RetryFailed key)).
      split; [|done]. apply elem_of_expired. split; [done|]. simpl. lia.
  - apply keyed_fireTimers. by apply keyed_processReminders.
  - unfold quiet, runRound. rewrite fireTimers_timeouts.
    apply Forall_forall. intros tm Hin Htarget.
    apply elem_of_waiting in Hin as [Hin Hwait].
    rewrite (Honly tm Hin Htarget) in Hwait. simpl in Hwait. lia.
Qed.

(** From such a table a delivery can be rejected any number of times
    in a row. *)
Lemma rejected_rounds key (n : nat) : forall s job,
  keyed s -> quiet key s ->
  jobs s !! key = Some job -> status job = pending ->
  exists rs, length rs = n /\ keepsFailing key rs s.
Proof.
  induction n as [|n IH]; intros s job Hkeyed Hquiet Hl Hst.
  - by exists [].
  - set (r := mkRound (reminderTime job)
                      (fun _ => mkOutcome (reminderTime job) false)
                      (reminderTime job + 300000)).
    destruct (failing_round key r s job) as (_ & _ & _ & _ & Hafter & Hk & Hq);
      [done|done|done|done|simpl; lia|done|simpl; lia|].
    destruct (IH (runRound r s) _ Hk Hq Hafter eq_refl) as [rs [Hlen Hrs]].
    exists (r :: rs). split; [simpl; by rewrite Hlen|].
    simpl. split; [|done]. exists job. repeat split; [done|lia|lia].
Qed.

End Rounds.

(** The retry as the code sets out to do it.  Take a job that sits in the
    table under its own id, with no timeout of an earlier delivery still
    waiting for it.  When its delivery is rejected during a scan it is set
    to [failed] and a timeout of five minutes is set for it; until that
    delay has passed the job stays [failed], and when the timeout runs, at
    instant [now], the job is [pending] again with
    [reminderTime = now + 5 min].  Nothing counts the attempts: rounds in
    which the delivery is rejected exist in any number, and along them
    every round shows the same cycle and leaves the job [pending]. *)
Lemma retry_repeats_while_no_other_timeout_waits (key : string)
    (s : Scheduler.MockReminderService) (job : Scheduler.ReminderJob) :
  Timeline.keyed s -> Timeline.quiet key s ->
  Scheduler.jobs s !! key = Some job ->
  Scheduler.status job = Scheduler.pending ->
  (forall rs,
      Timeline.keepsFailing key rs s ->
      Timeline.retryObserved key rs s
      /\ exists job',
           Scheduler.jobs (Timeline.runRounds rs s) !! key = Some job'
           /\ Scheduler.status job' = Scheduler.pending)
  /\ (forall n : nat,
        exists rs, length rs = n /\ Timeline.keepsFailing key rs s).
Proof.
  intros Hkeyed Hquiet Hl Hst. split; [|intros n; by eapply rejected_rounds].
  intros rs. revert s job Hkeyed Hquiet Hl Hst.
  induction rs as [|r rs IH]; intros s job Hkeyed Hquiet Hl Hst Hf.
  - split; [done|]. by exists job.
  - simpl in Hf. destruct Hf as [(job0 & Hl0 & Hdue & Hrej & Hwake) Hrest].
    rewrite Hl in Hl0. injection Hl0 as <-.
    destruct (failing_round key r s job Hkeyed Hquiet Hl Hst Hdue Hrej Hwake)
      as (Hatt & Hscan & Htimer & Hbefore & Hafter & Hkeyed' & Hquiet').
    destruct (IH (Timeline.runRound r s) _ Hkeyed' Hquiet' Hafter eq_refl Hrest)
      as [Hobs Hfinal].
    split; [|done]. simpl. split; [|done].
    exists job. done.
Qed.

Lemma scenario_service_keyed : Timeline.keyed Scenario.service.
Proof.
  intros key job H. unfold Scenario.service in H. simpl in H.
  apply lookup_singleton_Some in H as [<- <-]. done.
Qed.

Lemma retry_repeats_twice :
  Timeline.keepsFailing "reminder-123" Scenario.twoRejections Scenario.service
  /\ Timeline.retryObserved "reminder-123" Scenario.twoRejections
                            Scenario.service
  /\ exists job',
       Scheduler.jobs (Timeline.runRounds Scenario.twoRejections
                                          Scenario.service) !! "reminder-123"
       = Some job'
       /\ Scheduler.status job' = Scheduler.pending.
Proof.
  assert (Hfail : Timeline.keepsFailing "reminder-123" Scenario.twoRejections
                                        Scenario.service).
  { unfold Scenario.twoRejections. cbn [Timeline.keepsFailing].
    split; [|split; [|exact I]].
    - exists Scenario.job. closed.
    - eexists. split; [vm_compute; reflexivity|]. closed. }
  split; [exact Hfail|].
  refine (proj1 (retry_repeats_while_no_other_timeout_waits
                   "reminder-123" Scenario.service Scenario.job
                   scenario_service_keyed _ _ _) Scenario.twoRejections Hfail).
  - constructor.
  - reflexivity.
  - reflexivity.
Defined.

(** C7.  [cancelReminder] takes the job out of the table and leaves the
    timeouts as they are; from then on the callback of a retry for that
    job changes nothing, and neither the timeouts that run later nor any
    scan, update or cancel brings the job back: only a new
    [scheduleReminder] for the same id would. *)
Theorem C7_no_resurrection_after_cancel (key : string)
    (s : Scheduler.MockReminderService) :
  let s' := Scheduler.cancelReminder key s in
  Scheduler.jobs s' !! key = None
  /\ Scheduler.timeouts s' = Scheduler.timeouts s
  /\ (forall now,
        Scheduler.runCallback now (Scheduler.RetryFailed key) s' = s')
  /\ (forall now, Scheduler.jobs (Scheduler.fireTimers now s') !! key = None)
  /\ (forall es,
        Forall (Timeline.notScheduling key) es ->
        Scheduler.jobs (Timeline.run es s') !! key = None).
Proof.
  cbv zeta. pose proof (cancelReminder_lookup key s) as Hgone.
  split; [done|]. split.
  { unfold Scheduler.cancelReminder. by destruct (Scheduler.jobs s !! key). }
  split.
  { intros now. simpl. by rewrite Hgone. }
  split.
  { intros now. rewrite fireTimers_lookup, Hgone. apply keyEffect_absent. }
  intros es Hes. by apply run_absent.
Qed.

(** C10.  When the delivery of a due job resolves, the job is [sent] and a
    timeout is set that fires one hour (3600000 ms) after the delivery
    settled; its callback deletes the entry under the job id whatever that
    entry is.  So if [updateReminder] has put the job back to [pending]
    with a new time in between, the job is still in the table before the
    hour has passed and is gone once the timeout has run. *)
Theorem C10_removal_deletes_updated_job (key : string)
    (job : Scheduler.ReminderJob) (now newReminderTime : Z)
    (sendReminder : Scheduler.ReminderJob -> Scheduler.SendOutcome)
    (s : Scheduler.MockReminderService) :
  Scheduler.jobs s !! key = Some job ->
  Scheduler.id job = key ->
  Scheduler.status job = Scheduler.pending ->
  Scheduler.reminderTime job <= now ->
  Scheduler.resolved (sendReminder job) = true ->
  let s1 := (Scheduler.processReminders now sendReminder s).2 in
  let s2 := Scheduler.updateReminder key newReminderTime s1 in
  let removal := Scheduler.settledAt (sendReminder job) + 3600000 in
  Scheduler.jobs s1 !! key = Some (Scheduler.set_status Scheduler.sent job)
  /\ Scheduler.mkTimer removal (Scheduler.RemoveCompleted key)
     ∈ Scheduler.timeouts s1
  /\ Scheduler.jobs s2 !! key
     = Some (Scheduler.set_status Scheduler.pending
               (Scheduler.set_reminderTime newReminderTime
                  (Scheduler.set_status Scheduler.sent job)))
  /\ (forall t, removal <= t ->
        Scheduler.jobs (Scheduler.fireTimers t s2) !! key = None)
  /\ (Timeline.keyed s -> Timeline.quiet key s ->
      forall t, t < removal ->
        Scheduler.jobs (Scheduler.fireTimers t s2) !! key
        = Scheduler.jobs s2 !! key)
  /\ (forall t s0,
        Scheduler.jobs
          (Scheduler.runCallback t (Scheduler.RemoveCompleted key) s0) !! key
        = None).
Proof.
  intros Hl Hid Hst Hdue Hres. cbv zeta.
  assert (Htimer : Scheduler.timerFor sendReminder job
                   = Scheduler.mkTimer
                       (Scheduler.settledAt (sendReminder job) + 3600000)
                       (Scheduler.RemoveCompleted key)).
  { unfold Scheduler.timerFor. rewrite Hres, Hid. f_equal. }
  assert (Hscan :
    Scheduler.jobs (Scheduler.processReminders now sendReminder s).2 !! key
    = Some (Scheduler.set_status Scheduler.sent job)).
  { rewrite (processReminders_due _ _ _ _ _ Hl Hst Hdue).
    unfold Scheduler.verdict. by rewrite Hres. }
  assert (Htms : Scheduler.timeouts
                   (Scheduler.updateReminder key newReminderTime
                      (Scheduler.processReminders now sendReminder s).2)
                 = Scheduler.timeouts
                     (Scheduler.processReminders now sendReminder s).2).
  { unfold Scheduler.updateReminder. by rewrite Hscan. }
  split; [done|]. split.
  { rewrite <- Htimer. by apply (scan_timer_set _ _ _ key). }
  split.
  { unfold Scheduler.updateReminder. rewrite Hscan. simpl.
    by rewrite lookup_insert_eq. }
  split.
  { intros t Ht. rewrite fireTimers_lookup. apply keyEffect_removed.
    exists (Scheduler.mkTimer
              (Scheduler.settledAt (sendReminder job) + 3600000)
              (Scheduler.RemoveCompleted key)).
    split; [|done]. apply elem_of_expired. rewrite Htms. split; [|simpl; lia].
    rewrite <- Htimer. by apply (scan_timer_set _ _ _ key). }
  split.
  { intros Hkeyed Hquiet t Ht.
    rewrite fireTimers_lookup, keyEffect_others; [done|].
    apply Forall_forall. intros tm Hin Htarget.
    apply elem_of_expired in Hin as [Hin Hexp]. rewrite Htms in Hin.
    rewrite (scan_timers_for_key _ _ _ _ _ _ Hkeyed Hquiet Hl Hin Htarget)
      in Hexp.
    rewrite Htimer in Hexp. simpl in Hexp. lia. }
  intros t s0. simpl. apply lookup_delete_eq.
Qed.

Lemma C10_witness :
  let t := Scenario.T - 2 * Scenario.hour in
  let sent := (Scheduler.processReminders t (Scenario.resolveAt t)
                                          Scenario.service).2 in
  let updated := Scheduler.updateReminder "reminder-123"
                                          (Scenario.T - Scenario.hour) sent in
  Scheduler.status <$> Scheduler.jobs updated !! "reminder-123"
  = Some Scheduler.pending
  /\ Scheduler.jobs (Scheduler.fireTimers (t + 100 + 3600000) updated)
       !! "reminder-123" = None.
Proof.
  cbv zeta.
  destruct (C10_removal_deletes_updated_job
              "reminder-123" Scenario.job
              (Scenario.T - 2 * Scenario.hour) (Scenario.T - Scenario.hour)
              (Scenario.resolveAt (Scenario.T - 2 * Scenario.hour))
              Scenario.service)
    as (_ & _ & Hupdated & Hgone & _);
    [reflexivity|reflexivity|reflexivity|closed|reflexivity|].
  split.
  - rewrite Hupdated. reflexivity.
  - apply Hgone. closed.
Defined.

(** ** The store *)

Section Store.
Import Prisma.

Lemma byId_cons rid r rows :
  reminder_byId rid (r :: rows)
  = if bool_decide (Reminder.id r = rid) then Some r
    else reminder_byId rid rows.
Proof. done. Qed.

Lemma byId_Some rid rows r :
  reminder_byId rid rows = Some r -> r ∈ rows /\ Reminder.id r = rid.
Proof.
  intros H. apply find_some in H as [Hin Hid].
  apply bool_decide_eq_true in Hid. by rewrite list_elem_of_In.
Qed.

Lemma byId_None rid rows :
  reminder_byId rid rows = None <->
  forall r, r ∈ rows -> Reminder.id r <> rid.
Proof.
  induction rows as [|r0 rows IH].
  - split; [|done]. intros _ r Hin. by apply elem_of_nil in Hin.
  - rewrite byId_cons. case_bool_decide as Hid.
    + split; [done|]. intros H. destruct (H r0); [left|done].
    + rewrite IH. split.
      * intros H r Hin. apply elem_of_cons in Hin as [->|Hin]; auto.
      * intros H r Hin. apply H. by right.
Qed.

(** With a primary key, a row of the table is the row of its id. *)
Lemma byId_elem_of rows r :
  NoDup (map Reminder.id rows) -> r ∈ rows ->
  reminder_byId (Reminder.id r) rows = Some r.
Proof.
  induction rows as [|r0 rows IH]; intros Hnd Hin.
  - by apply elem_of_nil in Hin.
  - simpl in Hnd. apply NoDup_cons in Hnd as [Hfresh Hnd].
    rewrite byId_cons. apply elem_of_cons in Hin as [->|Hin].
    + by rewrite bool_decide_eq_true_2.
    + case_bool_decide as Hid; [|by apply IH].
      destruct Hfresh. rewrite Hid. apply list_elem_of_fmap. by exists r.
Qed.

Lemma update_rows rid time rows r' rows' :
  reminder_update rid time rows = Some (r', rows') ->
  rows' = List.map (fun r => if bool_decide (Reminder.id r = rid)
                             then Reminder.set_reminderTime time r else r)
                   rows
  /\ exists r, reminder_byId rid rows = Some r
               /\ r' = Reminder.set_reminderTime time r.
Proof.
  unfold reminder_update. destruct (reminder_byId rid rows) as [r|]; [|done].
  intros [= <- <-]. split; [done|]. by exists r.
Qed.

Lemma update_byId rid time rows r' rows' rid' :
  reminder_update rid time rows = Some (r', rows') ->
  reminder_byId rid' rows'
  = if decide (rid' = rid)
    then Reminder.set_reminderTime time <$> reminder_byId rid rows
    else reminder_byId rid' rows.
Proof.
  intros H. apply update_rows in H as [-> _].
  destruct (decide (rid' = rid)) as [->|Hrid].
  - induction rows as [|r rows IH]; cbn [List.map]; [done|].
    rewrite !byId_cons.
    destruct (decide (Reminder.id r = rid)) as [Hid|Hid].
    + by rewrite !(bool_decide_eq_true_2 _ Hid).
    + by rewrite !(bool_decide_eq_false_2 _ Hid).
  - induction rows as [|r rows IH]; cbn [List.map]; [done|].
    rewrite !byId_cons.
    destruct (decide (Reminder.id r = rid)) as [Hid|Hid].
    + rewrite !(bool_decide_eq_true_2 _ Hid).
      cbn [Reminder.id Reminder.set_reminderTime].
      by rewrite ?bool_decide_eq_false_2 by congruence.
    + rewrite !(bool_decide_eq_false_2 _ Hid). by case_bool_decide.
Qed.

Lemma delete_byId rid rows rows' rid' :
  reminder_delete rid rows = Some rows' ->
  reminder_byId rid' rows'
  = if decide (rid' = rid) then None else reminder_byId rid' rows.
Proof.
  unfold reminder_delete. destruct (reminder_byId rid rows); [|done].
  intros [= <-]. induction rows as [|r rows IH]; cbn [List.filter].
  - by case_decide.
  - rewrite byId_cons. case_bool_decide as Hid; cbn [negb].
    + case_decide as Hrid; [done|]. subst rid.
      by rewrite bool_decide_eq_false_2.
    + rewrite byId_cons. case_bool_decide; [|done].
      case_decide; [congruence|done].
Qed.

End Store.

(** ** Propagation of a change of date *)

Section Propagation.
Import Prisma EventActions.

Variables priorDate newDate : Z.

Lemma adjustReminder_byId reminder rows :
  is_Some (reminder_byId (Reminder.id reminder) rows) ->
  exists rows',
    adjustReminder priorDate newDate reminder rows = Some rows'
    /\ forall rid,
         reminder_byId rid rows'
         = if decide (rid = Reminder.id reminder)
           then adjusted priorDate newDate reminder
                  (reminder_byId (Reminder.id reminder) rows)
           else reminder_byId rid rows.
Proof.
  intros [row Hrow]. unfold adjustReminder, adjusted.
  destruct (updateEvent_insideWindow newDate
              (newReminderTime priorDate newDate reminder)).
  - destruct (reminder_update (Reminder.id reminder)
                (newReminderTime priorDate newDate reminder) rows)
      as [[r' rows']|] eqn:Hupd.
    + exists rows'. split; [done|]. intros rid.
      by rewrite (update_byId _ _ _ _ _ rid Hupd).
    + unfold reminder_update in Hupd. by rewrite Hrow in Hupd.
  - destruct (reminder_delete (Reminder.id reminder) rows)
      as [rows'|] eqn:Hdel.
    + exists rows'. split; [done|]. intros rid.
      by rewrite (delete_byId _ _ _ rid Hdel).
    + unfold reminder_delete in Hdel. by rewrite Hrow in Hdel.
Qed.

(** The loop runs to its end, and leaves under each id what the loop
    body decides for the reminder of that id. *)
Lemma adjustReminders_byId existing : forall rows,
  NoDup (map Reminder.id existing) ->
  (forall r, r ∈ existing -> is_Some (reminder_byId (Reminder.id r) rows)) ->
  exists rows',
    adjustReminders priorDate newDate existing rows = (rows', true)
    /\ forall rid,
         reminder_byId rid rows'
         = match reminder_byId rid existing with
           | Some r => adjusted priorDate newDate r (reminder_byId rid rows)
           | None => reminder_byId rid rows
           end.
Proof.
  induction existing as [|r existing IH]; intros rows Hnd Hrows.
  - by exists rows.
  - cbn [map] in Hnd. apply NoDup_cons in Hnd as [Hfresh Hnd].
    destruct (adjustReminder_byId r rows) as [rows1 [Hstep Hrows1]].
    { apply Hrows. by left. }
    destruct (IH rows1 Hnd) as [rows' [Hloop Hrows']].
    { intros r' Hin. rewrite Hrows1. rewrite decide_False.
      - apply Hrows. by right.
      - intros Heq. apply Hfresh. rewrite <- Heq.
        apply list_elem_of_fmap. by exists r'. }
    exists rows'. cbn [adjustReminders]. rewrite Hstep. split; [done|].
    intros rid. rewrite Hrows', Hrows1, byId_cons.
    case_bool_decide as Hid.
    + subst rid. rewrite decide_True by done.
      destruct (reminder_byId (Reminder.id r) existing) as [r'|] eqn:Hr';
        [|done].
      apply byId_Some in Hr' as [Hin Heq]. destruct Hfresh.
      rewrite <- Heq. apply list_elem_of_fmap. by exists r'.
    + rewrite decide_False by done. done.
Qed.

End Propagation.

Lemma NoDup_filter_ids (p : Reminder.t -> bool) (rows : list Reminder.t) :
  NoDup (map Reminder.id rows) -> NoDup (map Reminder.id (List.filter p rows)).
Proof.
  induction rows as [|r rows IH]; intros Hnd; cbn [List.filter map]; [done|].
  cbn [map] in Hnd. apply NoDup_cons in Hnd as [Hfresh Hnd].
  destruct (p r); [|by apply IH]. cbn [map]. apply NoDup_cons.
  split; [|by apply IH]. intros Hin. apply Hfresh.
  apply list_elem_of_fmap in Hin as [r' [-> Hin]].
  apply list_elem_of_fmap. exists r'. split; [done|].
  apply list_elem_of_In. apply list_elem_of_In in Hin.
  by apply filter_In in Hin as [Hin _].
Qed.

Lemma NoDup_remindersOf event w :
  NoDup (map Reminder.id (reminders w)) ->
  NoDup (map Reminder.id (EventActions.remindersOf event w)).
Proof. apply NoDup_filter_ids. Qed.

Lemma elem_of_remindersOf event w r :
  r ∈ EventActions.remindersOf event w
  <-> r ∈ reminders w /\ Reminder.eventId r = Event.id event.
Proof.
  unfold EventActions.remindersOf.
  rewrite !list_elem_of_In, filter_In. by rewrite bool_decide_eq_true.
Qed.

Lemma findOwnedEvent_Some eventId userId w event :
  EventActions.findOwnedEvent eventId userId w = Some event ->
  event ∈ events w /\ Event.id event = eventId /\ Event.userId event = userId.
Proof.
  intros H. apply find_some in H as [Hin Hp].
  apply andb_true_iff in Hp as [H1 H2].
  apply bool_decide_eq_true in H1, H2. by rewrite list_elem_of_In.
Qed.

Lemma event_update_Some eventId t d date l st rows event :
  event ∈ rows -> Event.id event = eventId ->
  exists row rows',
    Prisma.event_update eventId t d date l st rows = Some (row, rows')
    /\ Event.date row = date.
Proof.
  intros Hin Hid. unfold Prisma.event_update.
  destruct (find _ rows) as [row|] eqn:Hfind.
  - eexists _, _. split; [done|]. done.
  - apply list_elem_of_In in Hin.
    pose proof (find_none _ _ Hfind _ Hin) as Hno. simpl in Hno.
    by rewrite bool_decide_eq_true_2 in Hno.
Qed.

(** C2.  When [updateEvent] moves an event from [priorDate] to another
    date [newDate], every reminder of the event is given
    [newReminderTime = newDate - (priorDate - reminderTime)]: if
    [(newDate, newReminderTime)] is inside the window, the row of the
    reminder holds [newReminderTime] afterwards, and otherwise the row is
    gone.  A reminder two hours before an event that moves one day later
    ends two hours before the new date. *)
Theorem C2_propagation_keeps_lead_time
    (session : option Auth.Session) (user : Auth.User) (now : Z)
    (eventId : string) (rawData : EventActions.RawEvent)
    (data : EventActions.EventData) (w : World)
    (existingEvent : Event.t) (r : Reminder.t) :
  Auth.sessionUser session = Some user ->
  EventActions.eventSchema_safeParse now rawData = inl data ->
  EventActions.findOwnedEvent eventId (Auth.id user) w = Some existingEvent ->
  EventActions.findDuplicateEvent eventId (Auth.id user) data w = None ->
  NoDup (map Reminder.id (reminders w)) ->
  Event.date existingEvent <> EventActions.date data ->
  r ∈ reminders w ->
  Reminder.eventId r = eventId ->
  exists event w',
    EventActions.updateEvent session now eventId rawData w
    = (Success event, w')
    /\ Event.date event = EventActions.date data
    /\ (let priorDate := Event.date existingEvent in
        let newDate := EventActions.date data in
        let newReminderTime :=
          newDate - (priorDate - Reminder.reminderTime r) in
        (Spec.isValidReminderOffset newDate newReminderTime ->
         Prisma.reminder_byId (Reminder.id r) (reminders w')
         = Some (Reminder.set_reminderTime newReminderTime r))
        /\ (~ Spec.isValidReminderOffset newDate newReminderTime ->
            Prisma.reminder_byId (Reminder.id r) (reminders w') = None)
        /\ (Reminder.reminderTime r = priorDate - 2 * 3600000 ->
            newDate = priorDate + 86400000 ->
            Prisma.reminder_byId (Reminder.id r) (reminders w')
            = Some (Reminder.set_reminderTime
                      (priorDate + 86400000 - 2 * 3600000) r))).
Proof.
  intros Huser Hparse Hfind Hdup Hnd Hdate Hin Hevent.
  apply findOwnedEvent_Some in Hfind as Hexisting.
  destruct Hexisting as (Hev & Hid & _).
  destruct (event_update_Some eventId (EventActions.title data)
              (EventActions.description data) (EventActions.date data)
              (EventActions.location data) (EventActions.status data)
              (events w) existingEvent Hev Hid)
    as (event & eventRows & Hupd & Hnew).
  assert (Hr : r ∈ EventActions.remindersOf existingEvent w).
  { apply elem_of_remindersOf. by rewrite Hid. }
  destruct (adjustReminders_byId (Event.date existingEvent)
              (EventActions.date data)
              (EventActions.remindersOf existingEvent w) (reminders w))
    as [rows' [Hloop Hrows']].
  { by apply NoDup_remindersOf. }
  { intros r' Hr'. apply elem_of_remindersOf in Hr' as [Hr' _].
    rewrite (byId_elem_of _ _ Hnd Hr'). by eexists. }
  assert (Hrow : Prisma.reminder_byId (Reminder.id r) rows'
                 = EventActions.adjusted (Event.date existingEvent)
                     (EventActions.date data)
                            r (Some r)).
  { rewrite Hrows'.
    rewrite (byId_elem_of _ _ (NoDup_remindersOf existingEvent w Hnd) Hr).
    by rewrite (byId_elem_of _ _ Hnd Hin). }
  exists event, (mkWorld eventRows rows' (reminderService w)).
  split; [|split; [done|]].
  - unfold EventActions.updateEvent.
    rewrite Huser, Hparse, Hfind, Hdup, Hupd.
    unfold EventActions.propagate.
    replace (Event.date existingEvent =? EventActions.date data) with false
      by (symmetry; by apply Z.eqb_neq).
    destruct (EventActions.remindersOf existingEvent w) as [|r0 rest] eqn:Hrem.
    { by apply elem_of_nil in Hr. }
    cbn [negb andb length Nat.ltb Nat.leb].
    by rewrite Hloop.
  - cbv zeta. cbn [reminders]. rewrite Hrow. unfold EventActions.adjusted.
    unfold EventActions.newReminderTime.
    split; [|split].
    + intros Hok. apply updateEvent_window in Hok. by rewrite Hok.
    + intros Hno. apply updateEvent_window_false in Hno. by rewrite Hno.
    + intros Htwo Hday.
      assert (Hok : EventActions.updateEvent_insideWindow
                      (EventActions.date data)
                      (EventActions.date data
                       - (Event.date existingEvent - Reminder.reminderTime r))
                    = true).
      { apply updateEvent_window. unfold Spec.isValidReminderOffset. lia. }
      rewrite Hok. simpl. do 2 f_equal. lia.
Qed.

Lemma C2_witness :
  Prisma.reminder_byId "reminder-123"
    (reminders (EventActions.updateEvent Scenario.session Scenario.clock
                  "event-123" Scenario.movedForm Scenario.world).2)
  = Some (Reminder.mk "reminder-123"
            (Scenario.T + Scenario.day - 2 * Scenario.hour)
            "event-123" "user-123").
Proof.
  destruct (C2_propagation_keeps_lead_time
              Scenario.session (Auth.mkUser "user-123" "test@example.com")
              Scenario.clock "event-123" Scenario.movedForm Scenario.movedData
              Scenario.world Scenario.event Scenario.reminder)
    as (event & w' & Hrun & _ & _ & _ & Hmoved).
  - reflexivity.
  - reflexivity.
  - reflexivity.
  - reflexivity.
  - apply NoDup_singleton.
  - closed.
  - by left.
  - reflexivity.
  - rewrite Hrun. apply Hmoved; reflexivity.
Defined.

(** [updateEvent] never touches the job processor. *)
Lemma updateEvent_leaves_service session now eventId rawData w :
  reminderService (EventActions.updateEvent session now eventId rawData w).2
  = reminderService w.
Proof.
  unfold EventActions.updateEvent.
  destruct (Auth.sessionUser session); [|done].
  destruct (EventActions.eventSchema_safeParse now rawData); [|done].
  destruct (EventActions.findOwnedEvent _ _ _); [|done].
  destruct (EventActions.findDuplicateEvent _ _ _ _); [done|].
  destruct (Prisma.event_update _ _ _ _ _ _ _) as [[event rows]|]; [|done].
  by destruct (EventActions.propagate _ _ _ _).
Qed.

(** C3.  At a concrete input the jobs are left behind.  Reminder and job
    are in sync before; after [updateEvent] has moved the event one day
    later, the row of the reminder holds the new time while its job still
    holds the old one, so they no longer are.  And where the propagation
    deletes the row of a reminder, its job stays in the table. *)
Theorem C3_propagation_leaves_jobs_stale :
  inSync Scenario.world
  /\ (let w' := (EventActions.updateEvent Scenario.session Scenario.clock
                   "event-123" Scenario.movedForm Scenario.world).2 in
      Reminder.reminderTime
        <$> Prisma.reminder_byId "reminder-123" (reminders w')
      = Some (Scenario.T + Scenario.day - 2 * Scenario.hour)
      /\ Scheduler.reminderTime
           <$> Scheduler.jobs (reminderService w') !! "reminder-123"
         = Some (Scenario.T - 2 * Scenario.hour)
      /\ ~ inSync w')
  /\ (let w' := (EventActions.updateEvent Scenario.session Scenario.clock
                   "event-123" Scenario.movedForm Scenario.seededWorld).2 in
      Prisma.reminder_byId "reminder-123" (reminders w') = None
      /\ Scheduler.jobs (reminderService w') !! "reminder-123"
         = Some Scenario.earlyJob).
Proof.
  cbv zeta. split; [|split; [split; [|split]|split]];
    try (vm_compute; reflexivity).
  - intros r job Hin Hjob. cbn [reminders Scenario.world] in Hin.
    apply list_elem_of_singleton in Hin as ->.
    change (Some Scenario.job = Some job) in Hjob. by injection Hjob as <-.
  - intros Hsync.
    specialize (Hsync (Reminder.mk "reminder-123"
                         (Scenario.T + Scenario.day - 2 * Scenario.hour)
                         "event-123" "user-123")
                      Scenario.job).
    assert (Hrows :
      reminders (EventActions.updateEvent Scenario.session Scenario.clock
                   "event-123" Scenario.movedForm Scenario.world).2
      = [Reminder.mk "reminder-123"
           (Scenario.T + Scenario.day - 2 * Scenario.hour)
           "event-123" "user-123"]) by (vm_compute; reflexivity).
    rewrite Hrows in Hsync. rewrite updateEvent_leaves_service in Hsync.
    specialize (Hsync ltac:(by left) eq_refl). vm_compute in Hsync.
    discriminate Hsync.
Qed.

(** ** The reminder actions *)

Section Actions.
Import Validations ReminderActions.

Lemma find_None_iff {A} (p : A -> bool) (l : list A) :
  List.find p l = None <-> forall x, x ∈ l -> p x = false.
Proof.
  induction l as [|a l IH]; simpl.
  - split; [|done]. intros _ x Hin. by apply elem_of_nil in Hin.
  - destruct (p a) eqn:Hp.
    + split; [done|]. intros H. rewrite H in Hp; [done|by left].
    + rewrite IH. split.
      * intros H x Hin. apply elem_of_cons in Hin as [->|Hin]; auto.
      * intros H x Hin. apply H. by right.
Qed.

Lemma find_is_Some {A} (p : A -> bool) (l : list A) x :
  x ∈ l -> p x = true -> is_Some (List.find p l).
Proof.
  intros Hin Hp. destruct (List.find p l) eqn:Hfind; [by eexists|].
  rewrite find_None_iff in Hfind. rewrite (Hfind x Hin) in Hp. done.
Qed.

Lemma safeParse_no_eventId data :
  in_eventId data = ""%string ->
  exists errors,
    reminderSchema_safeParse (toRaw data) = inr errors
    /\ schemaFailure errors = SchemaError "Event ID".
Proof.
  intros He. unfold reminderSchema_safeParse, toRaw. simpl. rewrite He.
  simpl. eexists. split; [done|]. done.
Qed.

Lemma eventId_ok_nonempty eid :
  eid <> ""%string -> eventId_ok (Some eid) = Some eid.
Proof. intros He. by destruct eid. Qed.

Lemma safeParse_invalid_date data :
  in_eventId data <> ""%string -> in_reminderTime data = None ->
  exists errors,
    reminderSchema_safeParse (toRaw data) = inr errors
    /\ schemaFailure errors = SchemaError "Reminder Time".
Proof.
  intros He Ht. unfold reminderSchema_safeParse, toRaw.
  cbn [raw_eventId raw_reminderTime].
  rewrite (eventId_ok_nonempty _ He), Ht. eexists. split; [done|]. done.
Qed.

Lemma safeParse_ok data time :
  in_eventId data <> ""%string -> in_reminderTime data = Some time ->
  reminderSchema_safeParse (toRaw data)
  = inl (mkReminderData (in_eventId data) time).
Proof.
  intros He Ht. unfold reminderSchema_safeParse, toRaw.
  cbn [raw_eventId raw_reminderTime].
  by rewrite (eventId_ok_nonempty _ He), Ht.
Qed.

Lemma findEvent_None eid uid w :
  findEvent eid uid w = None
  <-> forall e, e ∈ events w ->
                ~ (Event.id e = eid /\ Event.userId e = uid).
Proof.
  unfold findEvent. rewrite find_None_iff.
  split; intros H e Hin; specialize (H e Hin).
  - apply andb_false_iff in H.
    rewrite !bool_decide_eq_false in H. tauto.
  - apply andb_false_iff. rewrite !bool_decide_eq_false.
    destruct (decide (Event.id e = eid)); [right|left]; tauto.
Qed.

Lemma findReminderForEvent_None eid uid w :
  findReminderForEvent eid uid w = None
  <-> forall r, r ∈ reminders w ->
                ~ (Reminder.eventId r = eid /\ Reminder.userId r = uid).
Proof.
  unfold findReminderForEvent. rewrite find_None_iff.
  split; intros H r Hin; specialize (H r Hin).
  - apply andb_false_iff in H.
    rewrite !bool_decide_eq_false in H. tauto.
  - apply andb_false_iff. rewrite !bool_decide_eq_false.
    destruct (decide (Reminder.eventId r = eid)); [right|left]; tauto.
Qed.

Lemma findReminderForEvent_Some eid uid w :
  (exists r, r ∈ reminders w
             /\ Reminder.eventId r = eid /\ Reminder.userId r = uid)
  -> is_Some (findReminderForEvent eid uid w).
Proof.
  intros (r & Hin & He & Hu). apply (find_is_Some _ _ r Hin).
  by rewrite !bool_decide_eq_true_2.
Qed.

Lemma reminder_create_fresh newId time eid uid rows :
  (forall r, r ∈ rows -> Reminder.id r <> newId) ->
  Prisma.reminder_create newId time eid uid rows
  = Some (Reminder.mk newId time eid uid,
          rows ++ [Reminder.mk newId time eid uid]).
Proof.
  intros Hfresh. unfold Prisma.reminder_create.
  by rewrite (proj2 (byId_None newId rows) Hfresh).
Qed.

End Actions.

(** A call of [createReminder] for an event that already has a reminder of
    the caller fails, and leaves everything as it is. *)
Lemma createReminder_again session user newId data event w :
  Auth.sessionUser session = Some user ->
  ReminderActions.in_eventId data <> ""%string ->
  ReminderActions.findEvent (ReminderActions.in_eventId data)
                            (Auth.id user) w = Some event ->
  is_Some (ReminderActions.findReminderForEvent
             (ReminderActions.in_eventId data) (Auth.id user) w) ->
  exists error,
    ReminderActions.createReminder session newId data w = (Failure error, w)
    /\ (ReminderActions.in_reminderTime data = None ->
        error = SchemaError "Reminder Time")
    /\ (forall time,
          ReminderActions.in_reminderTime data = Some time ->
          ~ Spec.isValidReminderOffset (Event.date event) time ->
          error = InvalidWindow)
    /\ (forall time,
          ReminderActions.in_reminderTime data = Some time ->
          Spec.isValidReminderOffset (Event.date event) time ->
          error = DuplicateReminder).
Proof.
  intros Huser He Hevent [existing Hexisting].
  unfold ReminderActions.createReminder. rewrite Huser.
  destruct (ReminderActions.in_reminderTime data) as [time|] eqn:Htime.
  - rewrite (safeParse_ok _ _ He Htime).
    cbn [Validations.eventId Validations.reminderTime]. rewrite Hevent.
    destruct (ReminderActions.createReminder_outsideWindow
                (Event.date event) time) eqn:Hwin.
    + exists InvalidWindow. split; [done|]. split; [done|]. split; [done|].
      intros time' [= <-] Hok. apply createReminder_window in Hok. congruence.
    + rewrite Hexisting. exists DuplicateReminder.
      split; [done|]. split; [done|]. split; [|done].
      intros time' [= <-] Hno. by apply createReminder_window in Hwin.
  - destruct (safeParse_invalid_date _ He Htime) as (errors & -> & ->).
    exists (SchemaError "Reminder Time"). done.
Qed.

(** C4.  [createReminder] checks, in this order: the session
    ([NotAuthenticated]); the shape of the input (an empty [eventId] and
    then an invalid [reminderTime] are schema errors); the event of that
    id owned by the caller ([EventNotFound]); the window on
    [(event.date, reminderTime)] ([InvalidWindow]); a reminder of the
    caller for the event ([DuplicateReminder]).  Each failure leaves the
    tables and the jobs as they were.  When none holds, the row is
    written, a pending job is registered under its id and the row is
    returned; a further call for the same event and caller then fails:
    with [DuplicateReminder] when its [reminderTime] is inside the
    window, with one of the earlier errors otherwise. *)
Theorem C4_createReminder_checks_in_order
    (session : option Auth.Session) (newId : string)
    (data : ReminderActions.ReminderFormInput) (w : World) :
  let result := ReminderActions.createReminder session newId data w in
  let eid := ReminderActions.in_eventId data in
  (Auth.sessionUser session = None -> result = (Failure NotAuthenticated, w))
  /\ forall user,
       Auth.sessionUser session = Some user ->
       let uid := Auth.id user in
       (eid = ""%string -> result = (Failure (SchemaError "Event ID"), w))
       /\ (eid <> ""%string -> ReminderActions.in_reminderTime data = None ->
           result = (Failure (SchemaError "Reminder Time"), w))
       /\ forall time,
            eid <> ""%string ->
            ReminderActions.in_reminderTime data = Some time ->
            ((forall e, e ∈ events w ->
                        ~ (Event.id e = eid /\ Event.userId e = uid)) ->
             result = (Failure EventNotFound, w))
            /\ forall event,
                 ReminderActions.findEvent eid uid w = Some event ->
                 (~ Spec.isValidReminderOffset (Event.date event) time ->
                  result = (Failure InvalidWindow, w))
                 /\ (Spec.isValidReminderOffset (Event.date event) time ->
                     ((exists r, r ∈ reminders w
                                 /\ Reminder.eventId r = eid
                                 /\ Reminder.userId r = uid) ->
                      result = (Failure DuplicateReminder, w))
                     /\ ((forall r, r ∈ reminders w ->
                                    ~ (Reminder.eventId r = eid
                                       /\ Reminder.userId r = uid)) ->
                         (forall r, r ∈ reminders w ->
                                    Reminder.id r <> newId) ->
                         let row := Reminder.mk newId time eid uid in
                         let job :=
                           Scheduler.mkJob newId (Event.id event) uid
                             (Event.title event) (Event.date event) time
                             Scheduler.pending in
                         let w' :=
                           mkWorld (events w) (reminders w ++ [row])
                             (Scheduler.mkService
                                (<[newId := job]>
                                   (Scheduler.jobs (reminderService w)))
                                (Scheduler.timeouts (reminderService w))) in
                         result = (Success row, w')
                         /\ forall newId' data',
                              ReminderActions.in_eventId data' = eid ->
                              exists error,
                                ReminderActions.createReminder
                                  session newId' data' w'
                                = (Failure error, w')
                                /\ (forall time',
                                      ReminderActions.in_reminderTime data'
                                      = Some time' ->
                                      Spec.isValidReminderOffset
                                        (Event.date event) time' ->
                                      error = DuplicateReminder))).
Proof.
  cbv zeta. unfold ReminderActions.createReminder at 1 2 3 4 5 6 7.
  split; [by intros ->|].
  intros user Huser. rewrite Huser. split.
  { intros He. by destruct (safeParse_no_eventId _ He) as (errors & -> & ->). }
  split.
  { intros He Ht.
    by destruct (safeParse_invalid_date _ He Ht) as (errors & -> & ->). }
  intros time He Ht. rewrite (safeParse_ok _ _ He Ht).
  cbn [Validations.eventId Validations.reminderTime]. split.
  { intros Hno. by rewrite (proj2 (findEvent_None _ _ _) Hno). }
  intros event Hevent. rewrite Hevent. split.
  { intros Hno. rewrite <- createReminder_window in Hno.
    by apply not_false_is_true in Hno as ->. }
  intros Hok. apply createReminder_window in Hok as Hwin. rewrite Hwin. split.
  { intros Hex. by destruct (findReminderForEvent_Some _ _ _ Hex) as [r ->]. }
  intros Hnone Hfresh.
  rewrite (proj2 (findReminderForEvent_None _ _ _) Hnone).
  rewrite (reminder_create_fresh _ _ _ _ _ Hfresh). split; [done|].
  intros newId' data' He'.
  destruct (createReminder_again session user newId' data' event
              (mkWorld (events w)
                 (reminders w
                  ++ [Reminder.mk newId time (ReminderActions.in_eventId data)
                                  (Auth.id user)])
                 (Scheduler.mkService
                    (<[newId := Scheduler.mkJob newId (Event.id event)
                                  (Auth.id user) (Event.title event)
                                  (Event.date event) time Scheduler.pending]>
                       (Scheduler.jobs (reminderService w)))
                    (Scheduler.timeouts (reminderService w)))))
    as (error & Hrun & _ & _ & Hdup).
  - done.
  - by rewrite He'.
  - rewrite He'. done.
  - rewrite He'. apply findReminderForEvent_Some.
    exists (Reminder.mk newId time (ReminderActions.in_eventId data)
                        (Auth.id user)).
    split; [|done]. cbn [reminders]. apply elem_of_app. right. by left.
  - exists error. split; [done|]. done.
Qed.

Lemma C4_counterexample :
  (let data := ReminderActions.mkInput (Some (Scenario.T - 2 * Scenario.hour))
                                       "" in
   Spec.createFailure Scenario.session (ReminderActions.in_eventId data)
                      (ReminderActions.in_reminderTime data) Scenario.fresh
   = Some EventNotFound
   /\ (ReminderActions.createReminder Scenario.session "reminder-123" data
                                      Scenario.fresh).1
      = Failure (SchemaError "Event ID"))
  /\ (let first := ReminderActions.createReminder Scenario.session
                     "reminder-123"
                     (ReminderActions.mkInput
                        (Some (Scenario.T - 2 * Scenario.hour)) "event-123")
                     Scenario.fresh in
      let second := ReminderActions.createReminder Scenario.session
                      "reminder-456"
                      (ReminderActions.mkInput
                         (Some (Scenario.T - 8 * Scenario.day)) "event-123")
                      first.2 in
      first.1 = Success Scenario.reminder
      /\ second.1 = Failure InvalidWindow
      /\ second.1 <> Failure DuplicateReminder).
Proof. cbv zeta. repeat split; vm_compute; try reflexivity; discriminate. Qed.

Lemma findReminderById_Some rid uid w r :
  ReminderActions.findReminderById rid uid w = Some r ->
  r ∈ reminders w /\ Reminder.id r = rid /\ Reminder.userId r = uid.
Proof.
  intros H. apply find_some in H as [Hin Hp].
  apply andb_true_iff in Hp as [H1 H2].
  apply bool_decide_eq_true in H1, H2. by rewrite list_elem_of_In.
Qed.

Lemma findReminderForEvent_elem eid uid w r :
  ReminderActions.findReminderForEvent eid uid w = Some r ->
  r ∈ reminders w /\ Reminder.eventId r = eid /\ Reminder.userId r = uid.
Proof.
  intros H. apply find_some in H as [Hin Hp].
  apply andb_true_iff in Hp as [H1 H2].
  apply bool_decide_eq_true in H1, H2. by rewrite list_elem_of_In.
Qed.

(** Updating the row of an id that is in the table goes through, and every
    row of that id then holds the new time. *)
Lemma reminder_update_present rid time rows r :
  r ∈ rows -> Reminder.id r = rid ->
  exists row rows',
    Prisma.reminder_update rid time rows = Some (row, rows')
    /\ Reminder.id row = rid
    /\ Reminder.reminderTime row = time
    /\ row ∈ rows'
    /\ Reminder.set_reminderTime time r ∈ rows'
    /\ (forall r', r' ∈ rows' -> Reminder.id r' = rid ->
                   Reminder.reminderTime r' = time)
    /\ (forall first, Prisma.reminder_byId rid rows = Some first ->
                      row = Reminder.set_reminderTime time first).
Proof.
  intros Hin Hid.
  destruct (find_is_Some (fun r => bool_decide (Reminder.id r = rid)) rows r)
    as [first Hfirst]; [done|by apply bool_decide_eq_true_2|].
  fold (Prisma.reminder_byId rid rows) in Hfirst.
  unfold Prisma.reminder_update. rewrite Hfirst.
  eexists _, _. split; [done|].
  apply byId_Some in Hfirst as [Hfin Hfid].
  assert (Hmap : forall x, x ∈ rows -> Reminder.id x = rid ->
            Reminder.set_reminderTime time x
            ∈ List.map (fun r0 => if bool_decide (Reminder.id r0 = rid)
                                  then Reminder.set_reminderTime time r0
                                  else r0) rows).
  { intros x Hx Hxid. apply list_elem_of_fmap. exists x.
    by rewrite bool_decide_eq_true_2. }
  split; [done|]. split; [done|]. split; [by apply Hmap|].
  split; [by apply Hmap|]. split.
  - intros r' Hr' Hid'. apply list_elem_of_fmap in Hr' as [x [-> Hx]].
    case_bool_decide as Hx'; [done|]. done.
  - by intros first' [= <-].
Qed.

(** C8.  [updateReminder] looks up the event named by [data.eventId] and
    tests the window against that event's date; the event the stored
    reminder points to plays no part.  When the caller owns such an event,
    the new time is inside its window, and the caller owns a reminder of
    the given id, the update succeeds and the rows of that id hold the new
    time, whatever [eventId] the reminder has. *)
Theorem C8_updateReminder_checks_the_event_of_its_input
    (session : option Auth.Session) (user : Auth.User)
    (reminderId : string) (data : ReminderActions.ReminderFormInput)
    (time : Z) (w : World) (event : Event.t) (existingReminder : Reminder.t) :
  Auth.sessionUser session = Some user ->
  ReminderActions.in_eventId data <> ""%string ->
  ReminderActions.in_reminderTime data = Some time ->
  ReminderActions.findEvent (ReminderActions.in_eventId data)
                            (Auth.id user) w = Some event ->
  Spec.isValidReminderOffset (Event.date event) time ->
  ReminderActions.findReminderById reminderId (Auth.id user) w
  = Some existingReminder ->
  exists row w',
    ReminderActions.updateReminder session reminderId data w
    = (Success row, w')
    /\ Reminder.id row = reminderId
    /\ Reminder.reminderTime row = time
    /\ Reminder.set_reminderTime time existingReminder ∈ reminders w'
    /\ (forall r, r ∈ reminders w' -> Reminder.id r = reminderId ->
                  Reminder.reminderTime r = time)
    /\ events w' = events w.
Proof.
  intros Huser He Ht Hevent Hok Hrem.
  apply findReminderById_Some in Hrem as Hexisting.
  destruct Hexisting as (Hin & Hid & Huid).
  destruct (reminder_update_present reminderId time (reminders w)
              existingReminder Hin Hid)
    as (row & rows' & Hupd & Hrid & Htime & _ & Hset & Hall & _).
  unfold ReminderActions.updateReminder.
  rewrite Huser, (safeParse_ok _ _ He Ht).
  cbn [Validations.eventId Validations.reminderTime].
  rewrite Hevent, (proj2 (updateReminder_window _ _) Hok), Hrem, Hupd.
  eexists _, _. split; [done|]. done.
Qed.

Lemma C8_witness :
  let data := ReminderActions.mkInput
                (Some (Scenario.T + 3 * Scenario.day - Scenario.hour))
                "event-456" in
  Reminder.eventId Scenario.reminder <> ReminderActions.in_eventId data
  /\ exists row w',
       ReminderActions.updateReminder Scenario.session "reminder-123" data
                                      Scenario.twoEvents
       = (Success row, w')
       /\ Reminder.reminderTime row
          = Scenario.T + 3 * Scenario.day - Scenario.hour.
Proof.
  cbv zeta. split; [discriminate|].
  destruct (C8_updateReminder_checks_the_event_of_its_input
              Scenario.session (Auth.mkUser "user-123" "test@example.com")
              "reminder-123"
              (ReminderActions.mkInput
                 (Some (Scenario.T + 3 * Scenario.day - Scenario.hour))
                 "event-456")
              (Scenario.T + 3 * Scenario.day - Scenario.hour)
              Scenario.twoEvents Scenario.otherEvent Scenario.reminder)
    as (row & w' & Hrun & _ & Htime & _);
    [reflexivity|discriminate|reflexivity|reflexivity|closed|reflexivity|].
  exists row, w'. split; [exact Hrun|exact Htime].
Defined.

(** C9.  [createOrUpdateReminder] never touches the job processor: its
    jobs and timeouts are the same after the call as before, whatever the
    call returns.  When the call succeeds, the row it returns is in the
    table, belongs to the caller and the event of the form and holds the
    new time; it is the row of the existing reminder when there was one
    and a new row otherwise, and the job table has under its id what it
    had before, which is nothing for an id that never had a job.  The
    call does succeed when the caller owns the event and the time is
    inside the window. *)
Theorem C9_createOrUpdateReminder_leaves_jobs
    (session : option Auth.Session) (newId : string)
    (rawData : Validations.RawReminder) (w : World) :
  let result :=
    ReminderActions.createOrUpdateReminder session newId rawData w in
  reminderService result.2 = reminderService w
  /\ (NoDup (map Reminder.id (reminders w)) ->
      forall row,
        result.1 = Success row ->
        exists user data,
          Auth.sessionUser session = Some user
          /\ Validations.reminderSchema_safeParse rawData = inl data
          /\ row ∈ reminders result.2
          /\ Reminder.reminderTime row = Validations.reminderTime data
          /\ Reminder.eventId row = Validations.eventId data
          /\ Reminder.userId row = Auth.id user
          /\ match ReminderActions.findReminderForEvent
                     (Validations.eventId data) (Auth.id user) w with
             | Some existingReminder =>
                 row = Reminder.set_reminderTime (Validations.reminderTime data)
                                                 existingReminder
             | None =>
                 Reminder.id row = newId
                 /\ reminders result.2 = reminders w ++ [row]
             end
          /\ Scheduler.jobs (reminderService result.2) !! Reminder.id row
             = Scheduler.jobs (reminderService w) !! Reminder.id row
          /\ (Scheduler.jobs (reminderService w) !! Reminder.id row = None ->
              Scheduler.jobs (reminderService result.2) !! Reminder.id row
              = None))
  /\ (forall user data event,
        Auth.sessionUser session = Some user ->
        Validations.reminderSchema_safeParse rawData = inl data ->
        ReminderActions.findEvent (Validations.eventId data) (Auth.id user) w
        = Some event ->
        Spec.isValidReminderOffset (Event.date event)
                                   (Validations.reminderTime data) ->
        (forall r, r ∈ reminders w -> Reminder.id r <> newId) ->
        exists row, result.1 = Success row).
Proof.
  cbv zeta.
  assert (Hservice :
    reminderService
      (ReminderActions.createOrUpdateReminder session newId rawData w).2
    = reminderService w).
  { unfold ReminderActions.createOrUpdateReminder.
    destruct (Auth.sessionUser session); [|done].
    destruct (Validations.reminderSchema_safeParse rawData); [|done].
    destruct (ReminderActions.findEvent _ _ _); [|done].
    destruct (ReminderActions.createOrUpdateReminder_outsideWindow _ _);
      [done|].
    by destruct (match ReminderActions.findReminderForEvent _ _ _ with
                 | Some _ => _ | None => _ end) as [[row rows]|]. }
  split; [done|]. split.
  - intros Hnd row. rewrite Hservice.
    unfold ReminderActions.createOrUpdateReminder.
    destruct (Auth.sessionUser session) as [user|]; [|done].
    destruct (Validations.reminderSchema_safeParse rawData) as [data|];
      [|done].
    destruct (ReminderActions.findEvent _ _ _) as [event|]; [|done].
    destruct (ReminderActions.createOrUpdateReminder_outsideWindow _ _);
      [done|].
    destruct (ReminderActions.findReminderForEvent _ _ _)
      as [existingReminder|] eqn:Hexisting.
    + destruct (findReminderForEvent_elem _ _ _ _ Hexisting)
        as (Hin & Heid & Huid).
      destruct (reminder_update_present (Reminder.id existingReminder)
                  (Validations.reminderTime data) (reminders w)
                  existingReminder Hin eq_refl)
        as (row' & rows' & Hupd & Hrid & Htime & Hrow & Hset & Hall & Hfirst).
      rewrite Hupd. cbn [fst snd reminders]. intros [= <-].
      rewrite (Hfirst _ (byId_elem_of _ _ Hnd Hin)).
      rewrite (Hfirst _ (byId_elem_of _ _ Hnd Hin)) in Hrow.
      exists user, data. rewrite Hexisting.
      cbn [Reminder.id Reminder.reminderTime Reminder.eventId Reminder.userId
           Reminder.set_reminderTime].
      repeat split; done.
    + unfold Prisma.reminder_create.
      destruct (Prisma.reminder_byId newId (reminders w)); [done|].
      cbn [fst snd reminders]. intros [= <-].
      exists user, data. rewrite Hexisting.
      cbn [Reminder.id Reminder.reminderTime Reminder.eventId Reminder.userId].
      repeat split; try done. apply elem_of_app. right. by left.
  - intros user data event Huser Hparse Hevent Hok Hfresh.
    unfold ReminderActions.createOrUpdateReminder.
    rewrite Huser, Hparse, Hevent.
    rewrite (proj2 (createOrUpdateReminder_window _ _) Hok).
    destruct (ReminderActions.findReminderForEvent _ _ _)
      as [existingReminder|] eqn:Hexisting.
    + apply findReminderForEvent_elem in Hexisting as (Hin & Heid & Huid).
      destruct (reminder_update_present (Reminder.id existingReminder)
                  (Validations.reminderTime data) (reminders w)
                  existingReminder Hin eq_refl)
        as (row' & rows' & Hupd & _).
      rewrite Hupd. by eexists.
    + rewrite (reminder_create_fresh _ _ _ _ _ Hfresh). by eexists.
Qed.

(** ** The actions that keep a reminder and its job together *)

Section Sync.
Import ReminderActions.

(** [createReminder] keeps reminders and jobs in sync. *)
Lemma createReminder_inSync session newId data w :
  inSync w -> inSync (createReminder session newId data w).2.
Proof.
  intros Hsync. unfold createReminder.
  destruct (Auth.sessionUser session) as [user|]; [|done].
  destruct (Validations.reminderSchema_safeParse _) as [vd|]; [|done].
  destruct (findEvent _ _ _) as [event|]; [|done].
  destruct (createReminder_outsideWindow _ _); [done|].
  destruct (findReminderForEvent _ _ _); [done|].
  unfold Prisma.reminder_create.
  destruct (Prisma.reminder_byId newId (reminders w)) eqn:Hfresh; [done|].
  rewrite byId_None in Hfresh.
  intros r job. cbn [snd reminders reminderService Reminder.id].
  unfold Scheduler.scheduleReminder. cbn [Scheduler.jobs Scheduler.with_jobs].
  intros Hin Hjob. apply elem_of_app in Hin as [Hin|Hin].
  - rewrite lookup_insert_ne in Hjob by (symmetry; by apply Hfresh).
    by apply Hsync.
  - apply list_elem_of_singleton in Hin as ->. cbn [Reminder.id] in Hjob.
    rewrite lookup_insert_eq in Hjob. by injection Hjob as <-.
Qed.

(** [updateReminder] keeps reminders and jobs in sync. *)
Lemma updateReminder_inSync session reminderId data w :
  inSync w -> inSync (updateReminder session reminderId data w).2.
Proof.
  intros Hsync. unfold updateReminder.
  destruct (Auth.sessionUser session) as [user|]; [|done].
  destruct (Validations.reminderSchema_safeParse _) as [vd|]; [|done].
  destruct (findEvent _ _ _) as [event|]; [|done].
  destruct (updateReminder_outsideWindow _ _); [done|].
  destruct (findReminderById _ _ _); [|done].
  destruct (Prisma.reminder_update _ _ _) as [[row rows']|] eqn:Hupd; [|done].
  apply update_rows in Hupd as [-> (first & Hfirst & ->)].
  apply byId_Some in Hfirst as [_ Hfid].
  intros r job. cbn [snd reminders reminderService Reminder.id
                     Reminder.set_reminderTime]. rewrite Hfid.
  intros Hin Hjob. apply list_elem_of_fmap in Hin as [r0 [-> Hin]].
  unfold Scheduler.updateReminder in Hjob.
  case_bool_decide as Hid.
  - cbn [Reminder.id Reminder.set_reminderTime Reminder.reminderTime] in *.
    rewrite Hid in Hjob.
    destruct (Scheduler.jobs (reminderService w) !! reminderId)
      as [job0|] eqn:Hjob0.
    + cbn [Scheduler.jobs Scheduler.with_jobs] in Hjob.
      rewrite lookup_insert_eq in Hjob. by injection Hjob as <-.
    + by rewrite Hjob0 in Hjob.
  - destruct (Scheduler.jobs (reminderService w) !! reminderId)
      as [job0|] eqn:Hjob0.
    + cbn [Scheduler.jobs Scheduler.with_jobs] in Hjob.
      rewrite lookup_insert_ne in Hjob by done. by apply Hsync.
    + by apply Hsync.
Qed.

(** [deleteReminder] keeps reminders and jobs in sync, and leaves no job
    under the id of the deleted reminder. *)
Lemma deleteReminder_inSync session reminderId w :
  inSync w ->
  inSync (deleteReminder session reminderId w).2
  /\ ((deleteReminder session reminderId w).1 = Success tt ->
      Scheduler.jobs
        (reminderService (deleteReminder session reminderId w).2)
        !! reminderId = None).
Proof.
  intros Hsync. unfold deleteReminder.
  destruct (Auth.sessionUser session) as [user|]; [|done].
  destruct (findReminderById _ _ _); [|done].
  unfold Prisma.reminder_delete.
  destruct (Prisma.reminder_byId reminderId (reminders w)); [|done].
  cbn [fst snd reminders reminderService]. split.
  - intros r job Hin Hjob. apply list_elem_of_In, filter_In in Hin as [Hin Hid].
    apply negb_true_iff, bool_decide_eq_false in Hid.
    unfold Scheduler.cancelReminder in Hjob.
    destruct (Scheduler.jobs (reminderService w) !! reminderId).
    + cbn [Scheduler.jobs Scheduler.with_jobs reminderService] in Hjob.
      rewrite lookup_delete_ne in Hjob by done.
      apply Hsync; [by apply list_elem_of_In|done].
    + apply Hsync; [by apply list_elem_of_In|done].
  - intros _. apply cancelReminder_lookup.
Qed.

End Sync.


(* ================================================================== *)
(** * Further properties of the code *)

(** ** [getStatus], [start] and [stop] *)

Section Status.
Import Scheduler Runner.

Lemma withStatus_split (js : list ReminderJob) :
  length js
  = (length (withStatus pending js) + length (withStatus sent js)
     + length (withStatus failed js))%nat.
Proof.
  unfold withStatus. induction js as [|j js IH]; [done|].
  cbn [List.filter length]. destruct (status j); simpl; lia.
Qed.

Lemma head_insertByTime job sorted :
  head (insertByTime job sorted)
  = Some (match head sorted with
          | Some x => if reminderTime job <=? reminderTime x then job else x
          | None => job
          end).
Proof.
  destruct sorted as [|x rest]; [done|]. simpl.
  by destruct (reminderTime job <=? reminderTime x).
Qed.

(** The first job of the sorted array is one of the jobs and none is
    earlier. *)
Lemma head_sortByTime (js : list ReminderJob) :
  match head (sortByTime js) with
  | Some x => x ∈ js /\ forall y, y ∈ js -> reminderTime x <= reminderTime y
  | None => js = []
  end.
Proof.
  induction js as [|j js IH]; [done|].
  cbn [sortByTime foldr]. fold (sortByTime js).
  rewrite head_insertByTime. destruct (head (sortByTime js)) as [x|].
  - destruct IH as [Hx Hmin].
    destruct (reminderTime j <=? reminderTime x) eqn:Hle.
    + apply Z.leb_le in Hle. split; [by left|].
      intros y Hy. apply elem_of_cons in Hy as [->|Hy]; [lia|].
      specialize (Hmin y Hy). lia.
    + apply Z.leb_gt in Hle. split; [by right|].
      intros y Hy. apply elem_of_cons in Hy as [->|Hy]; [lia|by apply Hmin].
  - subst js. split; [by left|].
    intros y Hy. apply list_elem_of_singleton in Hy as ->. lia.
Qed.

Lemma elem_of_withStatus st (js : list ReminderJob) job :
  job ∈ withStatus st js <-> job ∈ js /\ status job = st.
Proof.
  unfold withStatus. rewrite !list_elem_of_In, filter_In.
  by rewrite bool_decide_eq_true.
Qed.

Lemma elem_of_values (m : gmap string ReminderJob) job :
  job ∈ map snd (map_to_list m) <-> exists key, m !! key = Some job.
Proof.
  rewrite list_elem_of_fmap. split.
  - intros [[k j] [-> Hin]]. exists k. by apply elem_of_map_to_list.
  - intros [k Hk]. exists (k, job). split; [done|].
    by apply elem_of_map_to_list.
Qed.

End Status.

(** X1.  The numbers [getStatus] reports add up: the total is the size of
    the table and the sum of the pending, sent and failed counts.
    [nextReminder] is undefined exactly when no job is pending; otherwise
    it is the [reminderTime] of a pending job of the table, and no
    pending job is earlier. *)
Theorem getStatus_counts_and_next (r : Runner.t) :
  let st := Runner.getStatus r in
  let table := Scheduler.jobs (Runner.service r) in
  Runner.totalJobs st = size table
  /\ Runner.totalJobs st
     = (Runner.pendingJobs st + Runner.sentJobs st + Runner.failedJobs st)%nat
  /\ (Runner.nextReminder st = None <-> Runner.pendingJobs st = 0%nat)
  /\ (Runner.nextReminder st = None
      <-> forall key job, table !! key = Some job ->
                          Scheduler.status job <> Scheduler.pending)
  /\ forall t,
       Runner.nextReminder st = Some t ->
       (exists key job,
           table !! key = Some job
           /\ Scheduler.status job = Scheduler.pending
           /\ Scheduler.reminderTime job = t)
       /\ forall key job,
            table !! key = Some job ->
            Scheduler.status job = Scheduler.pending ->
            t <= Scheduler.reminderTime job.
Proof.
  cbv zeta. unfold Runner.getStatus.
  cbn [Runner.totalJobs Runner.pendingJobs Runner.sentJobs Runner.failedJobs
       Runner.nextReminder].
  set (js := map snd (map_to_list (Scheduler.jobs (Runner.service r)))).
  pose proof (head_sortByTime (Runner.withStatus Scheduler.pending js)) as Hh.
  split; [unfold js; by rewrite length_map, length_map_to_list|].
  split; [apply withStatus_split|].
  destruct (head (Runner.sortByTime (Runner.withStatus Scheduler.pending js)))
    as [x|] eqn:Hx; simpl.
  - destruct Hh as [Hin Hmin]. split; [|split].
    + split; [done|]. intros Hlen. apply nil_length_inv in Hlen.
      rewrite Hlen in Hin. by apply elem_of_nil in Hin.
    + split; [done|]. intros Hno.
      apply elem_of_withStatus in Hin as [Hin Hst].
      apply elem_of_values in Hin as [key Hkey]. by destruct (Hno key x Hkey).
    + intros t [= <-]. split.
      * apply elem_of_withStatus in Hin as [Hin Hst].
        apply elem_of_values in Hin as [key Hkey]. by exists key, x.
      * intros key job Hkey Hst. apply Hmin. apply elem_of_withStatus.
        split; [|done]. apply elem_of_values. by exists key.
  - rewrite Hh. split; [done|]. split; [|done]. split; [|done].
    intros _ key job Hkey Hst.
    assert (Hin : job ∈ Runner.withStatus Scheduler.pending js).
    { apply elem_of_withStatus. split; [|done]. apply elem_of_values.
      by exists key. }
    rewrite Hh in Hin. by apply elem_of_nil in Hin.
Qed.

(** X2.  [start] is idempotent: a second call while running sets no second
    interval and runs no second scan.  [stop] is idempotent, clears the
    interval, so that its callback scans no more, and touches neither
    the jobs nor the timeouts that are waiting.  After [stop], [start]
    runs again, with an immediate scan. *)
Theorem start_stop_lifecycle (r : Runner.t) (now now' : Z)
    (sendReminder sendReminder' : Scheduler.ReminderJob -> Scheduler.SendOutcome) :
  Runner.start now' sendReminder' (Runner.start now sendReminder r)
  = Runner.start now sendReminder r
  /\ Runner.isRunning (Runner.start now sendReminder r) = true
  /\ Runner.stop (Runner.stop r) = Runner.stop r
  /\ Runner.service (Runner.stop r) = Runner.service r
  /\ Runner.tick now sendReminder (Runner.stop r) = ([], Runner.stop r)
  /\ Runner.start now sendReminder (Runner.stop r)
     = Runner.mk
         (Scheduler.processReminders now sendReminder (Runner.service r)).2
         (Some now) true
  /\ (Runner.tick now' sendReminder'
        (Runner.start now sendReminder (Runner.stop r))).1
     = (Scheduler.processReminders now' sendReminder'
          (Scheduler.processReminders now sendReminder (Runner.service r)).2).1.
Proof.
  repeat split.
  - unfold Runner.start. destruct (Runner.isRunning r) eqn:Hrun.
    + by rewrite Hrun.
    + done.
  - unfold Runner.start. by destruct (Runner.isRunning r) eqn:Hrun.
  - unfold Runner.stop. simpl. by destruct (Runner.intervalId r).
  - unfold Runner.tick, Runner.stop. simpl. by destruct (Runner.intervalId r).
Qed.

(** ** What changes the job table *)

Section Table.
Import Scheduler Timeline.

(** The entry a scan leaves under a key. *)
Lemma processReminders_lookup now sendReminder s key :
  jobs (processReminders now sendReminder s).2 !! key
  = (fun job => if isDue now job
                then set_status (verdict sendReminder job) job
                else job) <$> jobs s !! key.
Proof.
  destruct (jobs s !! key) as [job|] eqn:Hl; simpl.
  - destruct (isDue now job) eqn:Hdue.
    + apply andb_true_iff in Hdue as [Hst Ht].
      apply bool_decide_eq_true in Hst. apply Z.leb_le in Ht.
      by apply processReminders_due.
    + rewrite processReminders_not_due; [done|].
      intros j Hj [Hst Ht]. rewrite Hl in Hj. injection Hj as <-.
      unfold isDue in Hdue. rewrite bool_decide_eq_true_2 in Hdue by done.
      apply Z.leb_le in Ht. by rewrite Ht in Hdue.
  - rewrite processReminders_not_due; [done|].
    intros j Hj. by rewrite Hl in Hj.
Qed.

(** An entry survives a batch of callbacks unless one of them is its
    removal. *)
Lemma keyEffect_is_Some now key tms : forall o,
  is_Some (foldl (keyEffect now key) o tms)
  <-> is_Some o
      /\ ~ exists tm, tm ∈ tms /\ callback tm = RemoveCompleted key.
Proof.
  induction tms as [|tm tms IH]; intros o; simpl.
  - split; [|tauto]. intros Ho. split; [done|].
    intros (tm & Hin & _). by apply elem_of_nil in Hin.
  - rewrite IH. unfold keyEffect at 1. case_decide as Ht.
    + destruct (callback tm) as [j|j] eqn:Hcb; simpl in Ht; subst j.
      * split; [by intros [[? ?] _]|].
        intros [_ Hno]. destruct Hno. exists tm. split; [by left|done].
      * rewrite fmap_is_Some. split; intros [Ho Hno]; (split; [done|]).
        -- intros (tm' & Hin & Hrm). apply elem_of_cons in Hin as [->|Hin].
           ++ congruence.
           ++ apply Hno. by exists tm'.
        -- intros (tm' & Hin & Hrm). apply Hno. exists tm'.
           split; [by right|done].
    + split; intros [Ho Hno]; (split; [done|]).
      * intros (tm' & Hin & Hrm). apply elem_of_cons in Hin as [->|Hin].
        -- rewrite Hrm in Ht. by simpl in Ht.
        -- apply Hno. by exists tm'.
      * intros (tm' & Hin & Hrm). apply Hno. exists tm'.
        split; [by right|done].
Qed.

End Table.

(** X3.  The ids of the job table change in three ways only:
    [scheduleReminder] adds its id, [cancelReminder] takes its id out, and
    an expired removal timeout takes out the id of its job.  A scan, a
    retry callback and [updateReminder] neither add nor drop a job;
    [updateReminder] and [cancelReminder] of an id that is not in the
    table do nothing. *)
Theorem job_ids_change_only_by_schedule_cancel_removal
    (e : Timeline.Step) (s : Scheduler.MockReminderService) (key : string) :
  let before := is_Some (Scheduler.jobs s !! key) in
  let after := is_Some (Scheduler.jobs (Timeline.step e s) !! key) in
  match e with
  | Timeline.Scan _ _ => after <-> before
  | Timeline.Update reminderId _ =>
      (after <-> before)
      /\ (Scheduler.jobs s !! reminderId = None -> Timeline.step e s = s)
  | Timeline.Cancel reminderId =>
      (after <-> before /\ key <> reminderId)
      /\ (Scheduler.jobs s !! reminderId = None -> Timeline.step e s = s)
  | Timeline.Schedule reminderId _ _ _ _ _ =>
      after <-> before \/ key = reminderId
  | Timeline.Timers now =>
      after
      <-> before
          /\ ~ exists tm,
                 tm ∈ Scheduler.timeouts s
                 /\ Scheduler.fireAt tm <= now
                 /\ Scheduler.callback tm = Scheduler.RemoveCompleted key
  end.
Proof.
  cbv zeta. destruct e; simpl.
  - rewrite processReminders_lookup. apply fmap_is_Some.
  - rewrite fireTimers_lookup, keyEffect_is_Some.
    split; intros [Hb Hno]; (split; [done|]).
    + intros (tm & Hin & Hexp & Hcb). apply Hno. exists tm.
      split; [|done]. by apply elem_of_expired.
    + intros (tm & Hin & Hcb). apply elem_of_expired in Hin as [Hin Hexp].
      apply Hno. by exists tm.
  - unfold Scheduler.cancelReminder. split.
    + destruct (Scheduler.jobs s !! reminderId) eqn:Hl; simpl.
      * destruct (decide (key = reminderId)) as [->|Hne].
        -- rewrite lookup_delete_eq. split; [by intros [? ?]|tauto].
        -- rewrite lookup_delete_ne by done. tauto.
      * split; [|tauto]. intros Hk. split; [done|].
        intros ->. rewrite Hl in Hk. by destruct Hk.
    + by intros ->.
  - unfold Scheduler.updateReminder. split.
    + destruct (Scheduler.jobs s !! reminderId) eqn:Hl; simpl; [|done].
      destruct (decide (key = reminderId)) as [->|Hne].
      * rewrite lookup_insert_eq, Hl. split; by eexists.
      * by rewrite lookup_insert_ne.
    + by intros ->.
  - unfold Scheduler.scheduleReminder. simpl.
    destruct (decide (key = reminderId)) as [->|Hne].
    + rewrite lookup_insert_eq. split; [by right|by eexists].
    + rewrite lookup_insert_ne by done. split; [by left|].
      by intros [?|?].
Qed.

(** X4.  Scanning alone never delivers a job twice.  The jobs a second
    scan hands to [sendReminder] are exactly the jobs that were pending
    and not yet due at the first scan and have become due since; none of
    the jobs the first scan attempted is among them, whatever the outcome
    of their delivery was. *)
Theorem second_scan_attempts_only_newly_due_jobs (now now' : Z)
    (sendReminder sendReminder' : Scheduler.ReminderJob -> Scheduler.SendOutcome)
    (s : Scheduler.MockReminderService) (job : Scheduler.ReminderJob) :
  let first := Scheduler.processReminders now sendReminder s in
  let second := Scheduler.processReminders now' sendReminder' first.2 in
  job ∈ second.1
  <-> exists key,
        Scheduler.jobs s !! key = Some job
        /\ Scheduler.status job = Scheduler.pending
        /\ now < Scheduler.reminderTime job <= now'.
Proof.
  cbv zeta. rewrite processReminders_log, list_elem_of_fmap. split.
  - intros [[key j] [-> Hin]]. simpl.
    apply pendingJobs_spec in Hin as (Hl & Hst & Ht).
    rewrite processReminders_lookup in Hl.
    destruct (Scheduler.jobs s !! key) as [job0|] eqn:Hl0; [|done].
    simpl in Hl. injection Hl as Hl.
    destruct (Scheduler.isDue now job0) eqn:Hdue.
    + subst j. simpl in Hst. unfold Scheduler.verdict in Hst.
      by destruct (Scheduler.resolved (sendReminder job0)).
    + subst j. exists key. split; [done|]. split; [done|]. split; [|done].
      unfold Scheduler.isDue in Hdue.
      rewrite bool_decide_eq_true_2 in Hdue by done.
      by apply Z.leb_gt in Hdue.
  - intros (key & Hl & Hst & Hlo & Hhi). exists (key, job). split; [done|].
    apply pendingJobs_spec. split; [|done].
    rewrite processReminders_lookup, Hl. simpl.
    unfold Scheduler.isDue.
    by replace (Scheduler.reminderTime job <=? now) with false
      by (symmetry; by apply Z.leb_gt); rewrite andb_false_r.
Qed.

(** ** The timeouts a scan sets *)

Section Once.
Import Scheduler Timeline.

Lemma filter_permutation {A} (p : A -> bool) (l l' : list A) :
  l ≡ₚ l' -> List.filter p l ≡ₚ List.filter p l'.
Proof.
  induction 1 as [|x l l' _ IH|x y l|l1 l2 l3 _ IH1 _ IH2];
    cbn [List.filter].
  - done.
  - destruct (p x); [by constructor|done].
  - destruct (p x), (p y); try done. constructor.
  - by etrans.
Qed.

Lemma Forall2_map_same {A B C} (R : B -> C -> Prop) (f : A -> B)
    (g : A -> C) (l : list A) :
  (forall x, x ∈ l -> R (f x) (g x)) -> Forall2 R (map f l) (map g l).
Proof.
  induction l as [|a l IH]; intros H; cbn [map]; constructor.
  - apply H. by left.
  - apply IH. intros x Hx. apply H. by right.
Qed.

End Once.

(** X5.  A scan sets one timeout for each job it attempts, and no other.
    After [processReminders] the timeouts are those that were set
    before, followed, in the order of the attempts, by one timeout per
    attempted job: the removal of the job one hour after its delivery
    settled when it resolved, the retry five minutes after it settled
    when it was rejected.  A scan that finds no job due returns at once
    and leaves the jobs and the timeouts as they are. *)
Theorem scan_sets_one_timeout_per_attempt (now : Z)
    (sendReminder : Scheduler.ReminderJob -> Scheduler.SendOutcome)
    (s : Scheduler.MockReminderService) :
  let scan := Scheduler.processReminders now sendReminder s in
  (exists set,
      Scheduler.timeouts scan.2 = Scheduler.timeouts s ++ set
      /\ Forall2
           (fun tm job =>
              let out := sendReminder job in
              tm = if Scheduler.resolved out
                   then Scheduler.mkTimer
                          (Scheduler.settledAt out + 60 * 60 * 1000)
                          (Scheduler.RemoveCompleted (Scheduler.id job))
                   else Scheduler.mkTimer
                          (Scheduler.settledAt out + 5 * 60 * 1000)
                          (Scheduler.RetryFailed (Scheduler.id job)))
           set scan.1)
  /\ (scan.1 = [] -> scan.2 = s).
Proof.
  cbv zeta. split.
  - exists (map (fun kj => Scheduler.timerFor sendReminder kj.2)
                (Scheduler.pendingJobs now s)).
    split; [apply processReminders_timeouts|].
    rewrite processReminders_log. apply Forall2_map_same.
    by intros [key job] _.
  - rewrite processReminders_log. intros Hnone.
    apply fmap_nil_inv in Hnone. unfold Scheduler.processReminders.
    by rewrite Hnone.
Qed.

(** X6.  The callbacks of the timeouts commute.  Two states with the same
    jobs whose waiting timeouts are the same up to their order end with
    the same job table when the runtime runs the expired ones: the order
    in which timeouts that expire together run does not matter. *)
Theorem expired_timeouts_commute (now : Z)
    (s s' : Scheduler.MockReminderService) :
  Scheduler.jobs s = Scheduler.jobs s' ->
  Scheduler.timeouts s ≡ₚ Scheduler.timeouts s' ->
  Scheduler.jobs (Scheduler.fireTimers now s)
  = Scheduler.jobs (Scheduler.fireTimers now s').
Proof.
  intros Hjobs Hperm. apply map_eq. intros key.
  rewrite !fireTimers_lookup, Hjobs.
  apply keyEffect_any_order. by apply filter_permutation.
Qed.

Lemma expired_timeouts_commute_witness :
  Scheduler.jobs (Scheduler.fireTimers 10
     (Scheduler.mkService {[ "reminder-123" := Scenario.job ]}
        [Scheduler.mkTimer 7 (Scheduler.RetryFailed "reminder-123");
         Scheduler.mkTimer 9 (Scheduler.RemoveCompleted "reminder-123")]))
  = Scheduler.jobs (Scheduler.fireTimers 10
     (Scheduler.mkService {[ "reminder-123" := Scenario.job ]}
        [Scheduler.mkTimer 9 (Scheduler.RemoveCompleted "reminder-123");
         Scheduler.mkTimer 7 (Scheduler.RetryFailed "reminder-123")])).
Proof.
  apply expired_timeouts_commute; [reflexivity|]. simpl. apply perm_swap.
Defined.

(** X7.  Whatever sequence of scans, timeouts and calls of
    [scheduleReminder], [updateReminder] and [cancelReminder] the job
    processor has gone through since it was created, every job of its
    table sits under the key that is its own [id]. *)
Theorem reachable_jobs_sit_under_their_id (es : list Timeline.Step)
    (key : string) (job : Scheduler.ReminderJob) :
  Scheduler.jobs (Timeline.run es Scheduler.empty) !! key = Some job ->
  Scheduler.id job = key.
Proof. apply keyed_run, keyed_empty. Qed.

Lemma reachable_jobs_sit_under_their_id_witness :
  Scheduler.id Scenario.job = "reminder-123".
Proof.
  apply (reachable_jobs_sit_under_their_id
           [Timeline.Schedule "reminder-123" "event-123" "user-123"
              "Test Event" Scenario.T (Scenario.T - 2 * Scenario.hour)]).
  vm_compute. reflexivity.
Defined.

(** X8.  The callback of a retry does not look at the status of the job.
    Whatever the job under its id is by then, delivered ones included, it
    is set to [pending] with [reminderTime = now + 5 min], and the next
    scan at or after that instant hands it to [sendReminder]: a job that
    was delivered while a retry of an earlier attempt was waiting is
    delivered again. *)
Theorem retry_callback_requeues_any_job (key : string)
    (job : Scheduler.ReminderJob) (now now' : Z)
    (sendReminder : Scheduler.ReminderJob -> Scheduler.SendOutcome)
    (s : Scheduler.MockReminderService) :
  Scheduler.jobs s !! key = Some job ->
  now + 300000 <= now' ->
  let s1 := Scheduler.runCallback now (Scheduler.RetryFailed key) s in
  let requeued := Scheduler.set_reminderTime (now + 300000)
                    (Scheduler.set_status Scheduler.pending job) in
  Scheduler.jobs s1 !! key = Some requeued
  /\ requeued ∈ (Scheduler.processReminders now' sendReminder s1).1.
Proof.
  intros Hl Hlate. cbv zeta.
  assert (H1 : Scheduler.jobs
                 (Scheduler.runCallback now (Scheduler.RetryFailed key) s)
                 !! key
               = Some (Scheduler.set_reminderTime (now + 300000)
                         (Scheduler.set_status Scheduler.pending job))).
  { simpl. rewrite Hl. simpl. rewrite lookup_insert_eq.
    unfold Scheduler.addMinutes. do 2 f_equal. }
  split; [done|].
  rewrite processReminders_log. apply list_elem_of_fmap.
  eexists (key, _). split; [done|]. apply pendingJobs_spec.
  split; [exact H1|]. split; [done|]. simpl. lia.
Qed.

Lemma retry_callback_requeues_any_job_witness :
  let delivered := Scheduler.set_status Scheduler.sent Scenario.job in
  let s := Scheduler.mkService {[ "reminder-123" := delivered ]} [] in
  Scheduler.set_reminderTime (1000 + 300000)
    (Scheduler.set_status Scheduler.pending delivered)
  ∈ (Scheduler.processReminders 400000 (Scenario.resolveAt 400000)
       (Scheduler.runCallback 1000 (Scheduler.RetryFailed "reminder-123") s)).1.
Proof.
  cbv zeta.
  apply (retry_callback_requeues_any_job "reminder-123"
           (Scheduler.set_status Scheduler.sent Scenario.job) 1000 400000
           (Scenario.resolveAt 400000)
           (Scheduler.mkService
              {[ "reminder-123"
                 := Scheduler.set_status Scheduler.sent Scenario.job ]} [])).
  - reflexivity.
  - lia.
Defined.

(** ** The reminder actions as a whole *)

Section Whole.
Import Validations ReminderActions.

Lemma NoDup_ids_inj rows r r' :
  NoDup (map Reminder.id rows) -> r ∈ rows -> r' ∈ rows ->
  Reminder.id r = Reminder.id r' -> r = r'.
Proof.
  intros Hnd Hr Hr' Hid.
  pose proof (byId_elem_of _ _ Hnd Hr) as H1.
  pose proof (byId_elem_of _ _ Hnd Hr') as H2.
  rewrite Hid in H1. congruence.
Qed.

(** Rows of other owners pass through an update of the row of [rid]
    untouched, when that row belongs to [uid]. *)
Lemma update_rows_others rid time rows owned uid r :
  NoDup (map Reminder.id rows) ->
  owned ∈ rows -> Reminder.id owned = rid -> Reminder.userId owned = uid ->
  Reminder.userId r <> uid ->
  r ∈ List.map (fun r0 => if bool_decide (Reminder.id r0 = rid)
                          then Reminder.set_reminderTime time r0 else r0) rows
  <-> r ∈ rows.
Proof.
  intros Hnd Hin Hid Huid Hr. rewrite list_elem_of_fmap. split.
  - intros [r0 [-> Hr0]]. case_bool_decide as Hid0; [|done].
    rewrite (NoDup_ids_inj rows r0 owned) in Hr by (done || congruence).
    by simpl in Hr.
  - intros Hrin. exists r. split; [|done].
    rewrite bool_decide_eq_false_2; [done|]. intros Hrid.
    rewrite (NoDup_ids_inj rows r owned) in Hr by (done || congruence).
    done.
Qed.

Lemma delete_rows_others rid rows owned uid r :
  NoDup (map Reminder.id rows) ->
  owned ∈ rows -> Reminder.id owned = rid -> Reminder.userId owned = uid ->
  Reminder.userId r <> uid ->
  r ∈ List.filter (fun r0 => negb (bool_decide (Reminder.id r0 = rid))) rows
  <-> r ∈ rows.
Proof.
  intros Hnd Hin Hid Huid Hr. rewrite !list_elem_of_In, filter_In.
  rewrite <- !list_elem_of_In. split; [tauto|]. intros Hrin.
  split; [done|]. apply negb_true_iff, bool_decide_eq_false. intros Hrid.
  rewrite (NoDup_ids_inj rows r owned) in Hr by (done || congruence).
  done.
Qed.

End Whole.

(** X9.  A reminder action that returns an error has changed nothing:
    after a failure of [createReminder], [updateReminder],
    [deleteReminder] or [createOrUpdateReminder] the tables and the job
    processor are what they were before the call. *)
Theorem reminder_actions_fail_without_effect
    (session : option Auth.Session) (newId reminderId : string)
    (data : ReminderActions.ReminderFormInput)
    (rawData : Validations.RawReminder) (w : World) :
  (forall error,
      (ReminderActions.createReminder session newId data w).1 = Failure error ->
      (ReminderActions.createReminder session newId data w).2 = w)
  /\ (forall error,
        (ReminderActions.updateReminder session reminderId data w).1
        = Failure error ->
        (ReminderActions.updateReminder session reminderId data w).2 = w)
  /\ (forall error,
        (ReminderActions.deleteReminder session reminderId w).1
        = Failure error ->
        (ReminderActions.deleteReminder session reminderId w).2 = w)
  /\ (forall error,
        (ReminderActions.createOrUpdateReminder session newId rawData w).1
        = Failure error ->
        (ReminderActions.createOrUpdateReminder session newId rawData w).2 = w).
Proof.
  repeat split; intros error.
  - unfold ReminderActions.createReminder.
    destruct (Auth.sessionUser session); [|done].
    destruct (Validations.reminderSchema_safeParse _); [|done].
    destruct (ReminderActions.findEvent _ _ _); [|done].
    destruct (ReminderActions.createReminder_outsideWindow _ _); [done|].
    destruct (ReminderActions.findReminderForEvent _ _ _); [done|].
    by destruct (Prisma.reminder_create _ _ _ _ _) as [[row rows]|].
  - unfold ReminderActions.updateReminder.
    destruct (Auth.sessionUser session); [|done].
    destruct (Validations.reminderSchema_safeParse _); [|done].
    destruct (ReminderActions.findEvent _ _ _); [|done].
    destruct (ReminderActions.updateReminder_outsideWindow _ _); [done|].
    destruct (ReminderActions.findReminderById _ _ _); [|done].
    by destruct (Prisma.reminder_update _ _ _) as [[row rows]|].
  - unfold ReminderActions.deleteReminder.
    destruct (Auth.sessionUser session); [|done].
    destruct (ReminderActions.findReminderById _ _ _); [|done].
    by destruct (Prisma.reminder_delete _ _).
  - unfold ReminderActions.createOrUpdateReminder.
    destruct (Auth.sessionUser session); [|done].
    destruct (Validations.reminderSchema_safeParse _); [|done].
    destruct (ReminderActions.findEvent _ _ _); [|done].
    destruct (ReminderActions.createOrUpdateReminder_outsideWindow _ _);
      [done|].
    by destruct (match ReminderActions.findReminderForEvent _ _ _ with
                 | Some _ => _ | None => _ end) as [[row rows]|].
Qed.

(** X10.  A reminder action touches the reminders of its caller only.
    With ids that are unique in the table, the rows that belong to other
    users are the same after [createReminder], [updateReminder],
    [deleteReminder] and [createOrUpdateReminder] as before: none is
    changed, removed or added, whatever ids the caller passes. *)
Theorem reminder_actions_leave_other_owners_rows
    (session : option Auth.Session) (user : Auth.User)
    (newId reminderId : string) (data : ReminderActions.ReminderFormInput)
    (rawData : Validations.RawReminder) (w : World) (r : Reminder.t) :
  NoDup (map Reminder.id (reminders w)) ->
  Auth.sessionUser session = Some user ->
  Reminder.userId r <> Auth.id user ->
  (r ∈ reminders (ReminderActions.createReminder session newId data w).2
   <-> r ∈ reminders w)
  /\ (r ∈ reminders (ReminderActions.updateReminder session reminderId
                       data w).2
      <-> r ∈ reminders w)
  /\ (r ∈ reminders (ReminderActions.deleteReminder session reminderId w).2
      <-> r ∈ reminders w)
  /\ (r ∈ reminders (ReminderActions.createOrUpdateReminder session newId
                       rawData w).2
      <-> r ∈ reminders w).
Proof.
  intros Hnd Huser Hr. repeat split.
  - unfold ReminderActions.createReminder. rewrite Huser.
    destruct (Validations.reminderSchema_safeParse _); [|done].
    destruct (ReminderActions.findEvent _ _ _); [|done].
    destruct (ReminderActions.createReminder_outsideWindow _ _); [done|].
    destruct (ReminderActions.findReminderForEvent _ _ _); [done|].
    unfold Prisma.reminder_create.
    destruct (Prisma.reminder_byId newId (reminders w)); [done|].
    cbn [snd reminders]. rewrite elem_of_app, list_elem_of_singleton.
    intros [? | ->]; [done|]. by simpl in Hr.
  - unfold ReminderActions.createReminder. rewrite Huser.
    destruct (Validations.reminderSchema_safeParse _); [|done].
    destruct (ReminderActions.findEvent _ _ _); [|done].
    destruct (ReminderActions.createReminder_outsideWindow _ _); [done|].
    destruct (ReminderActions.findReminderForEvent _ _ _); [done|].
    unfold Prisma.reminder_create.
    destruct (Prisma.reminder_byId newId (reminders w)); [done|].
    cbn [snd reminders]. rewrite elem_of_app. by left.
  - unfold ReminderActions.updateReminder. rewrite Huser.
    destruct (Validations.reminderSchema_safeParse _); [|done].
    destruct (ReminderActions.findEvent _ _ _); [|done].
    destruct (ReminderActions.updateReminder_outsideWindow _ _); [done|].
    destruct (ReminderActions.findReminderById _ _ _) as [owned|] eqn:Hown;
      [|done].
    apply findReminderById_Some in Hown as (Hin & Hid & Huid).
    unfold Prisma.reminder_update.
    destruct (Prisma.reminder_byId reminderId (reminders w)); [|done].
    cbn [snd reminders].
    by apply (update_rows_others _ _ _ owned (Auth.id user)).
  - unfold ReminderActions.updateReminder. rewrite Huser.
    destruct (Validations.reminderSchema_safeParse _); [|done].
    destruct (ReminderActions.findEvent _ _ _); [|done].
    destruct (ReminderActions.updateReminder_outsideWindow _ _); [done|].
    destruct (ReminderActions.findReminderById _ _ _) as [owned|] eqn:Hown;
      [|done].
    apply findReminderById_Some in Hown as (Hin & Hid & Huid).
    unfold Prisma.reminder_update.
    destruct (Prisma.reminder_byId reminderId (reminders w)); [|done].
    cbn [snd reminders].
    by apply (update_rows_others _ _ _ owned (Auth.id user)).
  - unfold ReminderActions.deleteReminder. rewrite Huser.
    destruct (ReminderActions.findReminderById _ _ _) as [owned|] eqn:Hown;
      [|done].
    apply findReminderById_Some in Hown as (Hin & Hid & Huid).
    unfold Prisma.reminder_delete.
    destruct (Prisma.reminder_byId reminderId (reminders w)); [|done].
    cbn [snd reminders].
    by apply (delete_rows_others _ _ owned (Auth.id user)).
  - unfold ReminderActions.deleteReminder. rewrite Huser.
    destruct (ReminderActions.findReminderById _ _ _) as [owned|] eqn:Hown;
      [|done].
    apply findReminderById_Some in Hown as (Hin & Hid & Huid).
    unfold Prisma.reminder_delete.
    destruct (Prisma.reminder_byId reminderId (reminders w)); [|done].
    cbn [snd reminders].
    by apply (delete_rows_others _ _ owned (Auth.id user)).
  - unfold ReminderActions.createOrUpdateReminder. rewrite Huser.
    destruct (Validations.reminderSchema_safeParse _); [|done].
    destruct (ReminderActions.findEvent _ _ _); [|done].
    destruct (ReminderActions.createOrUpdateReminder_outsideWindow _ _);
      [done|].
    destruct (ReminderActions.findReminderForEvent _ _ _) as [owned|] eqn:Hown.
    + apply findReminderForEvent_elem in Hown as (Hin & Heid & Huid).
      unfold Prisma.reminder_update.
      destruct (Prisma.reminder_byId _ (reminders w)); [|done].
      cbn [snd reminders].
      by apply (update_rows_others _ _ _ owned (Auth.id user)).
    + unfold Prisma.reminder_create.
      destruct (Prisma.reminder_byId newId (reminders w)); [done|].
      cbn [snd reminders]. rewrite elem_of_app, list_elem_of_singleton.
      intros [? | ->]; [done|]. by simpl in Hr.
  - unfold ReminderActions.createOrUpdateReminder. rewrite Huser.
    destruct (Validations.reminderSchema_safeParse _); [|done].
    destruct (ReminderActions.findEvent _ _ _); [|done].
    destruct (ReminderActions.createOrUpdateReminder_outsideWindow _ _);
      [done|].
    destruct (ReminderActions.findReminderForEvent _ _ _) as [owned|] eqn:Hown.
    + apply findReminderForEvent_elem in Hown as (Hin & Heid & Huid).
      unfold Prisma.reminder_update.
      destruct (Prisma.reminder_byId _ (reminders w)); [|done].
      cbn [snd reminders].
      by apply (update_rows_others _ _ _ owned (Auth.id user)).
    + unfold Prisma.reminder_create.
      destruct (Prisma.reminder_byId newId (reminders w)); [done|].
      cbn [snd reminders]. rewrite elem_of_app. by left.
Qed.

Lemma reminder_actions_leave_other_owners_rows_witness :
  Cases.otherReminder
  ∈ reminders (ReminderActions.deleteReminder Scenario.session "reminder-999"
                 Cases.shared).2
  <-> Cases.otherReminder ∈ reminders Cases.shared.
Proof.
  refine (proj1 (proj2 (proj2
            (reminder_actions_leave_other_owners_rows
               Scenario.session (Auth.mkUser "user-123" "test@example.com")
               "reminder-456" "reminder-999" Cases.twoHoursBefore
               (Validations.mkRawReminder None None) Cases.shared
               Cases.otherReminder _ _ _)))).
  - cbn. apply NoDup_cons. split; [|apply NoDup_singleton].
    intros Hin. apply list_elem_of_singleton in Hin. discriminate Hin.
  - reflexivity.
  - discriminate.
Defined.

(** ** Invariants of the tables *)

Section Invariants.
Import Validations ReminderActions.

Lemma pairs_update rid time (rows : list Reminder.t) :
  map pairOf (List.map (fun r => if bool_decide (Reminder.id r = rid)
                                 then Reminder.set_reminderTime time r
                                 else r) rows)
  = map pairOf rows.
Proof.
  induction rows as [|r rows IH]; [done|]. cbn [List.map map].
  rewrite IH. by case_bool_decide.
Qed.

Lemma pairs_filter (p : Reminder.t -> bool) (rows : list Reminder.t) :
  map pairOf (List.filter p rows) `sublist_of` map pairOf rows.
Proof.
  induction rows as [|r rows IH]; [done|]. cbn [List.filter map].
  destruct (p r); cbn [map]; by constructor.
Qed.

Lemma pairs_adjustReminder priorDate newDate reminder rows rows' :
  EventActions.adjustReminder priorDate newDate reminder rows = Some rows' ->
  map pairOf rows' `sublist_of` map pairOf rows.
Proof.
  unfold EventActions.adjustReminder.
  destruct (EventActions.updateEvent_insideWindow _ _).
  - destruct (Prisma.reminder_update _ _ _) as [[r' rows1]|] eqn:Hupd; [|done].
    intros [= <-]. apply update_rows in Hupd as [-> _].
    by rewrite pairs_update.
  - unfold Prisma.reminder_delete.
    destruct (Prisma.reminder_byId _ _); [|done].
    intros [= <-]. apply pairs_filter.
Qed.

Lemma pairs_adjustReminders priorDate newDate existing : forall rows,
  map pairOf (EventActions.adjustReminders priorDate newDate existing rows).1
  `sublist_of` map pairOf rows.
Proof.
  induction existing as [|r existing IH]; intros rows; [done|].
  cbn [EventActions.adjustReminders].
  destruct (EventActions.adjustReminder priorDate newDate r rows)
    as [rows1|] eqn:Hstep; [|done].
  etrans; [apply IH|]. by eapply pairs_adjustReminder.
Qed.

End Invariants.

(** X11.  At most one reminder per event and owner: when no two rows of
    the [Reminder] table share [eventId] and [userId], this is still so
    after [createReminder], [updateReminder], [deleteReminder],
    [createOrUpdateReminder] and [updateEvent], whatever they are called
    with and whatever they return. *)
Theorem one_reminder_per_event_and_owner_is_kept
    (session : option Auth.Session) (newId reminderId eventId : string)
    (data : ReminderActions.ReminderFormInput)
    (rawData : Validations.RawReminder) (now : Z)
    (rawEvent : EventActions.RawEvent) (w : World) :
  onePerEventAndOwner w ->
  onePerEventAndOwner (ReminderActions.createReminder session newId data w).2
  /\ onePerEventAndOwner
       (ReminderActions.updateReminder session reminderId data w).2
  /\ onePerEventAndOwner (ReminderActions.deleteReminder session reminderId w).2
  /\ onePerEventAndOwner
       (ReminderActions.createOrUpdateReminder session newId rawData w).2
  /\ onePerEventAndOwner
       (EventActions.updateEvent session now eventId rawEvent w).2.
Proof.
  unfold onePerEventAndOwner. intros Hone.
  assert (Hcreate : forall time eid uid,
    ReminderActions.findReminderForEvent eid uid w = None ->
    NoDup (map pairOf (reminders w ++ [Reminder.mk newId time eid uid]))).
  { intros time eid uid Hnone. rewrite map_app. cbn [map].
    apply NoDup_app. split; [done|]. split; [|apply NoDup_singleton].
    intros p Hp Hp'. apply list_elem_of_singleton in Hp' as ->.
    apply list_elem_of_fmap in Hp as [r [Hr Hin]]. injection Hr as He Hu.
    rewrite findReminderForEvent_None in Hnone. by apply (Hnone r Hin). }
  repeat split.
  - unfold ReminderActions.createReminder.
    destruct (Auth.sessionUser session); [|done].
    destruct (Validations.reminderSchema_safeParse _); [|done].
    destruct (ReminderActions.findEvent _ _ _); [|done].
    destruct (ReminderActions.createReminder_outsideWindow _ _); [done|].
    destruct (ReminderActions.findReminderForEvent _ _ _) eqn:Hnone; [done|].
    unfold Prisma.reminder_create.
    destruct (Prisma.reminder_byId newId (reminders w)); [done|].
    by apply Hcreate.
  - unfold ReminderActions.updateReminder.
    destruct (Auth.sessionUser session); [|done].
    destruct (Validations.reminderSchema_safeParse _); [|done].
    destruct (ReminderActions.findEvent _ _ _); [|done].
    destruct (ReminderActions.updateReminder_outsideWindow _ _); [done|].
    destruct (ReminderActions.findReminderById _ _ _); [|done].
    destruct (Prisma.reminder_update _ _ _) as [[row rows]|] eqn:Hupd; [|done].
    apply update_rows in Hupd as [-> _]. cbn [snd reminders].
    by rewrite pairs_update.
  - unfold ReminderActions.deleteReminder.
    destruct (Auth.sessionUser session); [|done].
    destruct (ReminderActions.findReminderById _ _ _); [|done].
    unfold Prisma.reminder_delete.
    destruct (Prisma.reminder_byId _ _); [|done].
    cbn [snd reminders]. eapply sublist_NoDup; [done|apply pairs_filter].
  - unfold ReminderActions.createOrUpdateReminder.
    destruct (Auth.sessionUser session); [|done].
    destruct (Validations.reminderSchema_safeParse _); [|done].
    destruct (ReminderActions.findEvent _ _ _); [|done].
    destruct (ReminderActions.createOrUpdateReminder_outsideWindow _ _);
      [done|].
    destruct (ReminderActions.findReminderForEvent _ _ _) eqn:Hnone.
    + destruct (Prisma.reminder_update _ _ _) as [[row rows]|] eqn:Hupd;
        [|done].
      apply update_rows in Hupd as [-> _]. cbn [snd reminders].
      by rewrite pairs_update.
    + unfold Prisma.reminder_create.
      destruct (Prisma.reminder_byId newId (reminders w)); [done|].
      by apply Hcreate.
  - unfold EventActions.updateEvent.
    destruct (Auth.sessionUser session); [|done].
    destruct (EventActions.eventSchema_safeParse now rawEvent); [|done].
    destruct (EventActions.findOwnedEvent _ _ _) as [existingEvent|]; [|done].
    destruct (EventActions.findDuplicateEvent _ _ _ _); [done|].
    destruct (Prisma.event_update _ _ _ _ _ _ _) as [[event rows]|]; [|done].
    destruct (EventActions.propagate _ _ _ _) as [rows' completed] eqn:Hprop.
    cbn [snd reminders].
    assert (Hsub : map pairOf rows' `sublist_of` map pairOf (reminders w)).
    { unfold EventActions.propagate in Hprop.
      destruct (_ && _) in Hprop.
      - pose proof (pairs_adjustReminders
                      (Event.date existingEvent) (EventActions.date e)
                      (EventActions.remindersOf existingEvent w)
                      (reminders w)) as Hs.
        by rewrite Hprop in Hs.
      - by injection Hprop as <- _. }
    eapply sublist_NoDup; [exact Hone|exact Hsub].
Qed.

Lemma one_reminder_per_event_and_owner_is_kept_witness :
  onePerEventAndOwner Cases.shared
  /\ onePerEventAndOwner
       (EventActions.updateEvent Scenario.session Scenario.clock "event-123"
          Scenario.movedForm Cases.shared).2.
Proof.
  assert (Hone : onePerEventAndOwner Cases.shared).
  { apply (bool_decide_unpack _). vm_compute. reflexivity. }
  split; [exact Hone|].
  exact (proj2 (proj2 (proj2 (proj2
           (one_reminder_per_event_and_owner_is_kept
              Scenario.session "reminder-456" "reminder-123" "event-123"
              Cases.twoHoursBefore (Validations.mkRawReminder None None)
              Scenario.clock Scenario.movedForm Cases.shared Hone))))).
Defined.

(** X12.  The three actions that talk to the job processor keep every
    job at the time of its reminder: when each job stored under the id of
    a row of the [Reminder] table holds the [reminderTime] of that row,
    this is still so after [createReminder], [updateReminder] and
    [deleteReminder], whatever they are called with and whatever they
    return. *)
Theorem reminder_actions_keep_jobs_in_sync
    (session : option Auth.Session) (newId reminderId : string)
    (data : ReminderActions.ReminderFormInput) (w : World) :
  inSync w ->
  inSync (ReminderActions.createReminder session newId data w).2
  /\ inSync (ReminderActions.updateReminder session reminderId data w).2
  /\ inSync (ReminderActions.deleteReminder session reminderId w).2.
Proof.
  intros Hsync. split; [|split].
  - by apply createReminder_inSync.
  - by apply updateReminder_inSync.
  - by apply deleteReminder_inSync.
Qed.

Lemma reminder_actions_keep_jobs_in_sync_witness :
  inSync Scenario.world
  /\ inSync (ReminderActions.updateReminder Scenario.session "reminder-123"
               (ReminderActions.mkInput
                  (Some (Scenario.T - 3 * Scenario.hour)) "event-123")
               Scenario.world).2.
Proof.
  assert (Hsync : inSync Scenario.world).
  { intros r job Hin Hjob.
    apply list_elem_of_singleton in Hin as ->.
    cbn [Scenario.world reminderService] in Hjob.
    unfold Scenario.service in Hjob. cbn [Scheduler.jobs] in Hjob.
    cbn [Scenario.reminder Reminder.id] in Hjob.
    rewrite lookup_singleton_eq in Hjob. injection Hjob as <-.
    reflexivity. }
  split; [exact Hsync|].
  exact (proj1 (proj2
           (reminder_actions_keep_jobs_in_sync Scenario.session
              "reminder-456" "reminder-123"
              (ReminderActions.mkInput
                 (Some (Scenario.T - 3 * Scenario.hour)) "event-123")
              Scenario.world Hsync))).
Defined.

(** X13.  [deleteReminder] succeeds exactly when the caller is signed in
    and owns a reminder with the given id.  It then removes the rows of
    that id and no other row, leaves the events alone, and takes the id
    out of the job table while every other job and every timeout stays as
    it was. *)
Theorem deleteReminder_removes_the_callers_reminder
    (session : option Auth.Session) (reminderId : string) (w : World) :
  let out := ReminderActions.deleteReminder session reminderId w in
  (out.1 = Success tt
   <-> exists user r,
         Auth.sessionUser session = Some user
         /\ r ∈ reminders w
         /\ Reminder.id r = reminderId
         /\ Reminder.userId r = Auth.id user)
  /\ (out.1 = Success tt ->
      (forall r, r ∈ reminders out.2
                 <-> r ∈ reminders w /\ Reminder.id r <> reminderId)
      /\ events out.2 = events w
      /\ (forall k, Scheduler.jobs (reminderService out.2) !! k
                    = if decide (k = reminderId) then None
                      else Scheduler.jobs (reminderService w) !! k)
      /\ Scheduler.timeouts (reminderService out.2)
         = Scheduler.timeouts (reminderService w)).
Proof.
  cbv zeta. unfold ReminderActions.deleteReminder.
  destruct (Auth.sessionUser session) as [user|] eqn:Huser.
  2:{ split; [|done]. split; [done|]. by intros (? & ? & ? & _). }
  destruct (ReminderActions.findReminderById _ _ _) as [existing|] eqn:Hfind.
  2:{ split; [|done]. split; [done|]. intros (u & r & [= <-] & Hin & Hid & Hu).
      unfold ReminderActions.findReminderById in Hfind.
      rewrite find_None_iff in Hfind. specialize (Hfind r Hin).
      by rewrite !bool_decide_eq_true_2 in Hfind. }
  apply findReminderById_Some in Hfind as (Hin & Hid & Hu).
  unfold Prisma.reminder_delete.
  destruct (Prisma.reminder_byId reminderId (reminders w)) eqn:Hby.
  2:{ rewrite byId_None in Hby. by destruct (Hby existing Hin). }
  cbn [fst snd reminders events reminderService]. split.
  { split; [|done]. intros _. by exists user, existing. }
  intros _. split; [|split; [done|split]].
  - intros r. rewrite list_elem_of_In, filter_In, <- list_elem_of_In.
    by rewrite negb_true_iff, bool_decide_eq_false.
  - intros k. unfold Scheduler.cancelReminder.
    destruct (Scheduler.jobs (reminderService w) !! reminderId) eqn:Hjob;
      cbn [Scheduler.jobs Scheduler.with_jobs]; case_decide as Hk; subst.
    + apply lookup_delete_eq.
    + by apply lookup_delete_ne.
    + done.
    + done.
  - unfold Scheduler.cancelReminder.
    by destruct (Scheduler.jobs (reminderService w) !! reminderId).
Qed.

(** [find] over a table with rows appended. *)
Lemma find_append {A} (p : A -> bool) (l1 l2 : list A) :
  List.find p (l1 ++ l2)
  = match List.find p l1 with
    | Some x => Some x
    | None => List.find p l2
    end.
Proof.
  induction l1 as [|a l1 IH]; [done|]. cbn [app List.find].
  by destruct (p a).
Qed.

(** X14.  Creating a reminder and deleting it again is a round trip.
    When the job table holds nothing under the id the store gives the new
    row, a successful [createReminder] followed by [deleteReminder] of the
    returned reminder succeeds and leaves the events, the reminders, the
    jobs and the timeouts exactly as they were before the two calls. *)
Theorem createReminder_then_deleteReminder_restores
    (session : option Auth.Session) (newId : string)
    (data : ReminderActions.ReminderFormInput) (w : World)
    (created : Reminder.t) :
  Scheduler.jobs (reminderService w) !! newId = None ->
  (ReminderActions.createReminder session newId data w).1 = Success created ->
  ReminderActions.deleteReminder session (Reminder.id created)
    (ReminderActions.createReminder session newId data w).2
  = (Success tt, w).
Proof.
  intros Hjob. unfold ReminderActions.createReminder.
  destruct (Auth.sessionUser session) as [user|] eqn:Huser; [|done].
  destruct (Validations.reminderSchema_safeParse _) as [vd|]; [|done].
  destruct (ReminderActions.findEvent _ _ _) as [event|]; [|done].
  destruct (ReminderActions.createReminder_outsideWindow _ _); [done|].
  destruct (ReminderActions.findReminderForEvent _ _ _); [done|].
  unfold Prisma.reminder_create.
  destruct (Prisma.reminder_byId newId (reminders w)) eqn:Hfresh; [done|].
  cbn [fst snd Reminder.id Reminder.reminderTime Reminder.eventId].
  intros [= <-]. cbn [Reminder.id].
  set (row := Reminder.mk newId _ _ _).
  assert (Hrows : List.filter
                    (fun r => negb (bool_decide (Reminder.id r = newId)))
                    (reminders w ++ [row]) = reminders w).
  { rewrite byId_None in Hfresh. rewrite List.filter_app. cbn [List.filter].
    rewrite bool_decide_eq_true_2 by done. cbn [negb]. rewrite app_nil_r.
    apply forallb_filter_id, forallb_forall. intros r Hr.
    apply negb_true_iff, bool_decide_eq_false, Hfresh.
    by apply list_elem_of_In. }
  unfold ReminderActions.deleteReminder. rewrite Huser.
  unfold ReminderActions.findReminderById. cbn [reminders].
  assert (Hfound : List.find
            (fun r => bool_decide (Reminder.id r = newId)
                      && bool_decide (Reminder.userId r = Auth.id user))
            (reminders w ++ [row]) = Some row).
  { rewrite find_append.
    destruct (List.find _ (reminders w)) as [r|] eqn:Hold.
    - apply find_some in Hold as [Hin Hp].
      apply andb_true_iff in Hp as [Hp _]. apply bool_decide_eq_true in Hp.
      rewrite byId_None in Hfresh. destruct (Hfresh r); [|done].
      by apply list_elem_of_In.
    - cbn [List.find]. by rewrite !bool_decide_eq_true_2. }
  rewrite Hfound. unfold Prisma.reminder_delete.
  assert (Hby : Prisma.reminder_byId newId (reminders w ++ [row]) = Some row).
  { unfold Prisma.reminder_byId in *. rewrite find_append, Hfresh.
    cbn [List.find]. by rewrite bool_decide_eq_true_2. }
  rewrite Hby, Hrows. cbn [events reminderService].
  unfold Scheduler.cancelReminder, Scheduler.scheduleReminder.
  cbn [Scheduler.jobs Scheduler.with_jobs Scheduler.timeouts].
  rewrite lookup_insert_eq. cbn [Scheduler.jobs Scheduler.with_jobs
                                 Scheduler.timeouts].
  rewrite delete_insert_id by done.
  by destruct w as [es rs [js ts]].
Qed.

Lemma createReminder_then_deleteReminder_restores_witness :
  ReminderActions.deleteReminder Scenario.session "reminder-123"
    (ReminderActions.createReminder Scenario.session "reminder-123"
       Cases.twoHoursBefore Scenario.fresh).2
  = (Success tt, Scenario.fresh).
Proof.
  apply (createReminder_then_deleteReminder_restores Scenario.session
           "reminder-123" Cases.twoHoursBefore Scenario.fresh
           (Reminder.mk "reminder-123" (Scenario.T - 2 * Scenario.hour)
                        "event-123" "user-123")).
  - reflexivity.
  - vm_compute. reflexivity.
Defined.

(** ** The window as an invariant of the tables *)

Section Window.

Lemma NoDup_key_inj {A B} (f : A -> B) (l : list A) x y :
  NoDup (map f l) -> x ∈ l -> y ∈ l -> f x = f y -> x = y.
Proof.
  induction l as [|a l IH]; intros Hnd Hx Hy Hf.
  - by apply elem_of_nil in Hx.
  - cbn [map] in Hnd. apply NoDup_cons in Hnd as [Hfresh Hnd].
    apply elem_of_cons in Hx as [->|Hx]; apply elem_of_cons in Hy as [->|Hy].
    + done.
    + destruct Hfresh. rewrite Hf. apply list_elem_of_fmap. by exists y.
    + destruct Hfresh. rewrite <- Hf. apply list_elem_of_fmap. by exists x.
    + by apply IH.
Qed.

Lemma ids_update rid time (rows : list Reminder.t) :
  map Reminder.id (List.map (fun r => if bool_decide (Reminder.id r = rid)
                                      then Reminder.set_reminderTime time r
                                      else r) rows)
  = map Reminder.id rows.
Proof.
  rewrite map_map. apply map_ext. intros r. by case_bool_decide.
Qed.

Lemma ids_filter (p : Reminder.t -> bool) (rows : list Reminder.t) :
  map Reminder.id (List.filter p rows) `sublist_of` map Reminder.id rows.
Proof.
  induction rows as [|r rows IH]; [done|]. cbn [List.filter map].
  destruct (p r); cbn [map]; by constructor.
Qed.

Lemma ids_adjustReminder priorDate newDate reminder rows rows' :
  EventActions.adjustReminder priorDate newDate reminder rows = Some rows' ->
  map Reminder.id rows' `sublist_of` map Reminder.id rows.
Proof.
  unfold EventActions.adjustReminder.
  destruct (EventActions.updateEvent_insideWindow _ _).
  - destruct (Prisma.reminder_update _ _ _) as [[r' rows1]|] eqn:Hupd; [|done].
    intros [= <-]. apply update_rows in Hupd as [-> _].
    by rewrite ids_update.
  - unfold Prisma.reminder_delete.
    destruct (Prisma.reminder_byId _ _); [|done].
    intros [= <-]. apply ids_filter.
Qed.

Lemma ids_adjustReminders priorDate newDate existing : forall rows,
  map Reminder.id
      (EventActions.adjustReminders priorDate newDate existing rows).1
  `sublist_of` map Reminder.id rows.
Proof.
  induction existing as [|r existing IH]; intros rows; [done|].
  cbn [EventActions.adjustReminders].
  destruct (EventActions.adjustReminder priorDate newDate r rows)
    as [rows1|] eqn:Hstep; [|done].
  etrans; [apply IH|]. by eapply ids_adjustReminder.
Qed.

Lemma findEvent_Some eid uid w event :
  ReminderActions.findEvent eid uid w = Some event ->
  event ∈ events w /\ Event.id event = eid /\ Event.userId event = uid.
Proof.
  intros H. apply find_some in H as [Hin Hp].
  apply andb_true_iff in Hp as [H1 H2].
  apply bool_decide_eq_true in H1, H2. by rewrite list_elem_of_In.
Qed.

Lemma safeParse_eventId data vd :
  Validations.reminderSchema_safeParse (ReminderActions.toRaw data) = inl vd ->
  Validations.eventId vd = ReminderActions.in_eventId data.
Proof.
  unfold Validations.reminderSchema_safeParse, ReminderActions.toRaw.
  cbn [Validations.raw_eventId Validations.raw_reminderTime
       Validations.eventId_ok].
  destruct (1 <=? String.length (ReminderActions.in_eventId data))%nat;
    [|done].
  destruct (ReminderActions.in_reminderTime data); [|done].
  by intros [= <-].
Qed.

(** The rows of the table after the row of [rid], a reminder of event
    [eid], was given a time inside the window of that event. *)
Lemma withinWindow_update w event existing time :
  NoDup (map Event.id (events w)) ->
  NoDup (map Reminder.id (reminders w)) ->
  withinWindow w ->
  event ∈ events w ->
  existing ∈ reminders w ->
  Reminder.eventId existing = Event.id event ->
  15 * 60 * 1000 <= Event.date event - time <= 7 * 24 * 60 * 60 * 1000 ->
  forall svc,
    withinWindow
      (mkWorld (events w)
         (List.map (fun r => if bool_decide
                                  (Reminder.id r = Reminder.id existing)
                             then Reminder.set_reminderTime time r else r)
                   (reminders w))
         svc).
Proof.
  intros Hev Hnd Hwin Hevent Hexisting Hof Htime svc r e.
  cbn [reminders events]. intros Hr He Hid.
  apply list_elem_of_fmap in Hr as [r0 [-> Hr0]].
  case_bool_decide as Hrid.
  - assert (r0 = existing) as -> by by apply (NoDup_key_inj Reminder.id
                                               (reminders w)).
    cbn [Reminder.set_reminderTime Reminder.eventId Reminder.reminderTime]
      in *.
    assert (e = event) as ->; [|done].
    apply (NoDup_key_inj Event.id (events w)); [done..|congruence].
  - by apply Hwin.
Qed.

(** The rows of the table after a row inside the window of its event was
    added. *)
Lemma withinWindow_create w event newId time uid :
  NoDup (map Event.id (events w)) ->
  withinWindow w ->
  event ∈ events w ->
  15 * 60 * 1000 <= Event.date event - time <= 7 * 24 * 60 * 60 * 1000 ->
  forall svc,
    withinWindow
      (mkWorld (events w)
         (reminders w ++ [Reminder.mk newId time (Event.id event) uid]) svc).
Proof.
  intros Hev Hwin Hevent Htime svc r e. cbn [reminders events].
  intros Hr He Hid. apply elem_of_app in Hr as [Hr|Hr]; [by apply Hwin|].
  apply list_elem_of_singleton in Hr as ->.
  cbn [Reminder.eventId Reminder.reminderTime] in *.
  assert (e = event) as ->; [|done].
  by apply (NoDup_key_inj Event.id (events w)).
Qed.

End Window.

(** X15.  The window is an invariant of the tables.  With ids that are
    unique, when every reminder lies between fifteen minutes and seven
    days before the date of its event, this is still so after
    [createReminder], [deleteReminder], [createOrUpdateReminder] and
    [updateEvent], whatever they are called with and whatever they
    return; and after [updateReminder] when the reminder it is called for
    belongs to the event named in the form. *)
Theorem reminders_stay_within_the_window
    (session : option Auth.Session) (newId reminderId eventId : string)
    (data : ReminderActions.ReminderFormInput)
    (rawData : Validations.RawReminder) (now : Z)
    (rawEvent : EventActions.RawEvent) (w : World) :
  NoDup (map Event.id (events w)) ->
  NoDup (map Reminder.id (reminders w)) ->
  withinWindow w ->
  withinWindow (ReminderActions.createReminder session newId data w).2
  /\ withinWindow (ReminderActions.deleteReminder session reminderId w).2
  /\ withinWindow
       (ReminderActions.createOrUpdateReminder session newId rawData w).2
  /\ withinWindow (EventActions.updateEvent session now eventId rawEvent w).2
  /\ ((forall r, r ∈ reminders w -> Reminder.id r = reminderId ->
                 Reminder.eventId r = ReminderActions.in_eventId data) ->
      withinWindow
        (ReminderActions.updateReminder session reminderId data w).2).
Proof.
  intros Hev Hnd Hwin. split; [|split; [|split; [|split]]].
  - unfold ReminderActions.createReminder.
    destruct (Auth.sessionUser session) as [user|]; [|done].
    destruct (Validations.reminderSchema_safeParse _) as [vd|]; [|done].
    destruct (ReminderActions.findEvent _ _ _) as [event|] eqn:Hevent;
      [|done].
    destruct (ReminderActions.createReminder_outsideWindow _ _) eqn:Hout;
      [done|].
    destruct (ReminderActions.findReminderForEvent _ _ _); [done|].
    unfold Prisma.reminder_create.
    destruct (Prisma.reminder_byId newId (reminders w)); [done|].
    apply findEvent_Some in Hevent as (Hin & <- & _).
    apply window_arith in Hout. cbn [snd].
    apply withinWindow_create; [done..|lia].
  - unfold ReminderActions.deleteReminder.
    destruct (Auth.sessionUser session) as [user|]; [|done].
    destruct (ReminderActions.findReminderById _ _ _); [|done].
    unfold Prisma.reminder_delete.
    destruct (Prisma.reminder_byId _ _); [|done].
    intros r e. cbn [snd reminders events]. intros Hr He Hid.
    apply list_elem_of_In, filter_In in Hr as [Hr _].
    apply Hwin; [by apply list_elem_of_In|done..].
  - unfold ReminderActions.createOrUpdateReminder.
    destruct (Auth.sessionUser session) as [user|]; [|done].
    destruct (Validations.reminderSchema_safeParse _) as [vd|]; [|done].
    destruct (ReminderActions.findEvent _ _ _) as [event|] eqn:Hevent;
      [|done].
    destruct (ReminderActions.createOrUpdateReminder_outsideWindow _ _)
      eqn:Hout; [done|].
    apply findEvent_Some in Hevent as (Hin & Heid & _).
    apply window_arith in Hout.
    destruct (ReminderActions.findReminderForEvent _ _ _) as [existing|]
      eqn:Hexisting.
    + destruct (Prisma.reminder_update _ _ _) as [[row rows]|] eqn:Hupd;
        [|done].
      apply update_rows in Hupd as [-> _]. cbn [snd].
      apply find_some in Hexisting as [Hex Hp].
      apply andb_true_iff in Hp as [Hp _]. apply bool_decide_eq_true in Hp.
      apply withinWindow_update with (event := event);
        [done..|by apply list_elem_of_In|congruence|lia].
    + unfold Prisma.reminder_create.
      destruct (Prisma.reminder_byId newId (reminders w)); [done|].
      cbn [snd]. rewrite <- Heid.
      apply withinWindow_create; [done..|lia].
  - unfold EventActions.updateEvent.
    destruct (Auth.sessionUser session) as [user|]; [|done].
    destruct (EventActions.eventSchema_safeParse now rawEvent) as [vd|];
      [|done].
    destruct (EventActions.findOwnedEvent _ _ _) as [existingEvent|]
      eqn:Hfind; [|done].
    destruct (EventActions.findDuplicateEvent _ _ _ _); [done|].
    destruct (Prisma.event_update _ _ _ _ _ _ _) as [[event eventRows]|]
      eqn:Hupd; [|done].
    apply findOwnedEvent_Some in Hfind as (Hexisting & Heid & _).
    set (priorDate := Event.date existingEvent).
    set (newDate := EventActions.date vd).
    set (existing := EventActions.remindersOf existingEvent w).
    destruct (EventActions.propagate priorDate newDate existing (reminders w))
      as [rows' completed] eqn:Hprop.
    cbn [snd].
    (* the rows of other events, and the rows of this event *)
    assert (Hrows :
      forall r, r ∈ rows' ->
        (Reminder.eventId r <> eventId -> r ∈ reminders w)
        /\ (Reminder.eventId r = eventId ->
            15 * 60 * 1000 <= newDate - Reminder.reminderTime r
            <= 7 * 24 * 60 * 60 * 1000)).
    { unfold EventActions.propagate in Hprop.
      destruct (negb (priorDate =? newDate) && (0 <? length existing)%nat)
        eqn:Hmoved.
      - apply andb_true_iff in Hmoved as [Hmoved _].
        destruct (adjustReminders_byId priorDate newDate existing
                    (reminders w)) as [rows1 [Hloop Hbyid]].
        { by apply NoDup_remindersOf. }
        { intros r Hr. apply elem_of_remindersOf in Hr as [Hr _].
          rewrite (byId_elem_of _ _ Hnd Hr). by eexists. }
        rewrite Hloop in Hprop. injection Hprop as <- <-.
        assert (Hnd1 : NoDup (map Reminder.id rows1)).
        { eapply sublist_NoDup; [exact Hnd|].
          pose proof (ids_adjustReminders priorDate newDate existing
                        (reminders w)) as Hs.
          by rewrite Hloop in Hs. }
        intros r Hr. pose proof (byId_elem_of _ _ Hnd1 Hr) as Hrow.
        rewrite Hbyid in Hrow.
        destruct (Prisma.reminder_byId (Reminder.id r) existing) as [r0|]
          eqn:Hr0.
        + apply byId_Some in Hr0 as [Hr0 Hid0].
          apply elem_of_remindersOf in Hr0 as [Hin0 Hev0].
          rewrite <- Hid0 in Hrow. rewrite (byId_elem_of _ _ Hnd Hin0) in Hrow.
          unfold EventActions.adjusted in Hrow.
          destruct (EventActions.updateEvent_insideWindow _ _) eqn:Hok;
            [|done].
          injection Hrow as <-.
          cbn [Reminder.set_reminderTime Reminder.eventId
               Reminder.reminderTime].
          split; [congruence|]. intros _.
          unfold EventActions.updateEvent_insideWindow in Hok.
          apply andb_true_iff in Hok as [Hlo Hhi].
          apply Z.geb_le in Hlo. apply Z.leb_le in Hhi. lia.
        + apply byId_Some in Hrow as [Hin _]. split; [done|].
          intros Hof. assert (Hex : r ∈ existing).
          { apply elem_of_remindersOf. split; [done|congruence]. }
          unfold existing in Hr0, Hex.
          rewrite (byId_elem_of _ _ (NoDup_remindersOf existingEvent w Hnd)
                     Hex) in Hr0. done.
      - injection Hprop as <- <-. intros r Hr. split; [done|]. intros Hof.
        apply andb_false_iff in Hmoved as [Hsame|Hnone].
        + apply negb_false_iff, Z.eqb_eq in Hsame. rewrite <- Hsame.
          apply Hwin; [done..|congruence].
        + assert (Hex : r ∈ existing).
          { apply elem_of_remindersOf. split; [done|congruence]. }
          unfold existing in Hex, Hnone.
          destruct (EventActions.remindersOf existingEvent w);
            [by apply elem_of_nil in Hex|done]. }
    intros r e. cbn [reminders events]. intros Hr He Hid.
    destruct (Hrows r Hr) as [Hother Hthis].
    unfold Prisma.event_update in Hupd.
    destruct (List.find _ (events w)); [|done]. injection Hupd as _ <-.
    apply list_elem_of_fmap in He as [e0 [-> He0]].
    case_bool_decide as He0id.
    + cbn [Event.id Event.date] in *. apply Hthis. congruence.
    + apply Hwin; [|done..]. apply Hother. congruence.
  - intros Hsame. unfold ReminderActions.updateReminder.
    destruct (Auth.sessionUser session) as [user|]; [|done].
    destruct (Validations.reminderSchema_safeParse _) as [vd|] eqn:Hparse;
      [|done].
    destruct (ReminderActions.findEvent _ _ _) as [event|] eqn:Hevent;
      [|done].
    destruct (ReminderActions.updateReminder_outsideWindow _ _) eqn:Hout;
      [done|].
    destruct (ReminderActions.findReminderById _ _ _) as [existing|]
      eqn:Hexisting; [|done].
    destruct (Prisma.reminder_update _ _ _) as [[row rows]|] eqn:Hupd;
      [|done].
    apply update_rows in Hupd as [-> _]. cbn [snd].
    apply findEvent_Some in Hevent as (Hin & Heid & _).
    apply findReminderById_Some in Hexisting as (Hex & Hexid & _).
    apply window_arith in Hout. apply safeParse_eventId in Hparse.
    rewrite <- Hexid.
    apply withinWindow_update with (event := event);
      [done..| |lia].
    rewrite (Hsame existing Hex Hexid). congruence.
Qed.

Lemma reminders_stay_within_the_window_witness :
  withinWindow Cases.shared
  /\ withinWindow
       (EventActions.updateEvent Scenario.session Scenario.clock "event-123"
          Scenario.movedForm Cases.shared).2.
Proof.
  assert (Hwin : withinWindow Cases.shared).
  { intros r e Hr He _. apply list_elem_of_singleton in He as ->.
    apply elem_of_cons in Hr as [->|Hr];
      [|apply list_elem_of_singleton in Hr as ->]; closed. }
  split; [exact Hwin|].
  refine (proj1 (proj2 (proj2 (proj2
            (reminders_stay_within_the_window
               Scenario.session "reminder-456" "reminder-123" "event-123"
               Cases.twoHoursBefore (Validations.mkRawReminder None None)
               Scenario.clock Scenario.movedForm Cases.shared _ _ Hwin))))).
  - apply (bool_decide_unpack _). vm_compute. reflexivity.
  - apply (bool_decide_unpack _). vm_compute. reflexivity.
Defined.


(** ** What [updateEvent] leaves alone *)

Section Moves.
Import EventActions.

Lemma sameRow_update rid time (rows : list Reminder.t) :
  Forall2 sameRow
    (List.map (fun r => if bool_decide (Reminder.id r = rid)
                        then Reminder.set_reminderTime time r else r) rows)
    rows.
Proof.
  induction rows as [|r rows IH]; cbn [List.map]; constructor; [|done].
  by case_bool_decide.
Qed.

Lemma sameRow_refl (rows : list Reminder.t) : Forall2 sameRow rows rows.
Proof. induction rows; constructor; done. Qed.

Lemma sameRow_trans (l1 l2 l3 : list Reminder.t) :
  Forall2 sameRow l1 l2 -> Forall2 sameRow l2 l3 -> Forall2 sameRow l1 l3.
Proof.
  intros H12. revert l3. induction H12 as [|a b l1 l2 Hab _ IH]; intros l3 H23.
  - by inversion H23.
  - inversion H23 as [|? c ? l3' Hbc H23']; subst. constructor; [|by apply IH].
    destruct Hab as (? & ? & ?), Hbc as (? & ? & ?).
    repeat split; congruence.
Qed.

(** A loop over reminders that all pass the test of the loop body
    deletes no row. *)
Lemma adjustReminders_keeps_rows priorDate newDate existing : forall rows,
  (forall r, r ∈ existing ->
             updateEvent_insideWindow newDate
               (newReminderTime priorDate newDate r) = true) ->
  Forall2 sameRow (adjustReminders priorDate newDate existing rows).1 rows.
Proof.
  induction existing as [|r existing IH]; intros rows Hok;
    [apply sameRow_refl|].
  cbn [adjustReminders]. unfold adjustReminder.
  rewrite (Hok r) by by left.
  destruct (Prisma.reminder_update _ _ rows) as [[r' rows1]|] eqn:Hupd;
    [|apply sameRow_refl].
  apply update_rows in Hupd as [-> _].
  eapply sameRow_trans; [apply IH|apply sameRow_update].
  intros r0 Hr0. apply Hok. by right.
Qed.

(** With a primary key, the loop touches the rows of its own reminders
    only. *)
Lemma propagate_other_events priorDate newDate event w r :
  NoDup (map Reminder.id (reminders w)) ->
  Reminder.eventId r <> Event.id event ->
  r ∈ (propagate priorDate newDate (remindersOf event w) (reminders w)).1
  <-> r ∈ reminders w.
Proof.
  intros Hnd Hother. unfold propagate.
  destruct (negb (priorDate =? newDate) && _); [|done].
  destruct (adjustReminders_byId priorDate newDate (remindersOf event w)
              (reminders w)) as [rows1 [Hloop Hbyid]].
  { by apply NoDup_remindersOf. }
  { intros r0 Hr0. apply elem_of_remindersOf in Hr0 as [Hr0 _].
    rewrite (byId_elem_of _ _ Hnd Hr0). by eexists. }
  assert (Hnd1 : NoDup (map Reminder.id rows1)).
  { eapply sublist_NoDup; [exact Hnd|].
    pose proof (ids_adjustReminders priorDate newDate (remindersOf event w)
                  (reminders w)) as Hs.
    by rewrite Hloop in Hs. }
  rewrite Hloop. cbn [fst].
  assert (Hnone : forall r0,
            Prisma.reminder_byId (Reminder.id r) (remindersOf event w)
            = Some r0 ->
            Prisma.reminder_byId (Reminder.id r) (reminders w) <> Some r).
  { intros r0 Hr0 Hr. apply byId_Some in Hr0 as [Hr0 Hid0].
    apply elem_of_remindersOf in Hr0 as [Hin0 Hev0].
    apply byId_Some in Hr as [Hin _].
    rewrite (NoDup_ids_inj _ _ _ Hnd Hin0 Hin Hid0) in Hev0. done. }
  split; intros Hr.
  - pose proof (byId_elem_of _ _ Hnd1 Hr) as Hrow. rewrite Hbyid in Hrow.
    destruct (Prisma.reminder_byId (Reminder.id r) (remindersOf event w))
      as [r0|] eqn:Hr0; [|by apply byId_Some in Hrow as [Hin _]].
    apply byId_Some in Hr0 as [Hr0 Hid0].
    apply elem_of_remindersOf in Hr0 as [Hin0 Hev0].
    rewrite <- Hid0, (byId_elem_of _ _ Hnd Hin0) in Hrow.
    unfold adjusted in Hrow.
    destruct (updateEvent_insideWindow _ _); [|done].
    injection Hrow as <-. done.
  - pose proof (byId_elem_of _ _ Hnd Hr) as Hrow.
    assert (Hrow1 : Prisma.reminder_byId (Reminder.id r) rows1 = Some r).
    { rewrite Hbyid.
      destruct (Prisma.reminder_byId (Reminder.id r) (remindersOf event w))
        as [r0|] eqn:Hr0; [|done].
      by destruct (Hnone r0 eq_refl). }
    by apply byId_Some in Hrow1 as [Hin _].
Qed.

End Moves.

(** A form that passes [eventSchema] has a date in the future. *)
Lemma safeParse_date now rawEvent vd :
  EventActions.eventSchema_safeParse now rawEvent = inl vd ->
  now < EventActions.date vd.
Proof.
  unfold EventActions.eventSchema_safeParse.
  destruct (EventActions.title_ok _); [|done].
  destruct (negb _); [done|].
  destruct (EventActions.date_ok now _) as [d|] eqn:Hd; [|done].
  destruct (EventActions.location_ok _); [|done].
  destruct (EventActions.status_ok _); [|done].
  intros [= <-]. cbn [EventActions.date].
  unfold EventActions.date_ok in Hd.
  destruct (EventActions.raw_date rawEvent) as [d0|]; [|done].
  destruct (d0 >? now) eqn:Hgt; [|done]. injection Hd as <-.
  apply Z.gtb_lt in Hgt. lia.
Qed.

(** X16.  Moving an event never costs a reminder that was valid.  When
    every reminder lies inside the window of its event, [updateEvent]
    deletes no row of the [Reminder] table, whatever the new date is:
    row by row the table holds afterwards a reminder of the same id,
    event and owner as before. *)
Theorem moving_an_event_keeps_valid_reminders
    (session : option Auth.Session) (now : Z) (eventId : string)
    (rawEvent : EventActions.RawEvent) (w : World) :
  withinWindow w ->
  Forall2 sameRow
    (reminders (EventActions.updateEvent session now eventId rawEvent w).2)
    (reminders w).
Proof.
  intros Hwin. unfold EventActions.updateEvent.
  destruct (Auth.sessionUser session) as [user|]; [|apply sameRow_refl].
  destruct (EventActions.eventSchema_safeParse now rawEvent) as [vd|];
    [|apply sameRow_refl].
  destruct (EventActions.findOwnedEvent _ _ _) as [existingEvent|] eqn:Hfind;
    [|apply sameRow_refl].
  destruct (EventActions.findDuplicateEvent _ _ _ _); [apply sameRow_refl|].
  destruct (Prisma.event_update _ _ _ _ _ _ _) as [[event eventRows]|];
    [|apply sameRow_refl].
  apply findOwnedEvent_Some in Hfind as (Hexisting & _ & _).
  destruct (EventActions.propagate _ _ _ _) as [rows' completed] eqn:Hprop.
  cbn [snd reminders]. unfold EventActions.propagate in Hprop.
  destruct (negb _ && _).
  - pose proof (adjustReminders_keeps_rows (Event.date existingEvent)
                  (EventActions.date vd)
                  (EventActions.remindersOf existingEvent w) (reminders w))
      as Hkeep.
    rewrite Hprop in Hkeep. apply Hkeep. intros r Hr.
    apply elem_of_remindersOf in Hr as [Hr Hof].
    specialize (Hwin r existingEvent Hr Hexisting (eq_sym Hof)).
    unfold EventActions.updateEvent_insideWindow,
      EventActions.newReminderTime.
    apply andb_true_iff. rewrite Z.geb_le, Z.leb_le. lia.
  - injection Hprop as <- _. apply sameRow_refl.
Qed.

Lemma moving_an_event_keeps_valid_reminders_witness :
  Forall2 sameRow
    (reminders (EventActions.updateEvent Scenario.session Scenario.clock
                  "event-123" Scenario.movedForm Cases.shared).2)
    (reminders Cases.shared).
Proof.
  apply (moving_an_event_keeps_valid_reminders Scenario.session
           Scenario.clock "event-123" Scenario.movedForm Cases.shared).
  intros r e Hr He _. apply list_elem_of_singleton in He as ->.
  apply elem_of_cons in Hr as [->|Hr];
    [|apply list_elem_of_singleton in Hr as ->]; closed.
Defined.

(** X17.  [updateEvent] touches the event it is called for and the
    reminders of that event, and nothing else.  Events of another id and,
    with ids that are unique, reminders of another event are the same
    after the call as before; a success means that the caller is signed
    in and owns the event, which afterwards still has its id and owner
    and a date later than the instant of the call; and a caller who owns
    no event of that id changes nothing at all. *)
Theorem updateEvent_touches_its_event_only
    (session : option Auth.Session) (now : Z) (eventId : string)
    (rawEvent : EventActions.RawEvent) (w : World) :
  NoDup (map Event.id (events w)) ->
  NoDup (map Reminder.id (reminders w)) ->
  let out := EventActions.updateEvent session now eventId rawEvent w in
  (forall e, Event.id e <> eventId -> e ∈ events out.2 <-> e ∈ events w)
  /\ (forall r, Reminder.eventId r <> eventId ->
                r ∈ reminders out.2 <-> r ∈ reminders w)
  /\ (forall event,
        out.1 = Success event ->
        exists user old,
          Auth.sessionUser session = Some user
          /\ old ∈ events w
          /\ Event.id old = eventId
          /\ Event.userId old = Auth.id user
          /\ event ∈ events out.2
          /\ Event.id event = eventId
          /\ Event.userId event = Auth.id user
          /\ now < Event.date event)
  /\ ((forall user e,
          Auth.sessionUser session = Some user -> e ∈ events w ->
          Event.id e = eventId -> Event.userId e <> Auth.id user) ->
      out.2 = w).
Proof.
  intros Hev Hnd. cbv zeta. unfold EventActions.updateEvent.
  destruct (Auth.sessionUser session) as [user|] eqn:Huser; [|done].
  destruct (EventActions.eventSchema_safeParse now rawEvent) as [vd|]
    eqn:Hparse; [|done].
  destruct (EventActions.findOwnedEvent _ _ _) as [existingEvent|] eqn:Hfind;
    [|done].
  apply findOwnedEvent_Some in Hfind as (Hexisting & Heid & Howner).
  destruct (EventActions.findDuplicateEvent _ _ _ _); [done|].
  destruct (Prisma.event_update _ _ _ _ _ _ _) as [[event eventRows]|]
    eqn:Hupd; [|done].
  destruct (EventActions.propagate _ _ _ _) as [rows' completed] eqn:Hprop.
  cbn [fst snd events reminders].
  unfold Prisma.event_update in Hupd.
  destruct (List.find _ (events w)) as [row|] eqn:Hrow; [|done].
  injection Hupd as <- <-.
  apply find_some in Hrow as [Hrowin Hrowid].
  apply bool_decide_eq_true in Hrowid. apply list_elem_of_In in Hrowin.
  split; [|split; [|split]].
  - intros e He. rewrite list_elem_of_fmap. split.
    + intros [e0 [-> He0]]. case_bool_decide as Hid0; [|done].
      by cbn [Event.id] in He.
    + intros Hin. exists e. by rewrite bool_decide_eq_false_2.
  - intros r Hr.
    pose proof (propagate_other_events (Event.date existingEvent)
                  (EventActions.date vd) existingEvent w r Hnd) as Hframe.
    rewrite Hprop in Hframe. apply Hframe. congruence.
  - intros event0 Hsuccess. destruct completed; [|done].
    injection Hsuccess as <-. exists user, existingEvent.
    repeat split; try done.
    + apply list_elem_of_fmap. exists row. split; [|done].
      by rewrite bool_decide_eq_true_2.
    + cbn [Event.userId].
      by rewrite (NoDup_key_inj Event.id (events w) row existingEvent)
        by (done || congruence).
    + cbn [Event.date]. by apply safeParse_date in Hparse.
  - intros Hno. by destruct (Hno user existingEvent eq_refl Hexisting Heid).
Qed.

Lemma updateEvent_touches_its_event_only_witness :
  Scenario.otherEvent
  ∈ events (EventActions.updateEvent Scenario.session Scenario.clock
              "event-123" Scenario.movedForm Scenario.twoEvents).2.
Proof.
  assert (Hev : NoDup (map Event.id (events Scenario.twoEvents))).
  { apply (bool_decide_unpack _). vm_compute. reflexivity. }
  assert (Hnd : NoDup (map Reminder.id (reminders Scenario.twoEvents))).
  { apply (bool_decide_unpack _). vm_compute. reflexivity. }
  apply (proj1 (updateEvent_touches_its_event_only Scenario.session
                  Scenario.clock "event-123" Scenario.movedForm
                  Scenario.twoEvents Hev Hnd) Scenario.otherEvent).
  - discriminate.
  - right. left.
Defined.

(** ** Creating and deleting events *)

Section EventRows.
Import EventActions Events.

(** The validated form does not depend on the instant of the call, as
    long as its date is still ahead. *)
Lemma safeParse_later now now' rawEvent vd :
  eventSchema_safeParse now rawEvent = inl vd ->
  now' < date vd ->
  eventSchema_safeParse now' rawEvent = inl vd.
Proof.
  unfold eventSchema_safeParse.
  destruct (title_ok _); [|done].
  destruct (negb _); [done|].
  unfold date_ok. destruct (raw_date rawEvent) as [d|]; [|done].
  destruct (d >? now); [|done].
  destruct (location_ok _); [|done].
  destruct (status_ok _); [|done].
  intros [= <-]. cbn [date]. intros Hlater.
  by rewrite (proj2 (Z.gtb_lt d now')) by lia.
Qed.

End EventRows.

(** X18.  [createEvent] stores the event and reports a failure.  For a
    signed-in caller whose form passes the schema and matches no event
    of theirs by title and date, the row is added to the [Event] table
    and the call returns the error of its [catch] block, because the
    object it logs reads [result.id] and nothing is bound to [result];
    submitting the same form again, while its date is still ahead, is
    then refused as a duplicate and changes nothing. *)
Theorem createEvent_stores_the_event_and_reports_failure
    (session : option Auth.Session) (user : Auth.User) (now now' : Z)
    (newId newId' : string) (rawData : EventActions.RawEvent)
    (data : EventActions.EventData) (w : World) :
  Auth.sessionUser session = Some user ->
  EventActions.eventSchema_safeParse now rawData = inl data ->
  Events.findExistingEvent (Auth.id user) data w = None ->
  (forall e, e ∈ events w -> Event.id e <> newId) ->
  now' < EventActions.date data ->
  let row := Event.mk newId (EventActions.title data)
               (EventActions.description data) (EventActions.date data)
               (EventActions.location data) (EventActions.status data)
               (Auth.id user) in
  let w' := mkWorld (events w ++ [row]) (reminders w) (reminderService w) in
  Events.createEvent session now newId rawData w = (Failure ActionFailed, w')
  /\ Events.createEvent session now' newId' rawData w'
     = (Failure DuplicateEvent, w').
Proof.
  intros Huser Hparse Hnone Hfresh Hlater. cbv zeta. split.
  - unfold Events.createEvent. rewrite Huser, Hparse, Hnone.
    unfold Events.event_create.
    rewrite (proj2 (find_None_iff _ (events w))).
    + reflexivity.
    + intros e He. apply bool_decide_eq_false. by apply Hfresh.
  - unfold Events.createEvent.
    rewrite Huser, (safeParse_later _ _ _ _ Hparse Hlater).
    unfold Events.findExistingEvent. cbn [events].
    rewrite find_append. unfold Events.findExistingEvent in Hnone.
    rewrite Hnone. cbn [List.find Event.title Event.date Event.userId].
    by rewrite !bool_decide_eq_true_2, Z.eqb_refl.
Qed.

Lemma createEvent_stores_the_event_and_reports_failure_witness :
  Events.createEvent Scenario.session Scenario.clock "event-456"
    Cases.newForm Scenario.world
  = (Failure ActionFailed,
     mkWorld [Scenario.event;
              Event.mk "event-456" "Launch" (Some "Launch party")
                       (Scenario.T + 2 * Scenario.day) "US-NY: New York"
                       Event.PUBLISHED "user-123"]
             [Scenario.reminder] Scenario.service).
Proof.
  refine (proj1 (createEvent_stores_the_event_and_reports_failure
                   Scenario.session
                   (Auth.mkUser "user-123" "test@example.com")
                   Scenario.clock Scenario.T "event-456" "event-457"
                   Cases.newForm Cases.newData Scenario.world
                   _ _ _ _ _)).
  - reflexivity.
  - reflexivity.
  - reflexivity.
  - intros e He. apply list_elem_of_singleton in He as ->. discriminate.
  - closed.
Defined.

(** X19.  [deleteEvent] succeeds exactly when the caller is signed in and
    owns an event of the given id.  It then removes the rows of that id
    from the [Event] table and, by the cascade, the reminders of that
    event, and no other row; a failure changes nothing.  In no case does
    it touch the job processor: a job that was pending for a reminder
    of the deleted event is still handed to [sendReminder] by the next
    scan at or after its time. *)
Theorem deleteEvent_removes_rows_and_leaves_jobs
    (session : option Auth.Session) (eventId : string) (w : World) :
  let out := Events.deleteEvent session eventId w in
  (out.1 = Success tt
   <-> exists user e,
         Auth.sessionUser session = Some user
         /\ e ∈ events w
         /\ Event.id e = eventId
         /\ Event.userId e = Auth.id user)
  /\ (out.1 = Success tt ->
      (forall e, e ∈ events out.2 <-> e ∈ events w /\ Event.id e <> eventId)
      /\ (forall r, r ∈ reminders out.2
                    <-> r ∈ reminders w /\ Reminder.eventId r <> eventId))
  /\ (forall error, out.1 = Failure error -> out.2 = w)
  /\ reminderService out.2 = reminderService w
  /\ (forall key job now sendReminder,
        Scheduler.jobs (reminderService w) !! key = Some job ->
        Scheduler.status job = Scheduler.pending ->
        Scheduler.reminderTime job <= now ->
        job ∈ (Scheduler.processReminders now sendReminder
                 (reminderService out.2)).1).
Proof.
  cbv zeta.
  assert (Hservice : reminderService (Events.deleteEvent session eventId w).2
                     = reminderService w).
  { unfold Events.deleteEvent.
    destruct (Auth.sessionUser session); [|done].
    destruct (EventActions.findOwnedEvent _ _ _); [|done].
    by destruct (Events.event_delete _ _) as [[es rs]|]. }
  split; [|split; [|split; [|split; [done|]]]].
  - unfold Events.deleteEvent.
    destruct (Auth.sessionUser session) as [user|] eqn:Huser.
    2:{ split; [done|]. by intros (? & ? & ? & _). }
    destruct (EventActions.findOwnedEvent _ _ _) as [existing|] eqn:Hfind.
    + apply findOwnedEvent_Some in Hfind as (Hin & Hid & Hu).
      unfold Events.event_delete.
      destruct (List.find _ (events w)) eqn:Hrow.
      * split; [|done]. intros _. by exists user, existing.
      * rewrite find_None_iff in Hrow. specialize (Hrow existing Hin).
        by rewrite bool_decide_eq_true_2 in Hrow.
    + split; [done|]. intros (u & e & [= <-] & Hin & Hid & Hu).
      unfold EventActions.findOwnedEvent in Hfind.
      rewrite find_None_iff in Hfind. specialize (Hfind e Hin).
      by rewrite !bool_decide_eq_true_2 in Hfind.
  - unfold Events.deleteEvent.
    destruct (Auth.sessionUser session) as [user|]; [|done].
    destruct (EventActions.findOwnedEvent _ _ _); [|done].
    unfold Events.event_delete, Events.cascade.
    destruct (List.find _ (events w)); [|done].
    cbn [fst snd events reminders]. intros _. split.
    + intros e. rewrite list_elem_of_In, filter_In, <- list_elem_of_In.
      by rewrite negb_true_iff, bool_decide_eq_false.
    + intros r. rewrite list_elem_of_In, filter_In, <- list_elem_of_In.
      by rewrite negb_true_iff, bool_decide_eq_false.
  - intros error. unfold Events.deleteEvent.
    destruct (Auth.sessionUser session) as [user|]; [|done].
    destruct (EventActions.findOwnedEvent _ _ _); [|done].
    by destruct (Events.event_delete _ _) as [[es rs]|].
  - intros key job now sendReminder Hjob Hst Hdue. rewrite Hservice.
    rewrite processReminders_log. apply list_elem_of_fmap.
    exists (key, job). split; [done|]. by apply pendingJobs_spec.
Qed.

(** ** Reading events *)

Section Reading.
Import Events.

(** With a key, the first row that passes a test which no row of
    another key passes is the row of that key. *)
Lemma find_by_key {A B} (f : A -> B) (p : A -> bool) (l : list A) x :
  NoDup (map f l) -> x ∈ l -> p x = true ->
  (forall y, y ∈ l -> p y = true -> f y = f x) ->
  List.find p l = Some x.
Proof.
  intros Hnd Hx Hp Hkey.
  destruct (List.find p l) as [y|] eqn:Hfind.
  - apply find_some in Hfind as [Hy Hpy]. apply list_elem_of_In in Hy.
    f_equal. apply (NoDup_key_inj f l); auto.
  - rewrite find_None_iff in Hfind. by rewrite (Hfind x Hx) in Hp.
Qed.

Lemma elem_of_included keep e w r :
  r ∈ included keep e w
  <-> r ∈ reminders w /\ Reminder.eventId r = Event.id e /\ keep r = true.
Proof.
  unfold included. rewrite list_elem_of_In, filter_In, <- list_elem_of_In.
  by rewrite andb_true_iff, bool_decide_eq_true.
Qed.

Lemma head_None_iff {A} (l : list A) : head l = None <-> forall x, x ∉ l.
Proof.
  destruct l as [|a l]; cbn [head].
  - split; [|done]. intros _ x. apply not_elem_of_nil.
  - split; [done|]. intros H. destruct (H a). by left.
Qed.

Lemma head_elem_of {A} (l : list A) x : head l = Some x -> x ∈ l.
Proof. destruct l; [done|]. intros [= ->]. by left. Qed.

End Reading.

(** X20.  What [getEventById] shows of an event, with event ids that are
    unique.  A caller who is not signed in is shown the event only when
    it is published, and no reminder with it.  A signed-in caller is
    shown the event whatever its status and whoever owns it, a draft of
    another user included; the reminder shown with it is a reminder of
    the caller for that event, and one is shown whenever the caller has
    one. *)
Theorem getEventById_shows_any_event_to_a_signed_in_caller
    (session : option Auth.Session) (eventId : string) (w : World)
    (e : Event.t) :
  NoDup (map Event.id (events w)) ->
  e ∈ events w ->
  Event.id e = eventId ->
  match Events.callerId session with
  | None =>
      Events.getEventById session eventId w
      = if bool_decide (Event.status e = Event.PUBLISHED)
        then Some (Events.mkWithReminder e None) else None
  | Some uid =>
      exists reminder,
        Events.getEventById session eventId w
        = Some (Events.mkWithReminder e reminder)
        /\ (forall r, reminder = Some r ->
                      r ∈ reminders w
                      /\ Reminder.eventId r = eventId
                      /\ Reminder.userId r = uid)
        /\ (reminder = None
            <-> forall r, r ∈ reminders w -> Reminder.eventId r = eventId ->
                          Reminder.userId r <> uid)
  end.
Proof.
  intros Hnd He Hid. unfold Events.getEventById.
  destruct (Events.callerId session) as [uid|].
  - rewrite (find_by_key Event.id _ (events w) e Hnd He).
    + eexists. split; [reflexivity|]. split.
      * intros r Hr. apply head_elem_of, elem_of_included in Hr.
        rewrite bool_decide_eq_true in Hr. by rewrite <- Hid.
      * rewrite head_None_iff. split.
        -- intros Hno r Hr Hev Hu. apply (Hno r). apply elem_of_included.
           rewrite bool_decide_eq_true. by rewrite Hid.
        -- intros Hno r Hr. apply elem_of_included in Hr as (Hr & Hev & Hu).
           apply bool_decide_eq_true in Hu. apply (Hno r Hr); congruence.
    + by rewrite bool_decide_eq_true_2.
    + intros y _ Hy. apply andb_true_iff in Hy as [Hy _].
      apply bool_decide_eq_true in Hy. congruence.
  - case_bool_decide as Hst.
    + rewrite (find_by_key Event.id _ (events w) e Hnd He); [done| |].
      * by rewrite !bool_decide_eq_true_2.
      * intros y _ Hy. apply andb_true_iff in Hy as [Hy _].
        apply bool_decide_eq_true in Hy. congruence.
    + rewrite (proj2 (find_None_iff _ (events w))); [done|].
      intros y Hy. apply andb_false_iff.
      destruct (decide (Event.id y = eventId)) as [Hyid|Hyid].
      * right. apply bool_decide_eq_false.
        rewrite (NoDup_key_inj Event.id (events w) y e) by (done || congruence).
        done.
      * left. by apply bool_decide_eq_false.
Qed.

Lemma getEventById_shows_any_event_to_a_signed_in_caller_witness :
  exists reminder,
    Events.getEventById Scenario.session "event-789" Cases.withDraft
    = Some (Events.mkWithReminder Cases.draft reminder).
Proof.
  destruct (getEventById_shows_any_event_to_a_signed_in_caller
              Scenario.session "event-789" Cases.withDraft Cases.draft)
    as [reminder [Hshown _]].
  - apply (bool_decide_unpack _). vm_compute. reflexivity.
  - right. left.
  - reflexivity.
  - exists reminder. exact Hshown.
Defined.

(** ** Listing events *)

Section Listing.
Import Events.

Lemma elem_of_page {A} (n m : nat) (l : list A) x :
  x ∈ take n (drop m l) -> x ∈ l.
Proof.
  intros Hx. eapply elem_of_sublist; [exact Hx|].
  etrans; [apply sublist_take|apply sublist_drop].
Qed.

Lemma elem_of_filter_list {A} (p : A -> bool) (l : list A) x :
  x ∈ List.filter p l <-> x ∈ l /\ p x = true.
Proof. by rewrite !list_elem_of_In, filter_In. Qed.

Lemma ceilDiv_bounds (count pageSize : Z) :
  0 <= count -> 0 < pageSize ->
  (ceilDiv count pageSize - 1) * pageSize < count
  <= ceilDiv count pageSize * pageSize.
Proof.
  intros Hc Hp. unfold ceilDiv.
  pose proof (Z.div_mod (count + pageSize - 1) pageSize ltac:(lia)) as Hdm.
  pose proof (Z.mod_pos_bound (count + pageSize - 1) pageSize Hp) as Hm.
  nia.
Qed.

End Listing.

(** X21.  What a listing shows.  Whatever order the database returns the
    selected rows in, every entry of the answer of [getEventsInternal] is
    an event of the table that passes the filters: for a signed-in
    caller an event of their own, for a caller who is not signed in an
    event of the status asked for, or a published one when no status is
    asked for; its date is inside the range asked for.  The reminder
    shown with it is a reminder of that event, of the caller when signed
    in, and is present or absent as [hasReminder] asks.  The answer has
    no more entries than [pageSize]. *)
Theorem getEventsInternal_shows_only_what_the_filters_allow
    (db : Events.Database) (userId : option string)
    (params : Events.PaginationParams) (filters : Events.EventTableFilters)
    (w : World) :
  (forall column order rows sorted,
      Events.orderBy db column order rows = Some sorted -> sorted ≡ₚ rows) ->
  let answer := Events.getEventsInternal db userId params filters w in
  (forall x,
      x ∈ Events.r_events answer ->
      let e := Events.event x in
      e ∈ events w
      /\ (forall uid, Events.truthy userId = Some uid ->
                      Event.userId e = uid)
      /\ (forall st, Events.f_status filters = Some st -> Event.status e = st)
      /\ (Events.truthy userId = None -> Events.f_status filters = None ->
          Event.status e = Event.PUBLISHED)
      /\ (forall gte, Events.f_startDate filters = Some gte ->
                      gte <= Event.date e)
      /\ (forall lte, Events.f_endDate filters = Some lte ->
                      Event.date e <= lte)
      /\ (forall r, Events.reminder x = Some r ->
                    r ∈ reminders w
                    /\ Reminder.eventId r = Event.id e
                    /\ forall uid, Events.truthy userId = Some uid ->
                                   Reminder.userId r = uid)
      /\ (Events.f_hasReminder filters = Some true ->
          is_Some (Events.reminder x))
      /\ (Events.f_hasReminder filters = Some false ->
          Events.reminder x = None))
  /\ (length (Events.r_events answer) <= Z.to_nat (Events.pageSize params))%nat.
Proof.
  intros Hperm. cbv zeta. unfold Events.getEventsInternal.
  destruct (negb _).
  { split; [|cbn; lia]. intros x Hx. by apply elem_of_nil in Hx. }
  set (caller := Events.truthy userId).
  set (selected := List.filter (Events.matches db caller filters) (events w)).
  destruct (Events.orderBy db _ _ selected) as [sorted|] eqn:Hsorted.
  2:{ split; [|cbn; lia]. intros x Hx. by apply elem_of_nil in Hx. }
  apply Hperm in Hsorted. cbn [Events.r_events].
  set (keep := fun r : Reminder.t =>
                 match caller with
                 | Some uid => bool_decide (Reminder.userId r = uid)
                 | None => true
                 end).
  set (shown := List.map
                  (fun e => Events.mkWithReminder e
                              (head (Events.included keep e w)))
                  (take (Z.to_nat (Events.pageSize params))
                        (drop (Z.to_nat ((Events.page params - 1)
                                         * Events.pageSize params)) sorted))).
  set (filtered := match Events.f_hasReminder filters with
                   | Some true => _
                   | Some false => _
                   | None => shown
                   end).
  assert (Hfiltered : forall x,
            x ∈ filtered ->
            x ∈ shown
            /\ (Events.f_hasReminder filters = Some true ->
                is_Some (Events.reminder x))
            /\ (Events.f_hasReminder filters = Some false ->
                Events.reminder x = None)).
  { intros x. unfold filtered.
    destruct (Events.f_hasReminder filters) as [[]|]; [| |done].
    - rewrite elem_of_filter_list, bool_decide_eq_true. by intros [? ?].
    - rewrite elem_of_filter_list, negb_true_iff, bool_decide_eq_false.
      intros [? Hno]. split; [done|]. split; [done|]. intros _.
      destruct (Events.reminder x); [|done]. destruct Hno. by eexists. }
  assert (Hlen : (length filtered <= length shown)%nat).
  { unfold filtered.
    destruct (Events.f_hasReminder filters) as [[]|];
      [apply filter_length_le..|done]. }
  split.
  - intros x Hx. apply Hfiltered in Hx as (Hx & Hyes & Hno).
    apply list_elem_of_fmap in Hx as [e [-> He]].
    cbn [Events.event Events.reminder] in *.
    apply elem_of_page in He. rewrite Hsorted in He.
    apply elem_of_filter_list in He as [He Hm].
    unfold Events.matches in Hm.
    apply andb_true_iff in Hm as [Hm Hsearch].
    apply andb_true_iff in Hm as [Hm Hend].
    apply andb_true_iff in Hm as [Hm Hstart].
    apply andb_true_iff in Hm as [Howner Hstatus].
    split; [done|]. split; [|split; [|split; [|split; [|split; [|split]]]]].
    + intros uid Hcaller. rewrite Hcaller in Howner.
      by apply bool_decide_eq_true in Howner.
    + intros st Hst. rewrite Hst in Hstatus.
      by apply bool_decide_eq_true in Hstatus.
    + intros Hcaller Hst. rewrite Hst, Hcaller in Hstatus.
      by apply bool_decide_eq_true in Hstatus.
    + intros gte Hgte. rewrite Hgte in Hstart. by apply Z.leb_le.
    + intros lte Hlte. rewrite Hlte in Hend. by apply Z.leb_le.
    + intros r Hr. apply head_elem_of, elem_of_included in Hr
        as (Hr & Hev & Hkeep).
      split; [done|]. split; [done|]. intros uid Hcaller.
      unfold keep in Hkeep. rewrite Hcaller in Hkeep.
      by apply bool_decide_eq_true in Hkeep.
    + done.
  - etrans; [exact Hlen|]. unfold shown. rewrite length_map.
    apply firstn_le_length.
Qed.

Lemma getEventsInternal_shows_only_what_the_filters_allow_witness :
  (length (Events.r_events
             (Events.getEventsInternal Cases.database (Some "user-123"%string)
                Cases.firstPage Cases.noFilters Cases.withDraft))
   <= Z.to_nat 10)%nat.
Proof.
  refine (proj2 (getEventsInternal_shows_only_what_the_filters_allow
                   Cases.database (Some "user-123"%string) Cases.firstPage
                   Cases.noFilters Cases.withDraft _)).
  intros column order rows sorted Hsorted. injection Hsorted as <-.
  reflexivity.
Defined.

Section FirstPage.
Import Events.

(** The first page of a listing that fits on one page holds every
    selected row, in the order the database gives them. *)
Lemma first_page_is_complete db userId params filters w sorted :
  orderBy db (default "date"%string (sortBy params))
          (default true (sortOrder params))
          (List.filter (matches db (truthy userId) filters) (events w))
  = Some sorted ->
  sorted ≡ₚ List.filter (matches db (truthy userId) filters) (events w) ->
  page params = 1 ->
  0 < pageSize params ->
  Z.of_nat (length (List.filter (matches db (truthy userId) filters) (events w)))
  <= pageSize params ->
  f_hasReminder filters = None ->
  map event (r_events (getEventsInternal db userId params filters w))
  = sorted
  /\ r_events (getEventsInternal db userId params filters w)
     = List.map
         (fun e => mkWithReminder e
                     (head (included
                              (fun r => match truthy userId with
                                        | Some uid =>
                                            bool_decide (Reminder.userId r = uid)
                                        | None => true
                                        end) e w)))
         sorted.
Proof.
  intros Hsorted Hperm Hpage Hpos Hfits Hall. unfold getEventsInternal.
  rewrite Hpage, Hsorted, Hall.
  replace (0 <? 1) with true by done.
  rewrite (proj2 (Z.ltb_lt 0 (pageSize params)) Hpos). cbn [andb negb].
  replace (Z.to_nat ((1 - 1) * pageSize params)) with 0%nat by lia.
  rewrite drop_0, take_ge.
  2:{ rewrite Hperm. lia. }
  cbn [r_events]. split; [|done].
  rewrite map_map. cbn [event]. apply map_id.
Qed.

End FirstPage.

(** X22.  A listing for a caller who is not signed in, filtered by a
    status.  The status asked for replaces the restriction to published
    events: when the rows fit on the first page, the answer holds
    exactly the events of that status, of every owner and drafts
    included.  And the reminder shown with an event is the first
    reminder of the table for that event, whoever owns it. *)
Theorem anonymous_listing_by_status_shows_every_owner
    (db : Events.Database) (params : Events.PaginationParams)
    (st : Event.EventStatus) (w : World) :
  (forall rows, exists sorted,
      Events.orderBy db (default "date"%string (Events.sortBy params))
                     (default true (Events.sortOrder params)) rows
      = Some sorted
      /\ sorted ≡ₚ rows) ->
  Events.page params = 1 ->
  0 < Events.pageSize params ->
  Z.of_nat (length (events w)) <= Events.pageSize params ->
  let filters := Events.mkFilters (Some st) None None None None in
  let answer := Events.getEventsInternal db None params filters w in
  (forall e, (exists x, x ∈ Events.r_events answer /\ Events.event x = e)
             <-> e ∈ events w /\ Event.status e = st)
  /\ (forall x, x ∈ Events.r_events answer ->
                Events.reminder x
                = head (List.filter
                          (fun r => bool_decide
                                      (Reminder.eventId r
                                       = Event.id (Events.event x)))
                          (reminders w))).
Proof.
  intros Hdb Hpage Hpos Hfits. cbv zeta.
  set (filters := Events.mkFilters (Some st) None None None None).
  destruct (Hdb (List.filter (Events.matches db None filters) (events w)))
    as [sorted [Hsorted Hperm]].
  destruct (first_page_is_complete db None params filters w sorted)
    as [Hevents Hentries]; try done.
  { etrans; [|exact Hfits]. apply inj_le, filter_length_le. }
  assert (Hsel : forall e, e ∈ sorted <-> e ∈ events w /\ Event.status e = st).
  { intros e. rewrite Hperm, elem_of_filter_list. unfold Events.matches.
    cbn [filters Events.f_status Events.f_startDate Events.f_endDate
         Events.f_search]. cbn [andb].
    by rewrite !andb_true_r, bool_decide_eq_true. }
  split.
  - intros e. rewrite <- Hsel, <- Hevents, list_elem_of_fmap. split.
    + intros [x [Hx <-]]. by exists x.
    + intros [x [-> Hx]]. by exists x.
  - intros x Hx. rewrite Hentries in Hx.
    apply list_elem_of_fmap in Hx as [e [-> _]].
    cbn [Events.reminder Events.event]. unfold Events.included. f_equal.
    apply filter_ext. intros r. by rewrite andb_true_r.
Qed.

Lemma anonymous_listing_by_status_shows_every_owner_witness :
  exists x,
    x ∈ Events.r_events
          (Events.getEventsInternal Cases.database None Cases.firstPage
             Cases.drafts Cases.withDraft)
    /\ Events.event x = Cases.draft.
Proof.
  apply (proj1 (anonymous_listing_by_status_shows_every_owner
                  Cases.database Cases.firstPage Event.DRAFT Cases.withDraft
                  ltac:(intros rows; by exists rows)
                  eq_refl eq_refl ltac:(vm_compute; discriminate))
               Cases.draft).
  split; [right; left|reflexivity].
Defined.

(** X23.  The totals of a listing.  Whatever order the database returns
    the selected rows in, [totalCount] is never less than the number of
    entries of the answer, and [totalPages] is the number of pages of
    [pageSize] that [totalCount] entries fill.  [totalCount] is the
    number of events of the table that pass the filters of the query,
    unless the query failed or [hasReminder] removed an entry from the
    page: then it is the number of entries left on this page, which is
    less than [pageSize]. *)
Theorem getEventsInternal_totals
    (db : Events.Database) (userId : option string)
    (params : Events.PaginationParams) (filters : Events.EventTableFilters)
    (w : World) :
  (forall column order rows sorted,
      Events.orderBy db column order rows = Some sorted -> sorted ≡ₚ rows) ->
  let answer := Events.getEventsInternal db userId params filters w in
  let matching :=
    Z.of_nat (length (List.filter
                        (Events.matches db (Events.truthy userId) filters)
                        (events w))) in
  Z.of_nat (length (Events.r_events answer)) <= Events.totalCount answer
  /\ (0 < Events.pageSize params ->
      (Events.totalPages answer - 1) * Events.pageSize params
      < Events.totalCount answer
      <= Events.totalPages answer * Events.pageSize params)
  /\ (Events.totalCount answer = matching
      \/ answer = Events.noEvents
      \/ (is_Some (Events.f_hasReminder filters)
          /\ Events.totalCount answer
             = Z.of_nat (length (Events.r_events answer))
          /\ Events.totalCount answer < Events.pageSize params)).
Proof.
  intros Hperm. cbv zeta. unfold Events.getEventsInternal.
  destruct (negb _) eqn:Hvalid.
  { cbn. split; [lia|]. split; [|by right; left]. intros Hpos.
    unfold Events.ceilDiv. lia. }
  apply negb_false_iff, andb_true_iff in Hvalid as [_ Hsize].
  apply Z.ltb_lt in Hsize.
  set (selected := List.filter
                     (Events.matches db (Events.truthy userId) filters)
                     (events w)).
  destruct (Events.orderBy db _ _ selected) as [sorted|] eqn:Hsorted.
  2:{ cbn. split; [lia|]. split; [|by right; left]. intros Hpos. lia. }
  apply Hperm in Hsorted.
  cbn [Events.r_events Events.totalCount Events.totalPages].
  set (shown := List.map _ _).
  assert (Hshown : (length shown <= length selected)%nat
                   /\ Z.of_nat (length shown) <= Events.pageSize params).
  { unfold shown. rewrite length_map. split.
    - rewrite <- Hsorted. apply sublist_length.
      etrans; [apply sublist_take|apply sublist_drop].
    - pose proof (firstn_le_length (Z.to_nat (Events.pageSize params))
                    (drop (Z.to_nat ((Events.page params - 1)
                                     * Events.pageSize params)) sorted)).
      lia. }
  destruct Hshown as [Hshown Hroom].
  set (filtered := match Events.f_hasReminder filters with
                   | Some true => _
                   | Some false => _
                   | None => shown
                   end).
  assert (Hlen : (length filtered <= length shown)%nat).
  { unfold filtered.
    destruct (Events.f_hasReminder filters) as [[]|];
      [apply filter_length_le..|done]. }
  assert (Hset : length filtered <> length shown ->
                 is_Some (Events.f_hasReminder filters)).
  { unfold filtered.
    destruct (Events.f_hasReminder filters) as [[]|]; [by eexists..|done]. }
  destruct (length filtered =? length shown)%nat eqn:Hsame; cbn [negb].
  - apply Nat.eqb_eq in Hsame. split; [lia|]. split; [|by left].
    intros _. apply ceilDiv_bounds; lia.
  - apply Nat.eqb_neq in Hsame. split; [lia|]. split.
    + intros _. apply ceilDiv_bounds; lia.
    + right; right. split; [by apply Hset|]. split; [done|]. lia.
Qed.

Lemma getEventsInternal_totals_witness :
  Z.of_nat (length (Events.r_events
                      (Events.getEventsInternal Cases.database
                         (Some "user-123"%string) Cases.firstPage
                         Cases.noFilters Cases.withDraft)))
  <= Events.totalCount
       (Events.getEventsInternal Cases.database (Some "user-123"%string)
          Cases.firstPage Cases.noFilters Cases.withDraft).
Proof.
  refine (proj1 (getEventsInternal_totals
                   Cases.database (Some "user-123"%string) Cases.firstPage
                   Cases.noFilters Cases.withDraft _)).
  intros column order rows sorted Hsorted. injection Hsorted as <-.
  reflexivity.
Defined.

(** ** The guard in front of the routes *)

Section Guard.
Import Middleware.

Lemma prefix_app (s rest : string) : String.prefix s (s ++ rest) = true.
Proof.
  induction s as [|a s IH]; [by destruct rest|].
  change (String a s ++ rest)%string with (String a (s ++ rest)).
  cbn [String.prefix].
  destruct (Ascii.ascii_dec a a); [exact IH|done].
Qed.

Lemma isPublicRoute_spec pathname :
  isPublicRoute pathname = false
  <-> (pathname ∉ publicRoutes)
      /\ String.prefix "/api/auth" pathname = false.
Proof.
  unfold isPublicRoute, publicApiRoutes. cbn [existsb].
  by rewrite orb_false_iff, orb_false_r, bool_decide_eq_false.
Qed.

End Guard.

(** X24.  Whom [middleware] sends to the login page.  A request is
    redirected exactly when it is not a preflight, carries no token, and
    its path is neither one of ['/login'], ['/register'], ['/'] nor
    begins with ['/api/auth'].  So every path that merely begins with
    ['/api/auth'] passes without a token, and a preflight is answered
    for every path, signed in or not.  Every response carries the three
    CORS headers. *)
Theorem middleware_redirects_requests_without_token (req : Middleware.Request) :
  (Middleware.outcome (Middleware.middleware req) = Middleware.RedirectToLogin
   <-> Middleware.method req <> "OPTIONS"%string
       /\ Middleware.token req = None
       /\ (Middleware.pathname req ∉ Middleware.publicRoutes)
       /\ String.prefix "/api/auth" (Middleware.pathname req) = false)
  /\ (forall rest,
        Middleware.pathname req = ("/api/auth" ++ rest)%string ->
        Middleware.outcome (Middleware.middleware req)
        <> Middleware.RedirectToLogin)
  /\ (Middleware.method req = "OPTIONS"%string ->
      Middleware.outcome (Middleware.middleware req) = Middleware.Preflight)
  /\ (forall header,
        header ∈ Middleware.corsHeaders ->
        header ∈ Middleware.headers (Middleware.middleware req)).
Proof.
  assert (Hredirect :
    Middleware.outcome (Middleware.middleware req) = Middleware.RedirectToLogin
    <-> Middleware.method req <> "OPTIONS"%string
        /\ Middleware.token req = None
        /\ (Middleware.pathname req ∉ Middleware.publicRoutes)
        /\ String.prefix "/api/auth" (Middleware.pathname req) = false).
  { unfold Middleware.middleware. case_bool_decide as Hmethod.
    - cbn [Middleware.outcome]. split; [done|]. by intros [? _].
    - cbn [Middleware.outcome].
      destruct (Middleware.isPublicRoute _) eqn:Hpublic.
      + split; [done|]. intros (_ & _ & Hroute & Hapi).
        rewrite (proj2 (isPublicRoute_spec _)) in Hpublic; done.
      + apply isPublicRoute_spec in Hpublic as [Hroute Hapi].
        destruct (Middleware.token req); [|done].
        split; [done|]. by intros (_ & ? & _). }
  split; [exact Hredirect|]. split; [|split].
  - intros rest Hpath Hout. apply Hredirect in Hout as (_ & _ & _ & Hapi).
    by rewrite Hpath, prefix_app in Hapi.
  - intros Hmethod. unfold Middleware.middleware.
    by rewrite bool_decide_eq_true_2.
  - intros header Hin. unfold Middleware.middleware.
    case_bool_decide; cbn [Middleware.headers]; [|done].
    apply elem_of_app. by left.
Qed.

(** ** The presets of the reminder form *)

Section Presets.
Import ReminderForm.

(** The lead times the presets stand for, in milliseconds. *)
Lemma preset_times offsetChange eventDate p :
  p ∈ REMINDER_PRESETS -> unit p <> custom ->
  exists time,
    calculateReminderTime offsetChange eventDate (value p) = Some time
    /\ eventDate - time
       = match unit p with
         | minutes => amount p * 60000
         | hours => amount p * 3600000
         | days => amount p * 86400000 - offsetChange
         | custom => 0
         end
    /\ 900000 <= eventDate - time + match unit p with
                                    | days => offsetChange
                                    | _ => 0
                                    end <= 604800000.
Proof.
  intros Hp Hunit. unfold REMINDER_PRESETS in Hp.
  repeat (apply elem_of_cons in Hp as [->|Hp]);
    try (by apply elem_of_nil in Hp); try done;
    (eexists; split; [reflexivity|];
     cbn [unit amount]; unfold Scheduler.addMinutes, addHours, addDays; lia).
Qed.

End Presets.

(** X25.  The presets of the reminder form and the window of the server.
    For an event of the caller that has no reminder of theirs yet, the
    time each preset of the form puts into the field, sent to
    [createReminder], is accepted and stored with the lead time the
    preset names, as long as the local clock does not change between
    the reminder and the event.  The preset of one week lies on the
    upper bound of the window: when the clock is set back in between,
    the same local time of day a week earlier is more than seven days
    before the event, and the server refuses it. *)
Theorem presets_of_the_form_are_accepted
    (session : option Auth.Session) (user : Auth.User) (newId eventId : string)
    (w : World) (event : Event.t) (p : ReminderForm.Preset)
    (offsetChange : Z) :
  p ∈ ReminderForm.REMINDER_PRESETS ->
  ReminderForm.unit p <> ReminderForm.custom ->
  Auth.sessionUser session = Some user ->
  eventId <> ""%string ->
  ReminderActions.findEvent eventId (Auth.id user) w = Some event ->
  ReminderActions.findReminderForEvent eventId (Auth.id user) w = None ->
  (forall r, r ∈ reminders w -> Reminder.id r <> newId) ->
  exists time,
    ReminderForm.calculateReminderTime offsetChange (Event.date event)
      (ReminderForm.value p) = Some time
    /\ (offsetChange = 0 ->
        (ReminderActions.createReminder session newId
           (ReminderActions.mkInput (Some time) eventId) w).1
        = Success (Reminder.mk newId time eventId (Auth.id user))
        /\ Event.date event - time
           = match ReminderForm.unit p with
             | ReminderForm.minutes => ReminderForm.amount p * 60000
             | ReminderForm.hours => ReminderForm.amount p * 3600000
             | _ => ReminderForm.amount p * 86400000
             end)
    /\ (offsetChange < 0 -> ReminderForm.value p = "7d"%string ->
        ReminderActions.createReminder session newId
          (ReminderActions.mkInput (Some time) eventId) w
        = (Failure InvalidWindow, w))
    /\ (ReminderActions.createReminder session newId
          (ReminderActions.mkInput
             (Some (ReminderForm.defaultReminderTime (Event.date event)))
             eventId) w).1
       = Success (Reminder.mk newId (Event.date event - 3600000) eventId
                              (Auth.id user)).
Proof.
  intros Hp Hunit Huser Heid Hevent Hnone Hfresh.
  destruct (preset_times offsetChange (Event.date event) p Hp Hunit)
    as (time & Htime & Hlead & Hwindow).
  exists time. split; [exact Htime|].
  assert (Hparse : forall t,
            Validations.reminderSchema_safeParse
              (ReminderActions.toRaw
                 (ReminderActions.mkInput (Some t) eventId))
            = inl (Validations.mkReminderData eventId t)).
  { intros t. by apply safeParse_ok. }
  assert (Haccepted : forall t,
            900000 <= Event.date event - t <= 604800000 ->
            (ReminderActions.createReminder session newId
               (ReminderActions.mkInput (Some t) eventId) w).1
            = Success (Reminder.mk newId t eventId (Auth.id user))).
  { intros t Ht. unfold ReminderActions.createReminder.
    rewrite Huser, Hparse.
    cbn [Validations.eventId Validations.reminderTime].
    rewrite Hevent.
    rewrite (proj2 (createReminder_window (Event.date event) t)) by done.
    by rewrite Hnone, (reminder_create_fresh _ _ _ _ _ Hfresh). }
  split; [|split].
  - intros ->. split.
    + apply Haccepted. destruct (ReminderForm.unit p); lia.
    + rewrite Hlead. destruct (ReminderForm.unit p); try done; lia.
  - intros Hback Hweek. unfold ReminderForm.REMINDER_PRESETS in Hp.
    repeat (apply elem_of_cons in Hp as [->|Hp]);
      try (by apply elem_of_nil in Hp); try discriminate Hweek.
    cbn [ReminderForm.unit ReminderForm.amount] in Hlead.
    unfold ReminderActions.createReminder.
    rewrite Huser, Hparse.
    cbn [Validations.eventId Validations.reminderTime].
    rewrite Hevent.
    assert (Hout : ReminderActions.createReminder_outsideWindow
                     (Event.date event) time = true).
    { unfold ReminderActions.createReminder_outsideWindow. cbv zeta.
      apply orb_true_iff. right. apply Z.gtb_lt. lia. }
    by rewrite Hout.
  - unfold ReminderForm.defaultReminderTime, ReminderForm.addHours.
    replace (Event.date event + -1 * 3600000)
      with (Event.date event - 3600000) by lia.
    apply Haccepted. lia.
Qed.

Lemma presets_of_the_form_are_accepted_witness :
  exists time,
    ReminderForm.calculateReminderTime 0 Scenario.T "7d" = Some time
    /\ (ReminderActions.createReminder Scenario.session "reminder-123"
          (ReminderActions.mkInput (Some time) "event-123") Scenario.fresh).1
       = Success (Reminder.mk "reminder-123" time "event-123" "user-123").
Proof.
  destruct (presets_of_the_form_are_accepted
              Scenario.session (Auth.mkUser "user-123" "test@example.com")
              "reminder-123" "event-123" Scenario.fresh Scenario.event
              (ReminderForm.mkPreset "1 week before" "7d"
                                     ReminderForm.days 7) 0)
    as (time & Htime & Hok & _).
  - do 6 right. left.
  - discriminate.
  - reflexivity.
  - discriminate.
  - reflexivity.
  - reflexivity.
  - intros r Hr. by apply elem_of_nil in Hr.
  - exists time. split; [exact Htime|]. by apply Hok.
Defined.

(** ** Texts for spans of time *)

(** X26.  [formatRelativeTime] rounds down to the unit it prints.  For a
    span that is not negative the text names whole minutes below an
    hour, whole hours below a day and whole days from there on, and the
    span lies between the number printed and the next one.  For a lead
    time inside the window, which is what the actions log, the text
    reads from ["15m before"] to ["7d before"]. *)
Theorem formatRelativeTime_rounds_down (milliseconds : Z) :
  0 <= milliseconds ->
  match Spans.formatRelativeTime milliseconds with
  | Spans.MinutesBefore n =>
      0 <= n < 60
      /\ n * 60000 <= milliseconds < (n + 1) * 60000
      /\ (900000 <= milliseconds -> 15 <= n)
  | Spans.HoursBefore n =>
      1 <= n < 24 /\ n * 3600000 <= milliseconds < (n + 1) * 3600000
  | Spans.DaysBefore n =>
      1 <= n
      /\ n * 86400000 <= milliseconds < (n + 1) * 86400000
      /\ (milliseconds <= 604800000 -> n <= 7)
  end.
Proof.
  intros Hpos. unfold Spans.formatRelativeTime. cbv zeta.
  change (60 * 1000) with 60000.
  destruct (milliseconds / 60000 <? 60) eqn:Hm.
  { apply Z.ltb_lt in Hm. Z.div_mod_to_equations. lia. }
  apply Z.ltb_ge in Hm.
  destruct (milliseconds / 60000 / 60 <? 24) eqn:Hh.
  { apply Z.ltb_lt in Hh. Z.div_mod_to_equations. lia. }
  apply Z.ltb_ge in Hh. Z.div_mod_to_equations. lia.
Qed.

Lemma formatRelativeTime_rounds_down_witness :
  Spans.formatRelativeTime 604800000 = Spans.DaysBefore 7
  /\ 1 <= 7
  /\ 7 * 86400000 <= 604800000 < (7 + 1) * 86400000
  /\ (604800000 <= 604800000 -> 7 <= 7).
Proof.
  split; [reflexivity|].
  exact (formatRelativeTime_rounds_down 604800000 ltac:(lia)).
Defined.

(** X27.  [getTimeDifference] rounds down to the smaller unit it prints.
    It answers ['Past'] exactly for the dates [isPastDate] calls past.
    Otherwise it prints days and hours from one day on, hours and
    minutes from one hour on, and minutes below; the hours are below 24
    and the minutes below 60, and the difference lies between what is
    printed and one more of the smaller unit. *)
Theorem getTimeDifference_rounds_down (now date : Z) :
  (Spans.getTimeDifference now date = Spans.Past
   <-> Spans.isPastDate now date = true)
  /\ match Spans.getTimeDifference now date with
     | Spans.Past => date < now
     | Spans.DaysHours d h =>
         1 <= d /\ 0 <= h < 24
         /\ d * 86400000 + h * 3600000 <= date - now
            < d * 86400000 + (h + 1) * 3600000
     | Spans.HoursMinutes h m =>
         1 <= h < 24 /\ 0 <= m < 60
         /\ h * 3600000 + m * 60000 <= date - now
            < h * 3600000 + (m + 1) * 60000
     | Spans.Minutes m =>
         0 <= m < 60 /\ m * 60000 <= date - now < (m + 1) * 60000
     end.
Proof.
  unfold Spans.getTimeDifference, Spans.isPastDate. cbv zeta.
  change (1000 * 60 * 60 * 24) with 86400000.
  change (1000 * 60 * 60) with 3600000.
  change (1000 * 60) with 60000.
  destruct (date - now <? 0) eqn:Hpast.
  { apply Z.ltb_lt in Hpast. split; [|lia]. split; [|done].
    intros _. apply Z.ltb_lt. lia. }
  apply Z.ltb_ge in Hpast.
  rewrite !Z.rem_mod_nonneg by lia.
  assert (Hnot : (date <? now) = false) by (apply Z.ltb_ge; lia).
  destruct ((date - now) / 86400000 >? 0) eqn:Hd.
  { apply Z.gtb_lt in Hd. split; [by rewrite Hnot|].
    Z.div_mod_to_equations. lia. }
  rewrite Z.gtb_ltb in Hd. apply Z.ltb_ge in Hd.
  destruct ((date - now) mod 86400000 / 3600000 >? 0) eqn:Hh.
  { apply Z.gtb_lt in Hh. split; [by rewrite Hnot|].
    Z.div_mod_to_equations. lia. }
  rewrite Z.gtb_ltb in Hh. apply Z.ltb_ge in Hh.
  split; [by rewrite Hnot|]. Z.div_mod_to_equations. lia.
Qed.

(** ** Accounts *)

Section Users.
Import Accounts.

Lemma registerSchema_safeParse_Some lib raw data :
  registerSchema_safeParse lib raw = Some data ->
  raw_name raw = Some (reg_name data)
  /\ raw_email raw = Some (reg_email data)
  /\ raw_password raw = Some (reg_password data)
  /\ raw_confirmPassword raw = Some (reg_password data)
  /\ isEmail lib (reg_email data) = true
  /\ (8 <= String.length (reg_password data))%nat.
Proof.
  unfold registerSchema_safeParse.
  destruct (raw_name raw) as [n|]; [|done].
  destruct (raw_email raw) as [e|]; [|done].
  destruct (raw_password raw) as [p|]; [|done].
  destruct (raw_confirmPassword raw) as [c|]; [|done].
  destruct (_ && _) eqn:Hok; [|done]. intros [= <-].
  cbn [reg_name reg_email reg_password].
  apply andb_true_iff in Hok as [Hok Hsame].
  apply andb_true_iff in Hok as [Hok Hconfirm].
  apply andb_true_iff in Hok as [Hok Hlong].
  apply andb_true_iff in Hok as [Hname Hmail].
  apply bool_decide_eq_true in Hsame as <-.
  apply Nat.leb_le in Hlong. done.
Qed.

Lemma findUnique_Some email users u :
  findUnique email users = Some u -> u ∈ users /\ Accounts.email u = email.
Proof.
  intros H. apply find_some in H as [Hin Hp].
  apply bool_decide_eq_true in Hp. by rewrite list_elem_of_In.
Qed.

Lemma findUnique_None email users :
  findUnique email users = None
  <-> forall u, u ∈ users -> Accounts.email u <> email.
Proof.
  unfold findUnique. rewrite find_None_iff.
  split; intros H u Hu; specialize (H u Hu).
  - by apply bool_decide_eq_false in H.
  - by apply bool_decide_eq_false.
Qed.

End Users.

(** X28.  Who has registered can sign in.  When bcrypt's [compare]
    accepts a password against its own [hash], a registration that
    succeeds adds one account, [authorize] then accepts the address and
    the password of the form and returns the id, the name and the
    address of that account, and a second registration with the same
    address is refused and changes nothing. *)
Theorem a_registered_user_can_sign_in
    (lib : Accounts.Libraries) (newId newId' : string)
    (raw : Accounts.RawRegistration) (users : list Accounts.User) :
  (forall pw, Accounts.compare lib pw (Accounts.hash lib pw) = true) ->
  (Accounts.register lib newId raw users).1 = None ->
  let users' := (Accounts.register lib newId raw users).2 in
  exists account,
    users' = users ++ [account]
    /\ Accounts.id account = newId
    /\ Some (Accounts.name account) = Accounts.raw_name raw
    /\ Some (Accounts.email account) = Accounts.raw_email raw
    /\ Accounts.authorize lib
         (Accounts.mkCredentials (Accounts.raw_email raw)
                                 (Accounts.raw_password raw)) users'
       = Some (Accounts.mkIdentity newId (Accounts.name account)
                                   (Accounts.email account))
    /\ Accounts.register lib newId' raw users' = (Some Accounts.EmailTaken, users').
Proof.
  intros Hbcrypt. cbv zeta. unfold Accounts.register.
  destruct (Accounts.registerSchema_safeParse lib raw) as [data|] eqn:Hparse;
    [|done].
  destruct (Accounts.findUnique (Accounts.reg_email data) users) eqn:Hfree;
    [done|].
  case_bool_decide as Hid; [done|]. intros _. cbn [snd].
  apply registerSchema_safeParse_Some in Hparse
    as (Hname & Hmail & Hpw & _ & Hvalid & Hlong).
  eexists. split; [reflexivity|].
  cbn [Accounts.id Accounts.name Accounts.email].
  split; [done|]. split; [done|]. split; [done|].
  assert (Hfound :
    Accounts.findUnique (Accounts.reg_email data)
      (users ++ [Accounts.mkUser newId (Accounts.reg_name data)
                   (Accounts.reg_email data)
                   (Accounts.hash lib (Accounts.reg_password data))])
    = Some (Accounts.mkUser newId (Accounts.reg_name data)
              (Accounts.reg_email data)
              (Accounts.hash lib (Accounts.reg_password data)))).
  { unfold Accounts.findUnique in *. rewrite find_append, Hfree.
    cbn [List.find Accounts.email]. by rewrite bool_decide_eq_true_2. }
  split.
  - unfold Accounts.authorize, Accounts.loginSchema_safeParse.
    cbn [Accounts.cred_email Accounts.cred_password].
    rewrite Hmail, Hpw, Hvalid.
    rewrite (proj2 (Nat.leb_le 8 _) Hlong). cbn [andb].
    rewrite Hfound. cbn [Accounts.password Accounts.id Accounts.name
                         Accounts.email].
    by rewrite Hbcrypt.
  - by rewrite Hfound.
Qed.

Lemma a_registered_user_can_sign_in_witness :
  Accounts.authorize Cases.libraries
    (Accounts.mkCredentials (Some "ada@example.com"%string)
                            (Some "correct horse"%string))
    (Accounts.register Cases.libraries "user-1" Cases.registration []).2
  = Some (Accounts.mkIdentity "user-1" "Ada" "ada@example.com").
Proof.
  destruct (a_registered_user_can_sign_in Cases.libraries "user-1" "user-2"
              Cases.registration [])
    as (account & Hrows & _ & Hname & Hmail & Hsign & _).
  - intros pw. cbn. by rewrite bool_decide_eq_true_2.
  - reflexivity.
  - injection Hname as Hname. injection Hmail as Hmail.
    rewrite Hname, Hmail in Hsign. exact Hsign.
Defined.

(** X29.  One account per address.  With ids and addresses that are
    unique in the [User] table, they still are after [register],
    whatever the form and the outcome; [register] changes and removes
    no account; and [authorize] returns an identity only for an account
    of the table with the address given, whose stored hash bcrypt's
    [compare] accepts for the password given. *)
Theorem accounts_stay_unique_and_authorize_is_sound
    (lib : Accounts.Libraries) (newId : string)
    (raw : Accounts.RawRegistration) (credentials : Accounts.Credentials)
    (users : list Accounts.User) :
  NoDup (map Accounts.id users) ->
  NoDup (map Accounts.email users) ->
  let users' := (Accounts.register lib newId raw users).2 in
  NoDup (map Accounts.id users')
  /\ NoDup (map Accounts.email users')
  /\ (exists added, users' = users ++ added)
  /\ (forall identity,
        Accounts.authorize lib credentials users = Some identity ->
        exists account pw,
          account ∈ users
          /\ Accounts.cred_email credentials = Some (Accounts.email account)
          /\ Accounts.cred_password credentials = Some pw
          /\ Accounts.compare lib pw (Accounts.password account) = true
          /\ identity = Accounts.mkIdentity (Accounts.id account)
                          (Accounts.name account) (Accounts.email account)).
Proof.
  intros Hids Hmails. cbv zeta. split; [|split; [|split]].
  - unfold Accounts.register.
    destruct (Accounts.registerSchema_safeParse lib raw) as [data|]; [|done].
    destruct (Accounts.findUnique _ users); [done|].
    case_bool_decide as Hid; [done|]. cbn [snd].
    rewrite map_app. apply NoDup_app. split; [done|].
    split; [|apply NoDup_singleton].
    intros x Hx Hx'. apply list_elem_of_singleton in Hx'. by subst.
  - unfold Accounts.register.
    destruct (Accounts.registerSchema_safeParse lib raw) as [data|]; [|done].
    destruct (Accounts.findUnique _ users) eqn:Hfree; [done|].
    case_bool_decide as Hid; [done|]. cbn [snd].
    rewrite map_app. apply NoDup_app. split; [done|].
    split; [|apply NoDup_singleton].
    intros x Hx Hx'. apply list_elem_of_singleton in Hx'.
    cbn [Accounts.email] in Hx'. subst x.
    apply list_elem_of_fmap in Hx as [u [Hu Hin]].
    rewrite findUnique_None in Hfree. by destruct (Hfree u Hin).
  - unfold Accounts.register.
    destruct (Accounts.registerSchema_safeParse lib raw) as [data|];
      [|by exists []; rewrite app_nil_r].
    destruct (Accounts.findUnique _ users);
      [by exists []; rewrite app_nil_r|].
    case_bool_decide; [by exists []; rewrite app_nil_r|by eexists].
  - intros identity. unfold Accounts.authorize, Accounts.loginSchema_safeParse.
    destruct (Accounts.cred_email credentials) as [e|]; [|done].
    destruct (Accounts.cred_password credentials) as [p|]; [|done].
    destruct (_ && _); [|done].
    destruct (Accounts.findUnique e users) as [u|] eqn:Hfound; [|done].
    apply findUnique_Some in Hfound as [Hin <-].
    destruct (Accounts.compare lib p (Accounts.password u)) eqn:Hok; [|done].
    intros [= <-]. by exists u, p.
Qed.

Lemma accounts_stay_unique_and_authorize_is_sound_witness :
  NoDup (map Accounts.email
           (Accounts.register Cases.libraries "user-1" Cases.registration
              Cases.users).2)
  /\ length (Accounts.register Cases.libraries "user-1" Cases.registration
               Cases.users).2 = 2%nat.
Proof.
  split; [|reflexivity].
  refine (proj1 (proj2 (accounts_stay_unique_and_authorize_is_sound
                          Cases.libraries "user-1" Cases.registration
                          (Accounts.mkCredentials
                             (Some "bob@example.com"%string)
                             (Some "hunter2hunter2"%string))
                          Cases.users _ _))).
  - apply NoDup_singleton.
  - apply NoDup_singleton.
Defined.

(** ** Saving a reminder once more *)

Section Upsert.
Import Validations ReminderActions.

Lemma set_reminderTime_twice time (r : Reminder.t) :
  Reminder.set_reminderTime time (Reminder.set_reminderTime time r)
  = Reminder.set_reminderTime time r.
Proof. done. Qed.

(** Writing the same time to the rows of an id once more changes
    nothing. *)
Lemma update_twice rid time (rows : list Reminder.t) :
  let write r := if bool_decide (Reminder.id r = rid)
                 then Reminder.set_reminderTime time r else r in
  List.map write (List.map write rows) = List.map write rows.
Proof.
  cbv zeta. rewrite map_map. apply map_ext. intros r.
  destruct (decide (Reminder.id r = rid)) as [Hid|Hid].
  - rewrite (bool_decide_eq_true_2 _ Hid).
    cbn [Reminder.id Reminder.set_reminderTime].
    by rewrite (bool_decide_eq_true_2 _ Hid).
  - by rewrite !(bool_decide_eq_false_2 _ Hid).
Qed.

Lemma find_map_preserving {A} (p : A -> bool) (g : A -> A) (l : list A) :
  (forall x, p (g x) = p x) ->
  List.find p (List.map g l) = g <$> List.find p l.
Proof.
  intros Hp. induction l as [|a l IH]; [done|]. cbn [List.map List.find].
  rewrite Hp. by destruct (p a).
Qed.

End Upsert.

(** X30.  Saving a reminder through [createOrUpdateReminder] once more
    writes the values that are there.  After a call that succeeds, the
    same form submitted again succeeds and returns a reminder of the same
    id, event, owner and [reminderTime]; row by row the [Reminder] table
    holds these same values afterwards, and the events and the job
    processor are as the first call left them, whether the first call
    created the row or updated it.  The second call does write its row
    again: [updatedAt] is outside this statement. *)
Theorem createOrUpdateReminder_again_writes_the_same_values
    (session : option Auth.Session) (newId newId' : string)
    (rawData : Validations.RawReminder) (w : World) (saved : Reminder.t) :
  (ReminderActions.createOrUpdateReminder session newId rawData w).1
  = Success saved ->
  let first := ReminderActions.createOrUpdateReminder session newId rawData w in
  let second :=
    ReminderActions.createOrUpdateReminder session newId' rawData first.2 in
  (exists again, second.1 = Success again /\ sameValues again saved)
  /\ Forall2 sameValues (reminders second.2) (reminders first.2)
  /\ events second.2 = events first.2
  /\ reminderService second.2 = reminderService first.2.
Proof.
  intros Hsaved. cbv zeta.
  assert (Hagain :
    ReminderActions.createOrUpdateReminder session newId' rawData
      (ReminderActions.createOrUpdateReminder session newId rawData w).2
    = (Success saved,
       (ReminderActions.createOrUpdateReminder session newId rawData w).2)).
  { revert Hsaved.
    unfold ReminderActions.createOrUpdateReminder.
    destruct (Auth.sessionUser session) as [user|]; [|done].
    destruct (Validations.reminderSchema_safeParse rawData) as [vd|]; [|done].
    destruct (ReminderActions.findEvent _ _ w) as [event|] eqn:Hevent; [|done].
    destruct (ReminderActions.createOrUpdateReminder_outsideWindow _ _)
      eqn:Hwindow; [done|].
    set (time := Validations.reminderTime vd) in *.
    set (eid := Validations.eventId vd) in *.
    set (uid := Auth.id user) in *.
    destruct (ReminderActions.findReminderForEvent eid uid w) as [existing|]
      eqn:Hexisting.
    - (* the first call updated the row *)
      unfold Prisma.reminder_update.
      destruct (Prisma.reminder_byId (Reminder.id existing) (reminders w))
        as [first|] eqn:Hfirst; [|done].
      cbn [fst snd]. intros [= <-].
      set (write := fun r => if bool_decide (Reminder.id r = Reminder.id existing)
                             then Reminder.set_reminderTime time r else r).
      unfold ReminderActions.findEvent in *. cbn [events]. rewrite Hevent, Hwindow.
      unfold ReminderActions.findReminderForEvent in *. cbn [reminders].
      rewrite (find_map_preserving _ write).
      2:{ intros r. unfold write.
          by destruct (bool_decide (Reminder.id r = Reminder.id existing)). }
      rewrite Hexisting. cbn [fmap option_fmap option_map].
      assert (Hid : Reminder.id (write existing) = Reminder.id existing).
      { unfold write.
        by destruct (bool_decide (Reminder.id existing = Reminder.id existing)). }
      rewrite Hid. unfold Prisma.reminder_byId in *.
      rewrite (find_map_preserving _ write).
      2:{ intros r. unfold write.
          destruct (decide (Reminder.id r = Reminder.id existing)) as [Hr|Hr].
          - rewrite (bool_decide_eq_true_2 _ Hr).
            cbn [Reminder.id Reminder.set_reminderTime].
            by rewrite (bool_decide_eq_true_2 _ Hr).
          - by rewrite !(bool_decide_eq_false_2 _ Hr). }
      rewrite Hfirst. cbn [fmap option_fmap option_map].
      fold write. rewrite (update_twice (Reminder.id existing) time).
      apply byId_Some in Hfirst as [_ Hfid]. unfold write at 1.
      by rewrite (bool_decide_eq_true_2 _ Hfid).
    - (* the first call created the row *)
      unfold Prisma.reminder_create.
      destruct (Prisma.reminder_byId newId (reminders w)) eqn:Hfresh; [done|].
      cbn [fst snd]. intros [= <-].
      unfold ReminderActions.findEvent in *. cbn [events]. rewrite Hevent, Hwindow.
      unfold ReminderActions.findReminderForEvent in *. cbn [reminders].
      rewrite find_append, Hexisting.
      cbn [List.find Reminder.eventId Reminder.userId].
      rewrite !bool_decide_eq_true_2 by done. cbn [andb Reminder.id].
      unfold Prisma.reminder_update, Prisma.reminder_byId in *.
      rewrite find_append, Hfresh. cbn [List.find Reminder.id].
      rewrite bool_decide_eq_true_2 by done.
      rewrite map_app. cbn [List.map Reminder.id].
      rewrite bool_decide_eq_true_2 by done.
      rewrite find_None_iff in Hfresh.
      rewrite (map_ext_in _ id), map_id; [done|].
      intros r Hr. apply list_elem_of_In, Hfresh in Hr. by rewrite Hr. }
  rewrite Hagain. cbn [fst snd]. split; [|split; [|done]].
  - by exists saved.
  - apply Forall_Forall2_diag, Forall_forall. by intros r _.
Qed.

Lemma createOrUpdateReminder_again_writes_the_same_values_witness :
  Forall2 sameValues
    (reminders
       (ReminderActions.createOrUpdateReminder Scenario.session "reminder-457"
          (Validations.mkRawReminder (Some "event-123"%string)
                                     (Some (Scenario.T - 3 * Scenario.hour)))
          (ReminderActions.createOrUpdateReminder Scenario.session
             "reminder-456"
             (Validations.mkRawReminder (Some "event-123"%string)
                                        (Some (Scenario.T - 3 * Scenario.hour)))
             Scenario.world).2).2)
    (reminders
       (ReminderActions.createOrUpdateReminder Scenario.session "reminder-456"
          (Validations.mkRawReminder (Some "event-123"%string)
                                     (Some (Scenario.T - 3 * Scenario.hour)))
          Scenario.world).2).
Proof.
  refine (proj1 (proj2
            (createOrUpdateReminder_again_writes_the_same_values
               Scenario.session "reminder-456" "reminder-457"
               (Validations.mkRawReminder
                  (Some "event-123"%string)
                  (Some (Scenario.T - 3 * Scenario.hour)))
               Scenario.world
               (Reminder.mk "reminder-123" (Scenario.T - 3 * Scenario.hour)
                            "event-123" "user-123") _))).
  vm_compute. reflexivity.
Defined.
